(** * lie-vae: dataset bookkeeping, decoder shapes and the training driver

    A shallow embedding of the three Python sources of the repository
    ([lie_vae/datasets.py], [lie_vae/main.py], [supervised_experiment.py])
    and the properties established about them.

    Conventions.
    - A Python call that may raise is a function into [result]; the
      exception class is kept, together with the message where the source
      gives one.
    - Python [int] is [Z]; a Python [float] is kept as the exact rational it
      denotes ([Q]) or, for the Lie-group part, as a real number ([R]);
      binary rounding is not part of the model.
    - [str] is [string] (one character per code point below 128).
    - Tensors are kept as a shape together with the symbolic term that
      computes them: the numeric kernels of torch, numpy and lie_learn are
      uninterpreted. *)

From Stdlib Require Import Reals Qreals Lra RNsatz QArith ZArith Ascii String List Lia.
From stdpp Require Import gmap strings list.

Set Warnings "-register-all".
Local Open Scope string_scope.
Local Open Scope Z_scope.

(* ================================================================== *)
(** * Part I. The embedding                                            *)
(* ================================================================== *)

(** ** Python exceptions and results *)

Inductive exn_kind : Type :=
  | AssertionError | TypeError | KeyError | IndexError | ImportError
  | RuntimeError | ZeroDivisionError | ValueError | OSError.

Inductive result (A : Type) : Type :=
  | Ok (a : A)
  | Raise (k : exn_kind) (msg : string).
Arguments Ok {A} a.
Arguments Raise {A} k msg.

#[global] Instance result_ret : MRet result := fun A a => Ok a.
#[global] Instance result_bind : MBind result := fun A B f m =>
  match m with
  | Ok a => f a
  | Raise k msg => Raise k msg
  end.
#[global] Instance result_fmap : FMap result := fun A B f m =>
  match m with
  | Ok a => Ok (f a)
  | Raise k msg => Raise k msg
  end.

Definition raises {A} (m : result A) (k : exn_kind) : Prop :=
  exists msg, m = Raise k msg.

Definition returns {A} (m : result A) : Prop :=
  exists a, m = Ok a.

(** [assert cond, msg] *)
Definition py_assert (cond : bool) (msg : string) : result unit :=
  if cond then Ok tt else Raise AssertionError msg.

(** ** Strings: the two regular expressions and [os.path.join] *)

Module PyStr.

Definition is_digit (c : ascii) : bool :=
  let n := nat_of_ascii c in ((48 <=? n) && (n <=? 57))%nat.

(** The character class [[01]]. *)
Definition is_01 (c : ascii) : bool :=
  let n := nat_of_ascii c in ((n =? 48) || (n =? 49))%nat.

Definition is_dot (c : ascii) : bool := (nat_of_ascii c =? 46)%nat.
Definition is_minus (c : ascii) : bool := (nat_of_ascii c =? 45)%nat.

(** [[01]\.[0-9]{4}] anchored at the head of [s]: the matched text. *)
Definition match_unsigned (s : string) : option string :=
  match s with
  | String a (String b (String d1 (String d2 (String d3 (String d4 _))))) =>
      if is_01 a && is_dot b && is_digit d1 && is_digit d2
         && is_digit d3 && is_digit d4
      then Some (String a (String b (String d1 (String d2
                   (String d3 (String d4 EmptyString))))))
      else None
  | _ => None
  end.

(** [-?[01]\.[0-9]{4}] anchored at the head of [s].  The optional sign is
    greedy: the engine first tries to consume a minus, and falls back to
    the empty alternative when the rest does not match. *)
Definition match_at (s : string) : option string :=
  match s with
  | String c s' =>
      if is_minus c then
        match match_unsigned s' with
        | Some m => Some (String c m)
        | None => match_unsigned s
        end
      else match_unsigned s
  | EmptyString => None
  end.

(** [re.findall(r'-?[01]\.[0-9]{4}', s)]: the scan tries every position
    from the left; after a match it resumes right behind the matched
    text.  [skip] counts the characters of the last match that are still
    to be stepped over. *)
Fixpoint findall_from (skip : nat) (s : string) : list string :=
  match s with
  | EmptyString => []
  | String _ s' =>
      match skip with
      | S k => findall_from k s'
      | O =>
          match match_at s with
          | Some m => m :: findall_from (Nat.pred (String.length m)) s'
          | None => findall_from O s'
          end
      end
  end.

Definition findall_quaternion (s : string) : list string := findall_from O s.

(** *** [float(x)] on a decimal literal *)

Definition digit_value (c : ascii) : Z := Z.of_nat (nat_of_ascii c) - 48.

(** Digits up to the first non-digit: their value, how many there were,
    and the rest of the text. *)
Fixpoint read_digits (acc : Z) (n : nat) (s : string) : Z * nat * string :=
  match s with
  | String c s' =>
      if is_digit c then read_digits (10 * acc + digit_value c) (S n) s'
      else (acc, n, s)
  | EmptyString => (acc, n, s)
  end.

(** [float] on texts of the form [-?digits.digits]; anything else is a
    [ValueError] here (the source only converts texts the pattern matched). *)
Definition float_of_unsigned (s : string) : result Q :=
  let '(ip, ni, rest) := read_digits 0 O s in
  match rest with
  | String c frac =>
      if is_dot c then
        let '(fp, nf, rest') := read_digits 0 O frac in
        match rest' with
        | EmptyString =>
            if ((ni =? 0) && (nf =? 0))%nat
            then Raise ValueError "could not convert string to float"
            else Ok (Qmake (ip * 10 ^ Z.of_nat nf + fp)
                           (Z.to_pos (10 ^ Z.of_nat nf)))
        | _ => Raise ValueError "could not convert string to float"
        end
      else Raise ValueError "could not convert string to float"
  | EmptyString => Raise ValueError "could not convert string to float"
  end.

Definition float (s : string) : result Q :=
  match s with
  | String c s' =>
      if is_minus c then Qopp <$> float_of_unsigned s'
      else float_of_unsigned s
  | EmptyString => Raise ValueError "could not convert string to float"
  end.

(** *** [([A-z0-9]+)\.obj] *)

(** The class [[A-z0-9]]: the range [A-z] also holds the six characters
    between [Z] and [a]. *)
Definition is_name_char (c : ascii) : bool :=
  let n := nat_of_ascii c in
  (((48 <=? n) && (n <=? 57)) || ((65 <=? n) && (n <=? 122)))%nat.

Definition starts_with (p s : string) : bool :=
  String.eqb p (String.substring 0 (String.length p) s).

(** [re.findall(r'([A-z0-9]+)\.obj', s)]: the list of first groups.  The
    dot is not in the class, so a match at some position is the maximal
    run of class characters from there followed by [.obj]; the leftmost
    match of a run starts at its first character.  [run] is the run read
    so far, [skip] the part of the last match still to step over. *)
Fixpoint findall_obj_from (skip : nat) (run : string) (s : string)
  : list string :=
  match s with
  | EmptyString => []
  | String c s' =>
      match skip with
      | S k => findall_obj_from k EmptyString s'
      | O =>
          if is_name_char c
          then findall_obj_from O (run ++ String c EmptyString) s'
          else if negb (String.eqb run EmptyString) && starts_with ".obj" s
               then run :: findall_obj_from 3 EmptyString s'
               else findall_obj_from O EmptyString s'
      end
  end.

Definition findall_obj (s : string) : list string :=
  findall_obj_from O EmptyString s.

(** [re.search(r'([A-z0-9]+)\.obj', s)]: group 1 of the leftmost match. *)
Definition search_obj (s : string) : option string := head (findall_obj s).

(** *** [os.path.join] (posixpath, two components) *)

Definition ends_with_slash (s : string) : bool :=
  match String.get (Nat.pred (String.length s)) s with
  | Some c => (nat_of_ascii c =? 47)%nat
  | None => false
  end.

Definition os_path_join (a b : string) : string :=
  if starts_with "/" b then b
  else if String.eqb a EmptyString || ends_with_slash a then a ++ b
  else a ++ "/" ++ b.

(** *** [str.splitlines] *)

(** Line boundaries below code point 128: LF, VT, FF, CR, FS, GS, RS; a CR
    directly followed by LF is one boundary. *)
Definition is_line_end (c : ascii) : bool :=
  let n := nat_of_ascii c in
  (((10 <=? n) && (n <=? 13)) || ((28 <=? n) && (n <=? 30)))%nat.

Fixpoint splitlines_from (cur : string) (s : string) : list string :=
  match s with
  | EmptyString => if String.eqb cur EmptyString then [] else [cur]
  | String c s' =>
      if is_line_end c then
        match s' with
        | String c2 s'' =>
            if ((nat_of_ascii c =? 13) && (nat_of_ascii c2 =? 10))%nat
            then cur :: splitlines_from EmptyString s''
            else cur :: splitlines_from EmptyString s'
        | EmptyString => [cur]
        end
      else splitlines_from (cur ++ String c EmptyString) s'
  end.

Definition splitlines (s : string) : list string :=
  splitlines_from EmptyString s.

End PyStr.

(** ** Python values that cross call boundaries as keyword arguments *)

Inductive pyval : Type :=
  | VNone
  | VBool (b : bool)
  | VInt (z : Z)
  | VFloat (q : Q)
  | VStr (s : string)
  | VObj (name : string)       (* an object the model does not look into *)
  (* [lie_vae.utils.LinearSchedule(start_y, end_y, start_x, end_x)] *)
  | VLinearSchedule (start_y end_y : Q) (start_x end_x : Z)
  (* [lie_vae.beta_schedule.get_beta_schedule(name, beta)] *)
  | VBetaSchedule (name : option string) (beta : Q).

(** [l[idx]] on a Python list: negative indices count from the end. *)
Definition py_index {A} (l : list A) (idx : Z) : result A :=
  let n := Z.of_nat (length l) in
  let i := if idx <? 0 then idx + n else idx in
  if (0 <=? i) && (i <? n) then
    match l !! Z.to_nat i with
    | Some x => Ok x
    | None => Raise IndexError "list index out of range"
    end
  else Raise IndexError "list index out of range".

(** ** Tensors: a shape and the symbolic term that computes the values *)

Module Torch.

Inductive op : Type :=
  | ImageArray (path : string)      (* np.array(Image.open(path)) *)
  | ToFloat32                       (* torch.tensor(_, dtype=torch.float32) *)
  | DivScalar (k : Z)               (* _ / k *)
  | MeanLast                        (* _.mean(-1) *)
  | Unsqueeze0                      (* _.unsqueeze(0) *)
  | Permute201                      (* _.permute(2, 0, 1) *)
  | SO3_coordinates (src dst : string)   (* lie_learn change_coordinates *)
  | GroupMatrixToEazyz              (* lie_tools.group_matrix_to_eazyz *)
  | GroupMatrixToQuaternions        (* lie_tools.group_matrix_to_quaternions *)
  | BlockWignerMatrixMultiply (degrees : Z)
  | Rodrigues                       (* lie_tools.rodrigues *)
  | View (sizes : list Z)           (* _.view(sizes), -1 already inferred *)
  | Expand (sizes : list Z)         (* _.expand(sizes) *)
  | Cat1                            (* torch.cat((_, _), 1) *)
  | NoneNone                        (* _[:, :, None, None] *)
  | Channel0                        (* _[:, 0, :, :] *)
  | Pixel00                         (* _[:, :, 0, 0] *)
  | Cols (from : Z) (to : option Z) (* _[:, from:to] *)
  | Layer (name : string) (args : list Z)   (* a torch.nn layer *)
  | LearnedMLP (input_dims output_dims hidden_dims num_layers : Z)
  | Eye10Rows.                      (* torch.eye(10)[_] *)

Inductive term : Type :=
  | Var (name : string)             (* an input or a learned parameter *)
  | Floats (qs : list Q)            (* a Python list of floats *)
  | App (f : op) (args : list term).

Record tensor : Type := { shape : list Z; val : term }.

Definition numel (sh : list Z) : Z := foldr Z.mul 1 sh.

Definition dim (t : tensor) : Z := Z.of_nat (length (shape t)).

Definition to_float32 (t : tensor) : tensor :=
  {| shape := shape t; val := App ToFloat32 [val t] |}.

Definition div_scalar (t : tensor) (k : Z) : tensor :=
  {| shape := shape t; val := App (DivScalar k) [val t] |}.

(** [t.mean(-1)] drops the last dimension. *)
Definition mean_last (t : tensor) : tensor :=
  {| shape := removelast (shape t); val := App MeanLast [val t] |}.

Definition unsqueeze0 (t : tensor) : tensor :=
  {| shape := 1 :: shape t; val := App Unsqueeze0 [val t] |}.

(** [t.permute(2, 0, 1)] needs exactly three dimensions. *)
Definition permute201 (t : tensor) : result tensor :=
  match shape t with
  | [h; w; c] => Ok {| shape := [c; h; w]; val := App Permute201 [val t] |}
  | _ => Raise RuntimeError "permute: number of dims does not match"
  end.

End Torch.

(** ** The world outside the interpreter *)

(** File system and image decoding, as far as the datasets use them. *)
Record Lib : Type := {
  os_path_exists : string -> bool;
  (** [open(p, 'r').read()] *)
  open_read : string -> result string;
  (** [glob(pattern, recursive=True)] *)
  glob : string -> list string;
  (** shape of [np.array(Image.open(p))], or the error of opening [p] *)
  image_shape : string -> result (list Z)
}.

(** ** [lie_vae/datasets.py] *)

Module Datasets.
Import PyStr Torch.

(** The names bound at module level, in order: imports, then classes. *)
Definition module_names : list string :=
  ["re"; "np"; "os"; "glob"; "torch"; "Image"; "Dataset"; "TensorDataset";
   "SO3_coordinates";
   "ShapeDataset"; "NamedDataset"; "SelectedDataset"; "ObjectsDataset";
   "ThreeObjectsDataset"; "HumanoidDataset"; "ColorHumanoidDataset";
   "SingleChairDataset"; "CubeDataset"].

Inductive dataset_class : Type :=
  | ShapeDataset | NamedDataset | SelectedDataset | ObjectsDataset
  | ThreeObjectsDataset | HumanoidDataset | ColorHumanoidDataset
  | SingleChairDataset.

(** Class attributes, resolved along the inheritance chain. *)
Definition rgb (c : dataset_class) : bool :=
  match c with ColorHumanoidDataset => true | _ => false end.

Definition single_id (c : dataset_class) : bool :=
  match c with SingleChairDataset => true | _ => false end.

Definition is_named (c : dataset_class) : bool :=
  match c with
  | NamedDataset | SelectedDataset | ObjectsDataset | ThreeObjectsDataset => true
  | _ => false
  end.

Definition data_path (c : dataset_class) : option string :=
  match c with
  | SelectedDataset => Some "data/chairs/ten"
  | ObjectsDataset => Some "data/objects"
  | ThreeObjectsDataset => Some "data/objects3"
  | _ => None
  end.

Definition names_path (c : dataset_class) : option string :=
  match c with
  | SelectedDataset => Some "data/chairs/selected_chairs.txt"
  | ObjectsDataset => Some "data/objects/objects.txt"
  | ThreeObjectsDataset => Some "data/objects3/objects.txt"
  | _ => None
  end.

(** An instance: its class and the attributes the constructors set
    ([name] and [map] only on a [NamedDataset]). *)
Record dataset : Type := {
  cls : dataset_class;
  directory : string;
  files : list string;
  root : option string;
  name : list string;
  map : gmap string Z
}.

Inductive item_name : Type :=
  | NameStr (s : string)
  | NameInt (z : Z).

Definition item : Type := item_name * tensor * tensor.

(** [ShapeDataset.__init__(self, directory)] *)
Definition ShapeDataset_init (L : Lib) (c : dataset_class)
    (directory : string) : result dataset :=
  let index_path := os_path_join directory "files.txt" in
  if os_path_exists L index_path then
    content ← open_read L index_path;
    Ok {| cls := c; directory := directory;
          files := splitlines content; root := Some directory;
          name := []; map := ∅ |}
  else
    Ok {| cls := c; directory := directory;
          files := glob L (os_path_join directory "**/*.jpg"); root := None;
          name := []; map := ∅ |}.

Definition len (self : dataset) : Z := Z.of_nat (length (files self)).

(** [filename_to_quaternion]: the assertion, then the conversions. *)
Definition filename_to_quaternion (filename : string) : result (list Q) :=
  let matches := findall_quaternion filename in
  _ ← py_assert (length matches =? 4)%nat ("No quaternion found in " ++ filename);
  mapM float matches.

(** [filename_to_name], with the overrides of the three subclasses that
    return the constant 0. *)
Definition filename_to_name (c : dataset_class) (filename : string)
  : result item_name :=
  match c with
  | HumanoidDataset | ColorHumanoidDataset | SingleChairDataset =>
      Ok (NameInt 0)
  | _ =>
      match search_obj filename with
      | Some n => Ok (NameStr n)
      | None => Raise AssertionError "Could not find object id from filename"
      end
  end.

(** [self.root] in a condition: [None] and the empty string are false. *)
Definition item_path (self : dataset) (filename : string) : string :=
  match root self with
  | Some r => if String.eqb r "" then filename else os_path_join r filename
  | None => filename
  end.

Definition Image_open (L : Lib) (path : string) : result tensor :=
  sh ← image_shape L path;
  Ok {| shape := sh; val := App (ImageArray path) [] |}.

(** [SO3_coordinates(quaternion, 'Q', 'MAT')] on one quaternion. *)
Definition quaternion_to_matrix (quaternion : list Q) : tensor :=
  {| shape := [3; 3]; val := App (SO3_coordinates "Q" "MAT") [Floats quaternion] |}.

(** [ShapeDataset.__getitem__(self, idx)] *)
Definition ShapeDataset_getitem (L : Lib) (self : dataset) (idx : Z)
  : result item :=
  filename ← py_index (files self) idx;
  let path := item_path self filename in
  image ← Image_open L path;
  let image_tensor := div_scalar (to_float32 image) 255 in
  quaternion ← filename_to_quaternion filename;
  image_tensor ←
    (if negb (rgb (cls self)) then
       let image_tensor :=
         if dim image_tensor =? 3 then mean_last image_tensor
         else image_tensor in
       Ok (unsqueeze0 image_tensor)
     else permute201 image_tensor);
  let group_el := to_float32 (quaternion_to_matrix quaternion) in
  name ← filename_to_name (cls self) filename;
  Ok (name, group_el, image_tensor).

(** [{n: i for i, n in enumerate(names)}]: a later duplicate wins. *)
Definition enumerate_map (names : list string) : gmap string Z :=
  foldl (fun m '(i, n) => <[n := Z.of_nat i]> m) ∅ (imap (fun i n => (i, n)) names).

(** [NamedDataset.__init__(self)] *)
Definition NamedDataset_init (L : Lib) (c : dataset_class) : result dataset :=
  match data_path c, names_path c with
  | Some dp, Some np =>
      self ← ShapeDataset_init L c dp;
      content ← open_read L np;
      let names := findall_obj content in
      Ok {| cls := c; directory := directory self; files := files self;
            root := root self; name := names; map := enumerate_map names |}
  | _, _ => Raise TypeError "expected str, bytes or os.PathLike object, not NoneType"
  end.

(** [NamedDataset.__getitem__(self, idx)] *)
Definition NamedDataset_getitem (L : Lib) (self : dataset) (idx : Z)
  : result item :=
  '(name, group_el, image_tensor) ← ShapeDataset_getitem L self idx;
  match name with
  | NameStr n =>
      match map self !! n with
      | Some i => Ok (NameInt i, group_el, image_tensor)
      | None => Raise KeyError n
      end
  | NameInt _ => Raise KeyError "0"
  end.

(** [dataset[idx]]: method resolution by class. *)
Definition getitem (L : Lib) (self : dataset) (idx : Z) : result item :=
  if is_named (cls self) then NamedDataset_getitem L self idx
  else ShapeDataset_getitem L self idx.

(** Parameters of [__init__] besides [self]. *)
Definition init_params (c : dataset_class) : list string :=
  match c with
  | ShapeDataset => ["directory"]
  | _ => []
  end.

(** The body of the class's [__init__], arguments already bound. *)
Definition init_body (L : Lib) (c : dataset_class)
    (kwargs : list (string * pyval)) : result dataset :=
  match c with
  | ShapeDataset =>
      match kwargs with
      | [(_, VStr d)] => ShapeDataset_init L c d
      | [] => Raise TypeError "__init__() missing 1 required positional argument: 'directory'"
      | _ => Raise TypeError "expected str, bytes or os.PathLike object"
      end
  | HumanoidDataset => ShapeDataset_init L c "data/humanoid"
  | ColorHumanoidDataset => ShapeDataset_init L c "data/chumanoid"
  | SingleChairDataset => ShapeDataset_init L c "data/chairs/single"
  | _ => NamedDataset_init L c
  end.

(** Calling the class with keyword arguments: a keyword that [__init__]
    does not declare is a [TypeError] before the body runs. *)
Definition construct (L : Lib) (c : dataset_class)
    (kwargs : list (string * pyval)) : result dataset :=
  match List.find (fun kv => negb (bool_decide (kv.1 ∈ init_params c))) kwargs with
  | Some kv => Raise TypeError
      ("__init__() got an unexpected keyword argument '" ++ kv.1 ++ "'")
  | None => init_body L c kwargs
  end.

End Datasets.

(** ** [torch.nn] layers and the absent [lie_vae] helpers, at shape level *)

Module NN.
Import Torch.

(** [x.size(0)] *)
Definition size0 (t : tensor) : result Z :=
  match shape t with
  | n :: _ => Ok n
  | [] => Raise IndexError "dimension specified as 0 but tensor has no dimensions"
  end.

(** [x.view(sizes)]: at most one entry is -1 and is inferred from the
    number of elements; with a zero product of the known sizes the
    inferred entry is ambiguous and torch refuses. *)
Definition view (t : tensor) (sizes : list Z) : result tensor :=
  let known := numel (filter (fun z => z ≠ -1) sizes) in
  let holes := length (filter (fun z => z = -1) sizes) in
  let total := numel (shape t) in
  if forallb (fun z => -1 <=? z) sizes then
    match holes with
    | O => if total =? known
           then Ok {| shape := sizes; val := App (View sizes) [val t] |}
           else Raise RuntimeError "shape is invalid for input size"
    | 1%nat =>
        if (known =? 0) || negb (total mod known =? 0)
        then Raise RuntimeError "shape is invalid for input size"
        else let sizes' := (fun z => if z =? -1 then total / known else z) <$> sizes in
             Ok {| shape := sizes'; val := App (View sizes') [val t] |}
    | _ => Raise RuntimeError "only one dimension can be inferred"
    end
  else Raise RuntimeError "invalid shape dimension".

(** [p.expand(n, -1, -1)] on a two-dimensional [p]. *)
Definition expand_batch (t : tensor) (n : Z) : result tensor :=
  match shape t with
  | [a; b] =>
      if 0 <=? n
      then Ok {| shape := [n; a; b]; val := App (Expand [n; a; b]) [val t] |}
      else Raise RuntimeError "invalid expanded size"
  | _ => Raise RuntimeError "expand: sizes do not match the tensor"
  end.

(** [torch.cat((x, y), 1)]: equal shapes except along dimension 1. *)
Definition cat1 (x y : tensor) : result tensor :=
  match shape x, shape y with
  | n :: a :: rest, n' :: b :: rest' =>
      if (n =? n') && bool_decide (rest = rest')
      then Ok {| shape := n :: (a + b) :: rest; val := App Cat1 [val x; val y] |}
      else Raise RuntimeError "Sizes of tensors must match except in dimension 1"
  | _, _ => Raise IndexError "Dimension out of range"
  end.

(** [x[:, :, None, None]] on a two-dimensional [x]. *)
Definition none_none (t : tensor) : result tensor :=
  match shape t with
  | [n; c] => Ok {| shape := [n; c; 1; 1]; val := App NoneNone [val t] |}
  | n :: c :: rest =>
      Ok {| shape := n :: c :: 1 :: 1 :: rest; val := App NoneNone [val t] |}
  | _ => Raise IndexError "too many indices for tensor"
  end.

(** [x[:, 0, :, :]] *)
Definition channel0 (t : tensor) : result tensor :=
  match shape t with
  | n :: c :: h :: w :: rest =>
      if 0 <? c
      then Ok {| shape := n :: h :: w :: rest; val := App Channel0 [val t] |}
      else Raise IndexError "index 0 is out of bounds for dimension 1 with size 0"
  | _ => Raise IndexError "too many indices for tensor"
  end.

(** [x[:, :, 0, 0]] *)
Definition pixel00 (t : tensor) : result tensor :=
  match shape t with
  | n :: c :: h :: w :: rest =>
      if (0 <? h) && (0 <? w)
      then Ok {| shape := n :: c :: rest; val := App Pixel00 [val t] |}
      else Raise IndexError "index 0 is out of bounds"
  | _ => Raise IndexError "too many indices for tensor"
  end.

(** [x[:, None, :, :]] *)
Definition add_channel (t : tensor) : result tensor :=
  match shape t with
  | n :: h :: w :: rest =>
      Ok {| shape := n :: 1 :: h :: w :: rest; val := App (Layer "[:, None, :, :]" []) [val t] |}
  | _ => Raise IndexError "too many indices for tensor"
  end.

(** Length of the slice [from:to] of a dimension of size [d >= 0]. *)
Definition slice_len (d from : Z) (to : option Z) : Z :=
  let clip i := if i <? 0 then Z.max 0 (i + d) else Z.min i d in
  let lo := clip from in
  let hi := match to with Some j => clip j | None => d end in
  Z.max 0 (hi - lo).

(** [x[:, from:to]] *)
Definition cols (t : tensor) (from : Z) (to : option Z) : result tensor :=
  match shape t with
  | n :: d :: rest =>
      Ok {| shape := n :: slice_len d from to :: rest;
            val := App (Cols from to) [val t] |}
  | _ => Raise IndexError "too many indices for tensor"
  end.

Inductive layer : Type :=
  | Conv2d (cin cout k s p : Z)
  | ConvTranspose2d (cin cout k s p : Z)
  | LeakyReLU
  | ReLU.

Definition conv_out (h k s p : Z) : Z := (h + 2 * p - k) / s + 1.
Definition deconv_out (h k s p : Z) : Z := (h - 1) * s - 2 * p + k.

(** The channel counts of a layer. *)
Definition channels (l : layer) : list Z :=
  match l with
  | Conv2d cin cout _ _ _ | ConvTranspose2d cin cout _ _ _ => [cin; cout]
  | LeakyReLU | ReLU => []
  end.

(** Calling the constructor of a layer: the weight of a convolution is
    allocated with the channel counts among its dimensions, and torch
    allocates no tensor with a negative dimension. *)
Definition new_layer (l : layer) : result layer :=
  if forallb (fun c => 0 <=? c) (channels l) then Ok l
  else Raise RuntimeError "Trying to create tensor with negative dimension".

(** [nn.Sequential(l1, l2, ...)]: the layers are built first, in order. *)
Definition Sequential_init (layers : list layer) : result (list layer) :=
  mapM new_layer layers.

(** One layer of an [nn.Sequential]; [i] is its position, so that equal
    hyper-parameters at different positions stay different modules.  A
    convolution without input or output channels cannot be run. *)
Definition apply_layer (i : Z) (l : layer) (t : tensor) : result tensor :=
  match l with
  | Conv2d cin cout k s p =>
      if (cin <=? 0) || (cout <=? 0)
      then Raise RuntimeError "expected weight to be at least 1 at dimension 0"
      else
      match shape t with
      | [n; c; h; w] =>
          if negb (c =? cin) then Raise RuntimeError "expected input to have cin channels"
          else if (h + 2 * p <? k) || (w + 2 * p <? k)
          then Raise RuntimeError "Kernel size can't be greater than actual input size"
          else Ok {| shape := [n; cout; conv_out h k s p; conv_out w k s p];
                     val := App (Layer "Conv2d" [i; cin; cout; k; s; p]) [val t] |}
      | [c; h; w] =>
          if negb (c =? cin) then Raise RuntimeError "expected input to have cin channels"
          else if (h + 2 * p <? k) || (w + 2 * p <? k)
          then Raise RuntimeError "Kernel size can't be greater than actual input size"
          else Ok {| shape := [cout; conv_out h k s p; conv_out w k s p];
                     val := App (Layer "Conv2d" [i; cin; cout; k; s; p]) [val t] |}
      | _ => Raise RuntimeError "Expected 3D (unbatched) or 4D (batched) input to conv2d"
      end
  | ConvTranspose2d cin cout k s p =>
      if (cin <=? 0) || (cout <=? 0)
      then Raise RuntimeError "expected weight to be at least 1 at dimension 0"
      else
      match shape t with
      | [n; c; h; w] =>
          if negb (c =? cin) then Raise RuntimeError "expected input to have cin channels"
          else if (deconv_out h k s p <? 1) || (deconv_out w k s p <? 1)
          then Raise RuntimeError "Output size is too small"
          else Ok {| shape := [n; cout; deconv_out h k s p; deconv_out w k s p];
                     val := App (Layer "ConvTranspose2d" [i; cin; cout; k; s; p]) [val t] |}
      | [c; h; w] =>
          if negb (c =? cin) then Raise RuntimeError "expected input to have cin channels"
          else if (deconv_out h k s p <? 1) || (deconv_out w k s p <? 1)
          then Raise RuntimeError "Output size is too small"
          else Ok {| shape := [cout; deconv_out h k s p; deconv_out w k s p];
                     val := App (Layer "ConvTranspose2d" [i; cin; cout; k; s; p]) [val t] |}
      | _ => Raise RuntimeError "Expected 3D (unbatched) or 4D (batched) input to conv_transpose2d"
      end
  | LeakyReLU => Ok {| shape := shape t; val := App (Layer "LeakyReLU" [i]) [val t] |}
  | ReLU => Ok {| shape := shape t; val := App (Layer "ReLU" [i]) [val t] |}
  end.

(** An [nn.Sequential] of [layers], applied to [t]. *)
Fixpoint sequential_from (i : Z) (layers : list layer) (t : tensor)
  : result tensor :=
  match layers with
  | [] => Ok t
  | l :: rest => t' ← apply_layer i l t; sequential_from (i + 1) rest t'
  end.

Definition sequential (layers : list layer) (t : tensor) : result tensor :=
  sequential_from 0 layers t.

(** Modelled from the spec: [lie_vae.utils.MLP(input_dims, output_dims,
    hidden_dims, num_layers)] is not among the sources; it is taken as a
    learned map from [input_dims] features to [output_dims] features
    along the last dimension. *)
Record MLP : Type := {
  input_dims : Z; output_dims : Z; hidden_dims : Z; num_layers : Z
}.

Definition MLP_forward (m : MLP) (t : tensor) : result tensor :=
  match reverse (shape t) with
  | d :: lead =>
      if d =? input_dims m
      then Ok {| shape := reverse (output_dims m :: lead);
                 val := App (LearnedMLP (input_dims m) (output_dims m)
                               (hidden_dims m) (num_layers m)) [val t] |}
      else Raise RuntimeError "mat1 and mat2 shapes cannot be multiplied"
  | [] => Raise RuntimeError "mat1 and mat2 shapes cannot be multiplied"
  end.

(** Modelled from the spec: [lie_vae.lie_tools.group_matrix_to_eazyz] is
    not among the sources; it turns a batch of 3x3 matrices into their
    three ZYZ Euler angles. *)
Definition group_matrix_to_eazyz (t : tensor) : result tensor :=
  match reverse (shape t) with
  | 3 :: 3 :: lead =>
      Ok {| shape := reverse (3 :: lead); val := App GroupMatrixToEazyz [val t] |}
  | _ => Raise RuntimeError "expected a batch of 3x3 matrices"
  end.

(** Modelled from the spec: [lie_vae.lie_tools.group_matrix_to_quaternions]
    is not among the sources; it turns a batch of 3x3 matrices into
    four-component quaternions. *)
Definition group_matrix_to_quaternions (t : tensor) : result tensor :=
  match reverse (shape t) with
  | 3 :: 3 :: lead =>
      Ok {| shape := reverse (4 :: lead); val := App GroupMatrixToQuaternions [val t] |}
  | _ => Raise RuntimeError "expected a batch of 3x3 matrices"
  end.

(** Modelled from the spec: [lie_vae.lie_tools.block_wigner_matrix_multiply]
    is not among the sources; it multiplies the [(degrees+1)^2] harmonic
    coefficients of every batch entry by the block-diagonal Wigner D
    matrix of that entry's Euler angles, keeping the shape of the data. *)
Definition block_wigner_matrix_multiply (angles data : tensor) (degrees : Z)
  : result tensor :=
  match shape angles, shape data with
  | [n; 3], [n'; md; dd] =>
      if (n =? n') && (md =? (degrees + 1) ^ 2) && (0 <=? degrees)
      then Ok {| shape := [n; md; dd];
                 val := App (BlockWignerMatrixMultiply degrees) [val angles; val data] |}
      else Raise RuntimeError "block_wigner_matrix_multiply: shapes do not match"
  | _, _ => Raise RuntimeError "block_wigner_matrix_multiply: shapes do not match"
  end.

(** Modelled from the spec: [lie_vae.lie_tools.rodrigues] is not among the
    sources; it maps a batch of three-component algebra vectors to 3x3
    matrices.  Its values over the reals are in module [SO3] below. *)
Definition rodrigues (t : tensor) : result tensor :=
  match reverse (shape t) with
  | 3 :: lead =>
      Ok {| shape := reverse (3 :: 3 :: lead); val := App Rodrigues [val t] |}
  | _ => Raise AssertionError "rodrigues: last dimension must be 3"
  end.

End NN.

(** ** [supervised_experiment.py] *)

Module Supervised.
Import PyStr Torch NN.

(** *** The script's own [ShapeDataset] *)

Record ShapeDataset : Type := { directory : string; files : list string }.

Definition ShapeDataset_init (L : Lib) (directory : string) : ShapeDataset :=
  {| directory := directory;
     files := glob L (os_path_join directory "**/*.jpg") |}.

Definition filename_to_quaternion (filename : string) : result (list Q) :=
  let matches := findall_quaternion filename in
  _ ← py_assert (length matches =? 4)%nat ("No quaternion found in " ++ filename);
  mapM float matches.

Definition ShapeDataset_getitem (L : Lib) (self : ShapeDataset) (idx : Z)
  : result (string * tensor * tensor) :=
  filename ← py_index (files self) idx;
  image ← Datasets.Image_open L filename;
  let image_tensor := div_scalar (to_float32 image) 255 in
  quaternion ← filename_to_quaternion filename;
  let image_tensor := mean_last image_tensor in
  let group_el := to_float32 (Datasets.quaternion_to_matrix quaternion) in
  match search_obj filename with
  | None => Raise AssertionError "Could not find object id from filename"
  | Some name => Ok (name, group_el, image_tensor)
  end.

(** *** [Encoder] *)

Module Encoder.

Record t : Type := { id_dims : Z; conv : list layer }.

(** The attributes [__init__] sets.  Calling the class builds the layers
    first: [new]. *)
Definition init (id_dims hidden_dims : Z) : t :=
  let input_nc := 1 in
  let nout := 3 + id_dims in
  {| id_dims := id_dims;
     conv := [ Conv2d input_nc hidden_dims 4 2 1;
               LeakyReLU;
               Conv2d hidden_dims (hidden_dims * 2) 4 2 1;
               LeakyReLU;
               Conv2d (hidden_dims * 2) (hidden_dims * 4) 4 2 1;
               LeakyReLU;
               Conv2d (hidden_dims * 4) (hidden_dims * 8) 4 2 1;
               LeakyReLU;
               Conv2d (hidden_dims * 8) nout 4 1 0 ] |}.

(** [Encoder(id_dims, hidden_dims)]: the call of the constructor, which
    fails when a layer cannot be built. *)
Definition new (id_dims hidden_dims : Z) : result t :=
  _ ← Sequential_init (conv (init id_dims hidden_dims));
  Ok (init id_dims hidden_dims).

Definition forward (self : t) (img : tensor)
  : result (tensor * option tensor) :=
  img4 ← add_channel img;
  y ← sequential (conv self) img4;
  x ← pixel00 y;
  algebra ← cols x 0 (Some 3);
  id_data ← (if negb (id_dims self =? 0)
             then Some <$> cols x 3 None
             else Ok None);
  rot ← rodrigues algebra;
  Ok (rot, id_data).

End Encoder.

(** *** [DeconvNet] *)

(** The layers that [DeconvNet.__init__] hands to [nn.Sequential], in
    order.  Calling the class builds them first: [DeconvNet_init]. *)
Definition DeconvNet (in_dims hidden_dims : Z) : list layer :=
  [ ConvTranspose2d in_dims hidden_dims 4 1 0;
    ReLU;
    ConvTranspose2d hidden_dims hidden_dims 4 2 1;
    ReLU;
    ConvTranspose2d hidden_dims hidden_dims 4 2 1;
    ReLU;
    ConvTranspose2d hidden_dims hidden_dims 4 2 1;
    ReLU;
    ConvTranspose2d hidden_dims 1 4 2 1 ].

(** [DeconvNet(in_dims, hidden_dims)]: the call of the constructor, which
    fails when a layer cannot be built. *)
Definition DeconvNet_init (in_dims hidden_dims : Z) : result (list layer) :=
  Sequential_init (DeconvNet in_dims hidden_dims).

(** *** [ActionNet] *)

Module ActionNet.

Record t : Type := {
  degrees : Z;
  data_dims : Z;
  matrix_dims : Z;
  item_rep : option tensor;
  harmonics_encoder : option MLP;
  deconv : tensor -> result tensor
}.

(** [torch.randn((a, b))] as a learned parameter. *)
Definition randn_parameter (nm : string) (a b : Z) : result tensor :=
  if (0 <=? a) && (0 <=? b)
  then Ok {| shape := [a; b]; val := Var nm |}
  else Raise RuntimeError "Trying to create tensor with negative dimension".

Definition init (degrees : Z) (deconv : tensor -> result tensor)
    (id_dims data_dims : Z) (single_id : bool)
    (harmonics_encoder_layers : Z) : result t :=
  let matrix_dims := (degrees + 1) ^ 2 in
  if single_id then
    item_rep ← randn_parameter "item_rep" matrix_dims data_dims;
    Ok {| degrees := degrees; data_dims := data_dims;
          matrix_dims := matrix_dims; item_rep := Some item_rep;
          harmonics_encoder := None; deconv := deconv |}
  else
    Ok {| degrees := degrees; data_dims := data_dims;
          matrix_dims := matrix_dims; item_rep := None;
          harmonics_encoder :=
            Some {| input_dims := id_dims;
                    output_dims := matrix_dims * data_dims;
                    hidden_dims := 50;
                    num_layers := harmonics_encoder_layers |};
          deconv := deconv |}.

Definition forward (self : t) (matrices : tensor) (id_data : option tensor)
  : result tensor :=
  _ ← py_assert (negb (eqb (bool_decide (id_data ≠ None))
                           (bool_decide (item_rep self ≠ None))))
        "Either must be single id or provide id_data, not both.";
  n ← size0 matrices;
  harmonics ←
    match id_data with
    | None =>
        match item_rep self with
        | Some p => expand_batch p n
        | None => Raise TypeError "'NoneType' object has no attribute 'expand'"
        end
    | Some d =>
        match harmonics_encoder self with
        | Some enc =>
            h ← MLP_forward enc d;
            view h [n; matrix_dims self; data_dims self]
        | None => Raise TypeError "'ActionNet' object has no attribute 'harmonics_encoder'"
        end
    end;
  angles ← group_matrix_to_eazyz matrices;
  rotated ← block_wigner_matrix_multiply angles harmonics (degrees self);
  item ← view rotated [-1; matrix_dims self * data_dims self];
  item4 ← none_none item;
  out ← deconv self item4;
  channel0 out.

End ActionNet.

(** *** [MLPNet] *)

Module MLPNet.

Record t : Type := {
  mode : string;
  mlp : MLP;
  deconv : tensor -> result tensor;
  single_id : bool
}.

(** The dictionary [{'MAT': 9, 'Q': 4, 'EA': 3}]. *)
Definition mode_dims : gmap string Z :=
  <["EA" := 3]> (<["Q" := 4]> (<["MAT" := 9]> ∅)).

Definition init (degrees : Z) (deconv : tensor -> result tensor)
    (data_dims : Z) (mode : string) (id_dims : Z) (single_id : bool)
  : result t :=
  let matrix_dims := (degrees + 1) ^ 2 in
  match mode_dims !! mode with
  | None => Raise KeyError mode
  | Some dims =>
      let dims := if negb single_id then dims + id_dims else dims in
      Ok {| mode := mode;
            mlp := {| input_dims := dims;
                      output_dims := matrix_dims * data_dims;
                      hidden_dims := 50; num_layers := 3 |};
            deconv := deconv;
            single_id := single_id |}
  end.

(** The branch on [self.mode]: the representation of the rotation. *)
Definition rotation_features (mode : string) (r : tensor) : result tensor :=
  if String.eqb mode "MAT" then view r [-1; 9]
  else if String.eqb mode "Q" then group_matrix_to_quaternions r
  else group_matrix_to_eazyz r.

Definition forward (self : t) (r : tensor) (id_data : option tensor)
  : result tensor :=
  _ ← py_assert (negb (eqb (bool_decide (id_data = None))
                           (negb (single_id self))))
        "Either must be single id or provide id_data, not both.";
  n ← size0 r;
  x ← rotation_features (mode self) r;
  x ← match id_data with
      | Some d => d' ← view d [n; -1]; cat1 x d'
      | None => Ok x
      end;
  x ← MLP_forward (mlp self) x;
  x4 ← none_none x;
  out ← deconv self x4;
  channel0 out.

End MLPNet.

(** *** The networks as [main] builds them *)

Record args : Type := {
  a_mode : string;
  a_mlp_mode : string;
  a_degrees : Z;
  a_deconv_hidden : Z;
  a_id_dims : Z;
  a_data_dims : Z;
  a_single_id : Z;
  a_harmonics_encoder_layers : Z
}.

Inductive net : Type :=
  | NetAction (n : ActionNet.t)
  | NetMLP (n : MLPNet.t).

(** Lines 289-306 of [main]. *)
Definition main_net (a : args) : result net :=
  let matrix_dims := (a_degrees a + 1) ^ 2 in
  layers ← DeconvNet_init (matrix_dims * a_data_dims a) (a_deconv_hidden a);
  let deconv := sequential layers in
  if String.eqb (a_mode a) "action" then
    NetAction <$> ActionNet.init (a_degrees a) deconv (a_id_dims a)
                    (a_data_dims a) (negb (a_single_id a =? 0))
                    (a_harmonics_encoder_layers a)
  else if String.eqb (a_mode a) "mlp" then
    NetMLP <$> MLPNet.init (a_degrees a) deconv (a_data_dims a)
                 (a_mlp_mode a) (a_id_dims a) (negb (a_single_id a =? 0))
  else Raise RuntimeError ("Mode " ++ a_mode a ++ " not found").

Definition net_forward (n : net) (r : tensor) (id_data : option tensor)
  : result tensor :=
  match n with
  | NetAction n => ActionNet.forward n r id_data
  | NetMLP n => MLPNet.forward n r id_data
  end.

End Supervised.

(** ** [lie_vae/main.py] *)

Module Main.
Import PyStr Torch.

Record args : Type := {
  dataset : string;
  decoder_mode : string;
  latent_mode : string;
  mean_mode : string;
  experiment : string;
  deconv_mode : string;
  batch_norm : Z;
  beta : Q;
  beta_schedule : option string;
  epochs : Z;
  report_freq : Z;
  degrees : Z;
  deconv_hidden : Z;
  content_dims : Z;
  rep_copies : Z;
  clip_grads : Q;
  selective_clip : bool;
  elbo_samples : Z;
  log_dir : option string;
  save_dir : option string;
  name : option string;
  continue_epoch : Z;
  semi_labelled : Z;
  semi_lambda : Q;
  semi_batch : Z;
  continuity : option Q;
  continuity_iscale : Q;
  equivariance : option Q;
  equivariance_end_it : Z;
  max_early_stop : option Z;
  subsample : Q;
  normal_dims : Z;
  deterministic : bool;
  wigner_transpose : bool;
  fixed_spectrum : bool;
  mlp_hidden : Z;
  mlp_layers : Z;
  mlp_activation : string
}.

(** The defaults [parse_args] declares. *)
Definition default_args : args := {|
  dataset := "chairs";
  decoder_mode := "action";
  latent_mode := "so3";
  mean_mode := "alg";
  experiment := "unsupervised";
  deconv_mode := "deconv";
  batch_norm := 1;
  beta := 1%Q;
  beta_schedule := None;
  epochs := 100;
  report_freq := 1250;
  degrees := 6;
  deconv_hidden := 200;
  content_dims := 10;
  rep_copies := 10;
  clip_grads := (1 # 100000)%Q;
  selective_clip := false;
  elbo_samples := 1;
  log_dir := None;
  save_dir := None;
  name := None;
  continue_epoch := 0;
  semi_labelled := 100;
  semi_lambda := 1%Q;
  semi_batch := 1;
  continuity := None;
  continuity_iscale := 200%Q;
  equivariance := None;
  equivariance_end_it := 20000;
  max_early_stop := Some 50;
  subsample := 1%Q;
  normal_dims := 3;
  deterministic := false;
  wigner_transpose := false;
  fixed_spectrum := false;
  mlp_hidden := 50;
  mlp_layers := 3;
  mlp_activation := "relu"
|}.

(** Lines 25-27: a run name fixes both directories. *)
Definition with_name (a : args) : args :=
  match name a with
  | None => a
  | Some n =>
  {|
     dataset := dataset a;
     decoder_mode := decoder_mode a;
     latent_mode := latent_mode a;
     mean_mode := mean_mode a;
     experiment := experiment a;
     deconv_mode := deconv_mode a;
     batch_norm := batch_norm a;
     beta := beta a;
     beta_schedule := beta_schedule a;
     epochs := epochs a;
     report_freq := report_freq a;
     degrees := degrees a;
     deconv_hidden := deconv_hidden a;
     content_dims := content_dims a;
     rep_copies := rep_copies a;
     clip_grads := clip_grads a;
     selective_clip := selective_clip a;
     elbo_samples := elbo_samples a;
     log_dir := Some ("runs/" ++ n);
     save_dir := Some ("outputs/" ++ n);
     name := name a;
     continue_epoch := continue_epoch a;
     semi_labelled := semi_labelled a;
     semi_lambda := semi_lambda a;
     semi_batch := semi_batch a;
     continuity := continuity a;
     continuity_iscale := continuity_iscale a;
     equivariance := equivariance a;
     equivariance_end_it := equivariance_end_it a;
     max_early_stop := max_early_stop a;
     subsample := subsample a;
     normal_dims := normal_dims a;
     deterministic := deterministic a;
     wigner_transpose := wigner_transpose a;
     fixed_spectrum := fixed_spectrum a;
     mlp_hidden := mlp_hidden a;
     mlp_layers := mlp_layers a;
     mlp_activation := mlp_activation a
  |}
  end.

(** What [main] uses of a dataset object. *)
Record dataset_handle : Type := {
  h_rgb : bool;
  h_single_id : bool;
  h_len : Z;
  h_getitem : Z -> result Datasets.item
}.

Definition of_dataset (L : Lib) (d : Datasets.dataset) : dataset_handle :=
  {| h_rgb := Datasets.rgb (Datasets.cls d);
     h_single_id := Datasets.single_id (Datasets.cls d);
     h_len := Datasets.len d;
     h_getitem := Datasets.getitem L d |}.

Inductive exp_class : Type :=
  | UnsupervisedExperiment
  | SemiSupervisedExperiment.

(** Everything [main] calls that is not in the three sources: the file
    system, the two dataset classes that [lie_vae.datasets] does not
    define (what the names would be bound to if the import were
    satisfied), model construction, and the experiment object with its
    [train] method and [best_value] attribute.  Training is taken to
    return. *)
Record World : Type := {
  lib : Lib;
  SphereCubeDataset : list (string * pyval) -> result dataset_handle;
  ToyDataset : list (string * pyval) -> result dataset_handle;
  ChairsVAE : args -> bool -> bool -> option tensor -> result unit;
  load_state_dict : string -> result unit;
  random_split : Z -> list Z -> result unit;
  experiment_state : Type;
  value : Type;
  make_experiment : exp_class -> gmap string pyval -> result experiment_state;
  train : experiment_state -> Z -> experiment_state;
  best_value : experiment_state -> value;
  (** Python's [!=] on two best values *)
  value_ne : value -> value -> bool;
  log_likelihood : args -> result unit
}.

(** The names lines 11-13 import from [lie_vae.datasets]. *)
Definition imported_names : list string :=
  ["SelectedDataset"; "ObjectsDataset"; "ThreeObjectsDataset";
   "HumanoidDataset"; "ColorHumanoidDataset"; "SingleChairDataset";
   "SphereCubeDataset"; "ToyDataset"].

(** [from module import names]: the first name the module does not bind
    aborts the import. *)
Definition import_from (module_names names : list string) : result unit :=
  match List.find (fun n => negb (bool_decide (n ∈ module_names))) names with
  | Some n => Raise ImportError ("cannot import name '" ++ n ++ "'")
  | None => Ok tt
  end.

(** Lines 31-51: the dataset and, for the toy data, the fixed spectrum. *)
Definition select_dataset (W : World) (a : args)
  : result (dataset_handle * option tensor) :=
  let L := lib W in
  let item_rep := None in
  if String.eqb (dataset a) "objects" then
    d ← Datasets.construct L Datasets.ObjectsDataset []; Ok (of_dataset L d, item_rep)
  else if String.eqb (dataset a) "objects3" then
    d ← Datasets.construct L Datasets.ThreeObjectsDataset []; Ok (of_dataset L d, item_rep)
  else if String.eqb (dataset a) "chairs" then
    d ← Datasets.construct L Datasets.SelectedDataset []; Ok (of_dataset L d, item_rep)
  else if String.eqb (dataset a) "humanoid" then
    d ← Datasets.construct L Datasets.HumanoidDataset
          [("subsample", VFloat (subsample a))];
    Ok (of_dataset L d, item_rep)
  else if String.eqb (dataset a) "chumanoid" then
    d ← Datasets.construct L Datasets.ColorHumanoidDataset
          [("subsample", VFloat (subsample a))];
    Ok (of_dataset L d, item_rep)
  else if String.eqb (dataset a) "single" then
    d ← Datasets.construct L Datasets.SingleChairDataset
          [("subsample", VFloat (subsample a))];
    Ok (of_dataset L d, item_rep)
  else if String.eqb (dataset a) "spherecube" then
    d ← SphereCubeDataset W [("subsample", VFloat (subsample a))];
    Ok (d, item_rep)
  else if String.eqb (dataset a) "toy" then
    d ← ToyDataset W [];
    if fixed_spectrum a then
      it ← h_getitem d 0; Ok (d, Some (it.1.2))
    else Ok (d, item_rep)
  else Raise RuntimeError "Wrong dataset".

(** The activation table of lines 55-59. *)
Definition mlp_activations : list string := ["relu"; "softplus"; "tanh"].

(** [math.pi], the binary64 value. *)
Definition pi : Q := 884279719003555 # 281474976710656.

(** Lines 99-108. *)
Definition select_experiment (a : args)
  : result (exp_class * gmap string pyval) :=
  if String.eqb (experiment a) "unsupervised" then
    Ok (UnsupervisedExperiment, ∅)
  else if String.eqb (experiment a) "semi" then
    Ok (SemiSupervisedExperiment,
        <["lambda_supervised" := VFloat (semi_lambda a)]>
          (<["num_labelled" := VInt (semi_labelled a)]> ∅))
  else Raise RuntimeError "Wrong experiment".

(** Lines 110-113. *)
Definition equivariance_schedule (a : args) : pyval :=
  match equivariance a with
  | Some e => VLinearSchedule 0 e 1000 (equivariance_end_it a)
  | None => VNone
  end.

Definition opt_float (o : option Q) : pyval :=
  match o with Some q => VFloat q | None => VNone end.

(** The keyword arguments of the call of lines 115-130; the float
    division is the one evaluation that can raise. *)
Definition experiment_kwargs (a : args) (equivariance : pyval)
    (exp_kwargs : gmap string pyval) : result (gmap string pyval) :=
  if Qeq_bool (continuity_iscale a) 0
  then Raise ZeroDivisionError "float division by zero"
  else Ok (list_to_map
             [ ("log", VObj "log");
               ("model", VObj "model");
               ("optimizer", VObj "optimizer");
               ("beta_schedule", VBetaSchedule (beta_schedule a) (beta a));
               ("train_dataset", VObj "train_dataset");
               ("test_dataset", VObj "valid_dataset");
               ("elbo_samples", VInt (elbo_samples a));
               ("report_freq", VInt (report_freq a));
               ("clip_grads", VFloat (clip_grads a));
               ("selective_clip", VBool (selective_clip a));
               ("equivariance_lamb", equivariance);
               ("continuity_lamb", opt_float (continuity a));
               ("continuity_scale",
                  VFloat (2 * pi / continuity_iscale a)%Q) ]
           ∪ exp_kwargs).

(** [if args.save_dir:] *)
Definition save_dir_set (a : args) : bool :=
  match save_dir a with
  | Some d => negb (String.eqb d "")
  | None => false
  end.

Record loop_state (W : World) : Type := {
  exp : experiment_state W;
  early_stop_counter : Z;
  (** epochs after which [model.pickle] was written, oldest first *)
  saved : list Z;
  (** the epoch at which [break] was executed *)
  stopped : option Z
}.
Arguments exp {W} _.
Arguments early_stop_counter {W} _.
Arguments saved {W} _.
Arguments stopped {W} _.

(** Lines 133-146, over the epochs still to run. *)
Fixpoint training_loop (W : World) (a : args) (todo : list Z)
    (st : loop_state W) : loop_state W :=
  match todo with
  | [] => st
  | epoch :: todo' =>
      let previous_best_value := best_value W (exp st) in
      let e := train W (exp st) epoch in
      if save_dir_set a then
        if bool_decide (max_early_stop a = None)
           || value_ne W previous_best_value (best_value W e)
        then training_loop W a todo'
               {| exp := e; early_stop_counter := early_stop_counter st;
                  saved := saved st ++ [epoch]; stopped := None |}
        else if bool_decide (max_early_stop a ≠ None)
                && match max_early_stop a with
                   | Some k => early_stop_counter st <? k
                   | None => false
                   end
        then training_loop W a todo'
               {| exp := e; early_stop_counter := early_stop_counter st + 1;
                  saved := saved st; stopped := None |}
        else {| exp := e; early_stop_counter := early_stop_counter st;
                saved := saved st; stopped := Some epoch |}
      else training_loop W a todo'
             {| exp := e; early_stop_counter := early_stop_counter st;
                saved := saved st; stopped := None |}
  end.

(** [range(lo, hi)] *)
Definition range (lo hi : Z) : list Z := seqZ lo (hi - lo).

(** What a run of [main] did, as far as the properties below need it. *)
Record outcome (W : World) : Type := {
  o_class : exp_class;
  o_kwargs : gmap string pyval;
  o_loop : loop_state W
}.
Arguments o_class {W} _.
Arguments o_kwargs {W} _.
Arguments o_loop {W} _.

(** [main()], with the parsed command line as its input.  Printing, the
    TensorBoard writer and the optimizer are taken to succeed and have no
    counterpart here; every other call that can raise is a step of the
    chain. *)
Definition main (W : World) (parsed : args) : result (outcome W) :=
  let a := with_name parsed in
  '(dataset, item_rep) ← select_dataset W a;
  _ ← (if h_len dataset =? 0 then Raise RuntimeError "Dataset empty" else Ok tt);
  _ ← (if bool_decide (mlp_activation a ∈ mlp_activations) then Ok tt
       else Raise KeyError (mlp_activation a));
  _ ← ChairsVAE W a (h_rgb dataset) (h_single_id dataset) item_rep;
  _ ← (if 0 <? continue_epoch a then
         match save_dir a with
         | Some d => load_state_dict W (os_path_join d "model.pickle")
         | None => Raise TypeError "expected str, bytes or os.PathLike object, not NoneType"
         end
       else Ok tt);
  let num_valid := 25000 in
  let num_test := 25000 in
  _ ← random_split W (h_len dataset)
        [num_valid; num_test; h_len dataset - num_valid - num_test];
  '(exp_cls, exp_kwargs) ← select_experiment a;
  let equivariance := equivariance_schedule a in
  kwargs ← experiment_kwargs a equivariance exp_kwargs;
  experiment ← make_experiment W exp_cls kwargs;
  let st := training_loop W a (range (continue_epoch a) (epochs a))
              {| exp := experiment; early_stop_counter := 0;
                 saved := []; stopped := None |} in
  _ ← (if negb (Qeq_bool (beta a) 0) then log_likelihood W a else Ok tt);
  Ok {| o_class := exp_cls; o_kwargs := kwargs; o_loop := st |}.

(** Running the file: the module-level import of lines 11-13, then
    [main()]. *)
Definition script (W : World) (parsed : args) : result (outcome W) :=
  _ ← import_from Datasets.module_names imported_names;
  main W parsed.

(** Modelled from the spec: [lie_vae.utils.LinearSchedule] is not among
    the sources; its value follows a straight line from [start_y] at
    iteration [start_x] to [end_y] at iteration [end_x] and is constant
    outside. *)
Definition schedule_value (start_y end_y : Q) (start_x end_x it : Z) : Q :=
  if it <=? start_x then start_y
  else if end_x <=? it then end_y
  else (start_y + (end_y - start_y) * inject_Z (it - start_x)
                  / inject_Z (end_x - start_x))%Q.

Inductive loss_term : Type :=
  | Reconstruction
  | KL (weight : pyval)
  | Equivariance (weight : pyval)
  | Continuity (strength scale : pyval)
  | Supervised (weight : pyval).

(** Modelled from the spec: [lie_vae.experiments] is not among the
    sources; the loss is the reconstruction term plus one term per
    weight the experiment is given: KL under the beta schedule,
    equivariance and continuity when their weight is not [None], and,
    for the semi-supervised experiment, the supervised loss of relative
    strength [lambda_supervised]. *)
Definition loss_terms (kwargs : gmap string pyval) : list loss_term :=
  [Reconstruction]
  ++ match kwargs !! "beta_schedule" with
     | Some b => [KL b]
     | None => []
     end
  ++ match kwargs !! "equivariance_lamb" with
     | Some VNone | None => []
     | Some w => [Equivariance w]
     end
  ++ match kwargs !! "continuity_lamb", kwargs !! "continuity_scale" with
     | Some VNone, _ | None, _ => []
     | Some w, Some s => [Continuity w s]
     | Some w, None => [Continuity w VNone]
     end
  ++ match kwargs !! "lambda_supervised" with
     | Some w => [Supervised w]
     | None => []
     end.

End Main.

(** ** The rotation returned by the encoder, over the reals *)

Module SO3.
Local Open Scope R_scope.

Definition vec : Type := R * R * R.
Definition mat : Type := vec * vec * vec.      (* three rows *)

Definition identity : mat := ((1, 0, 0), (0, 1, 0), (0, 0, 1)).

Definition madd (A B : mat) : mat :=
  let '((a11, a12, a13), (a21, a22, a23), (a31, a32, a33)) := A in
  let '((b11, b12, b13), (b21, b22, b23), (b31, b32, b33)) := B in
  ((a11 + b11, a12 + b12, a13 + b13),
   (a21 + b21, a22 + b22, a23 + b23),
   (a31 + b31, a32 + b32, a33 + b33)).

Definition mscale (k : R) (A : mat) : mat :=
  let '((a11, a12, a13), (a21, a22, a23), (a31, a32, a33)) := A in
  ((k * a11, k * a12, k * a13),
   (k * a21, k * a22, k * a23),
   (k * a31, k * a32, k * a33)).

Definition mmul (A B : mat) : mat :=
  let '((a11, a12, a13), (a21, a22, a23), (a31, a32, a33)) := A in
  let '((b11, b12, b13), (b21, b22, b23), (b31, b32, b33)) := B in
  ((a11 * b11 + a12 * b21 + a13 * b31,
    a11 * b12 + a12 * b22 + a13 * b32,
    a11 * b13 + a12 * b23 + a13 * b33),
   (a21 * b11 + a22 * b21 + a23 * b31,
    a21 * b12 + a22 * b22 + a23 * b32,
    a21 * b13 + a22 * b23 + a23 * b33),
   (a31 * b11 + a32 * b21 + a33 * b31,
    a31 * b12 + a32 * b22 + a33 * b32,
    a31 * b13 + a32 * b23 + a33 * b33)).

Definition transpose (A : mat) : mat :=
  let '((a11, a12, a13), (a21, a22, a23), (a31, a32, a33)) := A in
  ((a11, a21, a31), (a12, a22, a32), (a13, a23, a33)).

Definition det (A : mat) : R :=
  let '((a11, a12, a13), (a21, a22, a23), (a31, a32, a33)) := A in
  a11 * (a22 * a33 - a23 * a32)
  - a12 * (a21 * a33 - a23 * a31)
  + a13 * (a21 * a32 - a22 * a31).

(** Membership in SO(3): orthogonal with determinant 1. *)
Definition is_rotation (A : mat) : Prop :=
  mmul (transpose A) A = identity /\ det A = 1.

Definition norm (v : vec) : R :=
  let '(x, y, z) := v in sqrt (x * x + y * y + z * z).

(** The element of the Lie algebra so(3) with coordinates [v]. *)
Definition map_to_lie_algebra (v : vec) : mat :=
  let '(x, y, z) := v in
  ((0, - z, y), (z, 0, - x), (- y, x, 0)).

(** The Rodrigues formula [I + s K + (1 - c) K^2] for the axis
    [(u1, u2, u3)], with [s] and [c] the sine and cosine of the angle. *)
Definition axis_angle (u1 u2 u3 s c : R) : mat :=
  let K := map_to_lie_algebra (u1, u2, u3) in
  madd (madd identity (mscale s K)) (mscale (1 - c) (mmul K K)).

(** Modelled from the spec: [lie_vae.lie_tools.rodrigues] is not among the
    sources; it is the exponential of the algebra element by the
    Rodrigues formula, with the norm of the vector as angle and the
    normalised vector as axis.  Division is the total division of the
    reals: at the zero vector the axis is the zero vector. *)
Definition rodrigues (v : vec) : mat :=
  let theta := norm v in
  let '(x, y, z) := v in
  axis_angle (x / theta) (y / theta) (z / theta) (sin theta) (cos theta).

(** [Encoder.forward] on values.  [conv] is the learned convolutional
    stack followed by [[:, :, 0, 0]]: one row of [3 + id_dims] numbers per
    image of the batch.  [x[:, :3]] is the algebra vector, [x[:, 3:]] the
    identity code; [rodrigues] insists on three components. *)
Definition Encoder_forward {image : Type} (conv : image -> list (list R))
    (id_dims : Z) (img : image)
  : result (list mat * option (list (list R))) :=
  let x := conv img in
  let algebra := firstn 3 <$> x in
  let id_data := if negb (id_dims =? 0)%Z then Some (skipn 3 <$> x) else None in
  rots ← mapM (fun row => match row with
                          | [a; b; c] => Ok (rodrigues (a, b, c))
                          | _ => Raise AssertionError "rodrigues: last dimension must be 3"
                          end) algebra;
  Ok (rots, id_data).



End SO3.

(** ** Reference definitions the properties are stated against *)

(** *** The quaternion pattern in words *)

Module QuaternionPattern.
Import PyStr.

(** The pattern in words: a digit 0 or 1, a dot, exactly four digits. *)
Definition digit (c : ascii) : Prop := (48 <= nat_of_ascii c <= 57)%nat.

Definition unsigned_text (m : string) : Prop :=
  exists a d1 d2 d3 d4,
    m = String a (String "." (String d1 (String d2 (String d3 (String d4 ""))))) /\
    (a = "0"%char \/ a = "1"%char) /\
    digit d1 /\ digit d2 /\ digit d3 /\ digit d4.

(** ... preceded by an optional minus sign. *)
Definition quaternion_text (m : string) : Prop :=
  unsigned_text m \/ exists m', m = String "-" m' /\ unsigned_text m'.

(** No text of the pattern starts anywhere in [s]. *)
Definition no_match_in (s : string) : Prop :=
  forall pre suf m rest,
    s = pre ++ suf -> suf = m ++ rest -> ~ quaternion_text m.

(** The leftmost, non-overlapping occurrences of the pattern in a text,
    in order: before the first one no occurrence starts, and the others
    are those of the text behind it. *)
Inductive occurrences : string -> list string -> Prop :=
  | occ_none s : no_match_in s -> occurrences s []
  | occ_next pre m rest ms :
      quaternion_text m ->
      (forall p1 p2 m' r', pre = p1 ++ p2 -> p2 <> "" ->
                           p2 ++ m ++ rest = m' ++ r' -> ~ quaternion_text m') ->
      occurrences rest ms ->
      occurrences (pre ++ m ++ rest) (m :: ms).

(** The number a text of the pattern denotes. *)
Definition unsigned_value (m : string) : Q :=
  match m with
  | String a (String _ (String d1 (String d2 (String d3 (String d4 _))))) =>
      (digit_value a * 10000 + digit_value d1 * 1000 + digit_value d2 * 100
       + digit_value d3 * 10 + digit_value d4) # 10000
  | _ => 0
  end.

Definition quaternion_value (m : string) : Q :=
  match m with
  | String "-" m' => Qopp (unsigned_value m')
  | _ => unsigned_value m
  end.

Fixpoint drop (n : nat) (s : string) : string :=
  match n, s with
  | S k, String _ s' => drop k s'
  | _, _ => s
  end.

End QuaternionPattern.


(** *** Where an image tensor was read from *)

Module Provenance.
Import Torch.

(** The path of the [Image.open] at the root of a chain of tensor
    operations. *)
Fixpoint image_source (t : term) : option string :=
  match t with
  | App (ImageArray p) _ => Some p
  | App _ (x :: _) => image_source x
  | _ => None
  end.

End Provenance.

(** *** Feature counts of the rotation representations *)

Module Widths.

(** Nine matrix entries, four quaternion components, three Euler angles. *)
Definition mode_width (mode : string) : Z :=
  if String.eqb mode "MAT" then 9 else if String.eqb mode "Q" then 4 else 3.

(** Output channels, kernel, stride and padding of the transposed
    convolutions of a stack, in order. *)
Definition transposed_convolutions (layers : list NN.layer)
  : list (Z * Z * Z * Z) :=
  omap (fun l => match l with
                 | NN.ConvTranspose2d _ cout k s p => Some (cout, k, s, p)
                 | _ => None
                 end) layers.

End Widths.

(** *** Concrete command lines and a concrete world *)

Module Examples.

(** The defaults of [parse_args] with the named options given. *)
Definition command_line (d e : string) (eq co : option Q)
    (sd : option string) (mes : option Z) (ep : Z) : Main.args :=
  {|
     Main.dataset := d;
     Main.decoder_mode := "action";
     Main.latent_mode := "so3";
     Main.mean_mode := "alg";
     Main.experiment := e;
     Main.deconv_mode := "deconv";
     Main.batch_norm := 1;
     Main.beta := 1%Q;
     Main.beta_schedule := None;
     Main.epochs := ep;
     Main.report_freq := 1250;
     Main.degrees := 6;
     Main.deconv_hidden := 200;
     Main.content_dims := 10;
     Main.rep_copies := 10;
     Main.clip_grads := (1 # 100000)%Q;
     Main.selective_clip := false;
     Main.elbo_samples := 1;
     Main.log_dir := None;
     Main.save_dir := sd;
     Main.name := None;
     Main.continue_epoch := 0;
     Main.semi_labelled := 100;
     Main.semi_lambda := 1%Q;
     Main.semi_batch := 1;
     Main.continuity := co;
     Main.continuity_iscale := 200%Q;
     Main.equivariance := eq;
     Main.equivariance_end_it := 20000;
     Main.max_early_stop := mes;
     Main.subsample := 1%Q;
     Main.normal_dims := 3;
     Main.deterministic := false;
     Main.wigner_transpose := false;
     Main.fixed_spectrum := false;
     Main.mlp_hidden := 50;
     Main.mlp_layers := 3;
     Main.mlp_activation := "relu"
  |}.

(** A file system without index files and with one rendering; an
    experiment whose state is the list of best values still to come. *)
Definition lib : Lib :=
  {| os_path_exists := fun _ => false;
     open_read := fun _ => Ok "chair.obj";
     glob := fun _ => ["data/chair.obj_0.0336_-0.1523_-0.5616_-0.8126.jpg"];
     image_shape := fun _ => Ok [64; 64; 3] |}.

Definition world (best_values : list Z) : Main.World :=
  {| Main.lib := lib;
     Main.SphereCubeDataset := fun _ => Raise RuntimeError "not defined";
     Main.ToyDataset := fun _ => Raise RuntimeError "not defined";
     Main.ChairsVAE := fun _ _ _ _ => Ok tt;
     Main.load_state_dict := fun _ => Ok tt;
     Main.random_split := fun _ _ => Ok tt;
     Main.experiment_state := list Z;
     Main.value := Z;
     Main.make_experiment := fun _ _ => Ok best_values;
     Main.train := fun e _ => tail e;
     Main.best_value := fun e => hd 0 e;
     Main.value_ne := fun x y => negb (x =? y);
     Main.log_likelihood := fun _ => Ok tt |}.

End Examples.

(** *** The four loss terms of the unsupervised reading *)

Module LossShape.

(** A term of the reconstruction / KL / equivariance / continuity kind. *)
Definition one_of_four (t : Main.loss_term) : Prop :=
  match t with
  | Main.Supervised _ => False
  | _ => True
  end.

End LossShape.

(** *** Epochs that improve and epochs that do not *)

Module EarlyStop.
Import Main.

(** The experiment after training on the epochs [done], in order. *)
Definition exp_after (W : World) (e : experiment_state W) (done : list Z)
  : experiment_state W :=
  foldl (train W) e done.

(** Training on [epoch] changes the best value. *)
Definition improved (W : World) (e : experiment_state W) (epoch : Z) : bool :=
  value_ne W (best_value W e) (best_value W (train W e epoch)).

(** How many of the epochs [done] left the best value unchanged. *)
Fixpoint stalled_count (W : World) (e : experiment_state W) (done : list Z) : Z :=
  match done with
  | [] => 0
  | epoch :: rest =>
      (if improved W e epoch then 0 else 1) + stalled_count W (train W e epoch) rest
  end.

(** The state line 132 sets up. *)
Definition start (W : World) (e : experiment_state W) : loop_state W :=
  {| exp := e; early_stop_counter := 0; saved := []; stopped := None |}.

End EarlyStop.


(** ** [supervised_experiment.py]: the labelled dataset and the encoding step *)

Module SupervisedRun.
Import PyStr Torch NN Supervised.

(** The script's [SelectedDataset]: the ten chairs, with the object id of
    an item mapped to its position in the list of selected chairs. *)
Record SelectedDataset : Type := {
  base : ShapeDataset;
  name : list string;
  map : gmap string Z
}.

Definition SelectedDataset_init (L : Lib) : result SelectedDataset :=
  let base := ShapeDataset_init L "data/chairs/ten" in
  content ← open_read L "data/chairs/selected_chairs.txt";
  let names := findall_obj content in
  Ok {| base := base; name := names; map := Datasets.enumerate_map names |}.

Definition SelectedDataset_getitem (L : Lib) (self : SelectedDataset) (idx : Z)
  : result (Z * tensor * tensor) :=
  '(name, group_el, image_tensor) ← ShapeDataset_getitem L (base self) idx;
  match map self !! name with
  | Some i => Ok (i, group_el, image_tensor)
  | None => Raise KeyError name
  end.

(** [torch.eye(10)[item_label]]: one row of the 10x10 identity per label.
    [item_label] is the batch of integer labels as the loader collates
    them from a [SelectedDataset] (with [--single_id] the items carry
    names instead, which [encode] does not look at).  A label outside
    [-10, 9] is no index of the ten rows. *)
Definition eye10_rows (item_label : list Z) : result tensor :=
  match List.find (fun i => negb ((-10 <=? i) && (i <? 10))) item_label with
  | Some i => Raise IndexError "index is out of bounds for dimension 0 with size 10"
  | None =>
      Ok {| shape := [Z.of_nat (length item_label); 10];
            val := App Eye10Rows [Floats (inject_Z <$> item_label)] |}
  end.

(** [encode(encoder, single_id, item_label, rot_label, img_label)] *)
Definition encode (encoder : option Encoder.t) (single_id : bool)
    (item_label : list Z) (rot_label img_label : tensor)
  : result (tensor * option tensor) :=
  match encoder with
  | Some enc => Encoder.forward enc img_label
  | None =>
      let rot := rot_label in
      if negb single_id then
        id_data ← eye10_rows item_label;
        Ok (rot, Some id_data)
      else Ok (rot, None)
  end.

(** The two lines [train] and [test] share: encode, then decode. *)
Definition reconstruction (decoder : net) (encoder : option Encoder.t)
    (single_id : bool) (item_label : list Z) (rot_label img_label : tensor)
  : result tensor :=
  '(rot, id_data) ← encode encoder single_id item_label rot_label img_label;
  net_forward decoder rot id_data.

(** Lines 308-312 of [main]: the encoder of the auto-encoding mode,
    built with the default of 50 hidden channels. *)
Definition main_encoder (ae : Z) (a : args) : result (option Encoder.t) :=
  if negb (ae =? 0) then
    let id_dims := if a_single_id a =? 0 then a_id_dims a else 0 in
    encoder ← Encoder.new id_dims 50;
    Ok (Some encoder)
  else Ok None.

End SupervisedRun.

(** *** Texts made of the characters of an object id *)

Module ObjectId.

(** Every character is in the class [[A-z0-9]]. *)
Fixpoint name_chars (s : string) : Prop :=
  match s with
  | EmptyString => True
  | String c s' => PyStr.is_name_char c = true /\ name_chars s'
  end.

(** The text ends in a character of the class. *)
Fixpoint ends_in_name_char (s : string) : Prop :=
  match s with
  | EmptyString => False
  | String c EmptyString => PyStr.is_name_char c = true
  | String _ s' => ends_in_name_char s'
  end.

(** Somewhere in [s], [.obj] directly follows a character of the class;
    [before] says whether the text in front of [s] ends in one. *)
Definition has_object_id (before : bool) (s : string) : Prop :=
  exists a b, s = a ++ ".obj" ++ b /\
              (ends_in_name_char a \/ (a = "" /\ before = true)).

End ObjectId.

(* ================================================================== *)
(** * Part II. Properties                                              *)
(* ================================================================== *)

(** ** The definitions on concrete inputs *)

Example findall_chair_rendering :
  PyStr.findall_quaternion "assets/chair.obj_0.0336_-0.1523_-0.5616_-0.8126.jpg"
    = ["0.0336"; "-0.1523"; "-0.5616"; "-0.8126"].
Proof. reflexivity. Qed.

(** A fifth digit is left behind, and the scan resumes right after a match. *)
Example findall_adjacent_matches :
  PyStr.findall_quaternion "0.12345-1.00000.5678--0.1111-0.1"
    = ["0.1234"; "-1.0000"; "0.5678"; "-0.1111"].
Proof. reflexivity. Qed.

Example filename_to_quaternion_three_matches :
  Datasets.filename_to_quaternion "chair.obj_0.0336_-0.1523_-0.5616.jpg"
    = Raise AssertionError
        "No quaternion found in chair.obj_0.0336_-0.1523_-0.5616.jpg".
Proof. reflexivity. Qed.

Example search_obj_examples :
  PyStr.search_obj "assets/chair.obj_0.0336.jpg" = Some "chair" /\
  PyStr.search_obj "a.b.obj" = Some "b" /\
  PyStr.search_obj "data/0.1000.jpg" = None.
Proof. repeat split. Qed.

Example os_path_join_examples :
  PyStr.os_path_join "data/chairs" "files.txt" = "data/chairs/files.txt" /\
  PyStr.os_path_join "data/" "a.jpg" = "data/a.jpg" /\
  PyStr.os_path_join "data" "/abs/a.jpg" = "/abs/a.jpg" /\
  PyStr.os_path_join "" "a.jpg" = "a.jpg".
Proof. repeat split. Qed.

Example splitlines_examples :
  let nl := String (ascii_of_nat 10) "" in
  let cr := String (ascii_of_nat 13) "" in
  PyStr.splitlines ("a" ++ nl ++ nl ++ "b" ++ cr ++ nl ++ "c" ++ cr ++ "d" ++ nl)
    = ["a"; ""; "b"; "c"; "d"] /\
  PyStr.splitlines "" = [] /\
  PyStr.splitlines nl = [""].
Proof. repeat split. Qed.

Example deconv_sizes :
  map (fun h => NN.deconv_out h 4 2 1) [4; 8; 16; 32] = [8; 16; 32; 64] /\
  NN.deconv_out 1 4 1 0 = 4 /\
  map (fun h => NN.conv_out h 4 2 1) [64; 32; 16; 8] = [32; 16; 8; 4] /\
  NN.conv_out 4 4 1 0 = 1.
Proof. repeat split. Qed.

Example view_refuses_ambiguous_inference :
  NN.view {| Torch.shape := [0; 10]; Torch.val := Torch.Var "id_data" |} [0; -1]
    = Raise RuntimeError "shape is invalid for input size".
Proof. reflexivity. Qed.

(** ** The quaternion pattern: what [re.findall] returns *)

Section FindallFacts.
Import PyStr QuaternionPattern.

Lemma app_cons c (a b : string) : String c a ++ b = String c (a ++ b).
Proof. reflexivity. Qed.

Lemma app_nil (b : string) : "" ++ b = b.
Proof. reflexivity. Qed.

Lemma is_digit_digit c : is_digit c = true <-> digit c.
Proof.
  unfold is_digit, digit. rewrite andb_true_iff, !Nat.leb_le. tauto.
Qed.

Lemma is_01_spec c : is_01 c = true <-> (c = "0"%char \/ c = "1"%char).
Proof.
  unfold is_01. rewrite orb_true_iff, !Nat.eqb_eq. split.
  - intros [H | H]; [left | right];
      rewrite <- (ascii_nat_embedding c), H; reflexivity.
  - intros [-> | ->]; [left | right]; reflexivity.
Qed.

Lemma is_dot_spec c : is_dot c = true <-> c = "."%char.
Proof.
  unfold is_dot. rewrite Nat.eqb_eq. split.
  - intros H. rewrite <- (ascii_nat_embedding c), H. reflexivity.
  - intros ->. reflexivity.
Qed.

Lemma is_minus_spec c : is_minus c = true <-> c = "-"%char.
Proof.
  unfold is_minus. rewrite Nat.eqb_eq. split.
  - intros H. rewrite <- (ascii_nat_embedding c), H. reflexivity.
  - intros ->. reflexivity.
Qed.

Lemma match_unsigned_Some s m :
  match_unsigned s = Some m <-> unsigned_text m /\ exists rest, s = m ++ rest.
Proof.
  split.
  - unfold match_unsigned.
    destruct s as [|a [|b [|d1 [|d2 [|d3 [|d4 rest]]]]]]; try discriminate.
    destruct (is_01 a && is_dot b && is_digit d1 && is_digit d2
              && is_digit d3 && is_digit d4) eqn:E; [|discriminate].
    intros [= <-]. rewrite !andb_true_iff in E.
    destruct E as [[[[[Ha Hb] H1] H2] H3] H4].
    apply is_dot_spec in Hb as ->. split; [|exists rest; reflexivity].
    exists a, d1, d2, d3, d4. rewrite <- !is_digit_digit, <- is_01_spec. tauto.
  - intros [(a & d1 & d2 & d3 & d4 & -> & Ha & H1 & H2 & H3 & H4) [rest ->]].
    rewrite !app_cons, app_nil. cbn [match_unsigned].
    apply is_01_spec in Ha. apply is_digit_digit in H1, H2, H3, H4.
    rewrite Ha, H1, H2, H3, H4. reflexivity.
Qed.

Lemma unsigned_text_head m : unsigned_text m -> exists a m', m = String a m' /\ is_minus a = false.
Proof.
  intros (a & d1 & d2 & d3 & d4 & -> & [-> | ->] & _); eexists _, _; split; reflexivity.
Qed.

Lemma match_at_Some s m :
  match_at s = Some m <-> quaternion_text m /\ exists rest, s = m ++ rest.
Proof.
  split.
  - destruct s as [|c s']; [discriminate|]. cbn [match_at].
    destruct (is_minus c) eqn:Ec.
    + destruct (match_unsigned s') as [m'|] eqn:E.
      * intros [= <-]. apply match_unsigned_Some in E as [Hu [rest ->]].
        apply is_minus_spec in Ec as ->. split; [right; eauto|].
        exists rest. reflexivity.
      * intros H. apply match_unsigned_Some in H as [Hu Hr]. split; [left|]; done.
    + intros H. apply match_unsigned_Some in H as [Hu Hr]. split; [left|]; done.
  - intros [[Hu | (m' & -> & Hu)] [rest ->]].
    + destruct (unsigned_text_head _ Hu) as (a & m' & -> & Ha).
      rewrite !app_cons. cbn [match_at]. rewrite Ha.
      change (String a (m' ++ rest)) with (String a m' ++ rest).
      apply match_unsigned_Some. eauto.
    + rewrite !app_cons. cbn [match_at]. change (is_minus "-") with true. cbn match.
      assert (match_unsigned (m' ++ rest) = Some m') as ->; [|done].
      apply match_unsigned_Some. eauto.
Qed.

Lemma match_at_None s :
  match_at s = None <-> forall m rest, s = m ++ rest -> ~ quaternion_text m.
Proof.
  split.
  - intros E m rest -> Hm.
    assert (match_at (m ++ rest) = Some m) by (apply match_at_Some; eauto).
    congruence.
  - intros H. destruct (match_at s) as [m|] eqn:E; [|done].
    apply match_at_Some in E as [Hm [rest ->]]. exfalso. eapply H; eauto.
Qed.

Lemma findall_from_drop s : forall k, findall_from k s = findall_from 0 (drop k s).
Proof.
  induction s as [|c s IH]; intros [|k]; try reflexivity.
  cbn [findall_from drop]. apply IH.
Qed.

Lemma drop_append m rest : drop (String.length m) (m ++ rest) = rest.
Proof. induction m; [destruct rest|]; done. Qed.

Lemma findall_hit m rest :
  quaternion_text m ->
  findall_quaternion (m ++ rest) = m :: findall_quaternion rest.
Proof.
  intros Hm. unfold findall_quaternion.
  assert (match_at (m ++ rest) = Some m) as E by (apply match_at_Some; eauto).
  destruct m as [|c m'].
  { destruct Hm as [Hu | (? & ? & _)]; [|done].
    destruct (unsigned_text_head _ Hu) as (? & ? & ? & _). done. }
  rewrite !app_cons in *. cbn [findall_from] in *. rewrite E. f_equal.
  rewrite findall_from_drop. cbn [String.length Nat.pred].
  rewrite drop_append. reflexivity.
Qed.

Lemma findall_miss c s :
  match_at (String c s) = None ->
  findall_quaternion (String c s) = findall_quaternion s.
Proof. unfold findall_quaternion. cbn [findall_from]. intros ->. reflexivity. Qed.

Lemma quaternion_text_length m : quaternion_text m -> (0 < String.length m)%nat.
Proof.
  intros [Hu | (m' & -> & Hu)]; [|cbn; lia].
  destruct (unsigned_text_head _ Hu) as (? & ? & -> & _). cbn. lia.
Qed.

Lemma length_append (a b : string) :
  String.length (a ++ b) = (String.length a + String.length b)%nat.
Proof. induction a as [|c a IH]; [reflexivity|]. rewrite app_cons. cbn [String.length Nat.add]. f_equal. exact IH. Qed.

(** A position without a match in front of a text leaves its occurrences
    unchanged. *)
Lemma occurrences_skip c s ms :
  match_at (String c s) = None -> occurrences s ms -> occurrences (String c s) ms.
Proof.
  intros Hn Hocc. rewrite match_at_None in Hn. destruct Hocc as [s Hno | pre m rest ms Hm Hpre Hocc].
  - constructor. intros [|c' pre] suf m rest E1 E2 Hm; rewrite ?app_nil, ?app_cons in E1.
    + subst. eapply Hn; eauto.
    + injection E1 as -> ->. eapply Hno; eauto.
  - change (String c (pre ++ m ++ rest)) with (String c pre ++ m ++ rest).
    constructor; [done| |done].
    intros [|c' p1] p2 m' r' E1 Hne E2 Hm'; rewrite ?app_nil, ?app_cons in E1.
    + subst p2. rewrite ?app_nil, ?app_cons in E2. eapply Hn; eauto.
    + injection E1 as -> ->. eapply Hpre; eauto.
Qed.

Lemma findall_occurrences_len n : forall s,
  (String.length s <= n)%nat -> occurrences s (findall_quaternion s).
Proof.
  induction n as [|n IH]; intros s Hlen.
  - destruct s; [|cbn in Hlen; lia]. constructor.
    intros pre suf m rest E1 E2 Hm. apply quaternion_text_length in Hm.
    subst. destruct pre; [|done]. rewrite ?app_nil, ?app_cons in E1. destruct m; [cbn in Hm; lia|done].
  - destruct s as [|c s].
    { apply IH. cbn. lia. }
    destruct (match_at (String c s)) as [m|] eqn:E.
    + apply match_at_Some in E as [Hm [rest Hs]]. rewrite Hs.
      rewrite findall_hit by done.
      apply (occ_next "" m rest); [done| |].
      * intros p1 p2 m' r' E1. destruct p1, p2; cbn in E1; done.
      * apply IH. apply quaternion_text_length in Hm.
        apply (f_equal String.length) in Hs. rewrite length_append in Hs.
        cbn in Hs, Hlen. lia.
    + rewrite findall_miss by done. apply occurrences_skip; [done|].
      apply IH. cbn in Hlen. lia.
Qed.

Lemma findall_occurrences s : occurrences s (findall_quaternion s).
Proof. apply (findall_occurrences_len (String.length s)). lia. Qed.

Lemma no_match_findall s : no_match_in s -> findall_quaternion s = [].
Proof.
  induction s as [|c s IH]; [done|]. intros Hno.
  rewrite findall_miss.
  - apply IH. intros pre suf m rest -> E. apply (Hno (String c pre) suf m rest); done.
  - apply match_at_None. intros m rest E. apply (Hno "" (String c s) m rest); done.
Qed.

Lemma occurrences_findall s ms : occurrences s ms -> ms = findall_quaternion s.
Proof.
  induction 1 as [s Hno | pre m rest ms Hm Hpre Hocc IH].
  - symmetry. apply no_match_findall, Hno.
  - induction pre as [|c pre IHpre].
    + rewrite app_nil. rewrite findall_hit by done. congruence.
    + change (String c pre ++ m ++ rest) with (String c (pre ++ m ++ rest)).
      rewrite findall_miss.
      * apply IHpre. intros p1 p2 m' r' -> Hne E.
        apply (Hpre (String c p1) p2 m' r'); done.
      * apply match_at_None. intros m' r' E.
        apply (Hpre "" (String c pre) m' r'); done.
Qed.

End FindallFacts.
Section QuaternionParsing.
Import PyStr QuaternionPattern.

Lemma float_of_unsigned_text m :
  unsigned_text m -> float_of_unsigned m = Ok (unsigned_value m) /\ float m = Ok (unsigned_value m).
Proof.
  intros (a & d1 & d2 & d3 & d4 & -> & Ha & H1 & H2 & H3 & H4).
  apply is_digit_digit in H1, H2, H3, H4.
  assert (float_of_unsigned
            (String a (String "." (String d1 (String d2 (String d3 (String d4 ""))))))
          = Ok (unsigned_value
            (String a (String "." (String d1 (String d2 (String d3 (String d4 "")))))))) as E.
  { unfold float_of_unsigned, unsigned_value. cbn [read_digits].
    assert (is_digit a = true) as -> by (destruct Ha as [-> | ->]; reflexivity).
    change (is_digit ".") with false. cbv iota beta.
    change (is_dot ".") with true. cbv iota beta.
    cbn [read_digits]. rewrite H1, H2, H3, H4. cbv iota beta.
    change ((1 =? 0)%nat && (4 =? 0)%nat) with false. cbv iota.
    change (Z.to_pos (10 ^ Z.of_nat 4)) with 10000%positive.
    change (10 ^ Z.of_nat 4) with 10000.
    f_equal. f_equal. lia. }
  split; [exact E|].
  unfold float. assert (is_minus a = false) as -> by (destruct Ha as [-> | ->]; reflexivity).
  exact E.
Qed.

Lemma float_quaternion_text m :
  quaternion_text m -> float m = Ok (quaternion_value m).
Proof.
  intros [Hu | (m' & -> & Hu)].
  - destruct (float_of_unsigned_text _ Hu) as [_ ->].
    destruct Hu as (a & d1 & d2 & d3 & d4 & -> & [-> | ->] & _); reflexivity.
  - destruct (float_of_unsigned_text _ Hu) as [E _].
    unfold float. change (is_minus "-") with true. cbv iota.
    rewrite E. reflexivity.
Qed.

Lemma occurrences_texts s ms : occurrences s ms -> Forall quaternion_text ms.
Proof. induction 1; constructor; done. Qed.

Lemma mapM_float ms :
  Forall quaternion_text ms -> mapM float ms = Ok (quaternion_value <$> ms).
Proof.
  induction 1 as [|m ms Hm _ IH]; [reflexivity|].
  cbn [mapM]. rewrite (float_quaternion_text _ Hm). cbn. rewrite IH. reflexivity.
Qed.

Lemma filename_to_quaternion_eq filename :
  Datasets.filename_to_quaternion filename =
    if (length (findall_quaternion filename) =? 4)%nat
    then Ok (quaternion_value <$> findall_quaternion filename)
    else Raise AssertionError ("No quaternion found in " ++ filename).
Proof.
  unfold Datasets.filename_to_quaternion, py_assert.
  destruct (length (findall_quaternion filename) =? 4)%nat; [|reflexivity].
  cbn. apply mapM_float. eapply occurrences_texts, findall_occurrences.
Qed.

End QuaternionParsing.

(** C9.  For every filename, [filename_to_quaternion] (both copies of it)
    finds the leftmost non-overlapping texts of the pattern: an optional
    minus sign, a digit 0 or 1, a dot and exactly four digits.  If there
    are four of them it returns the four numbers they denote, in order of
    occurrence; it raises an [AssertionError] if and only if their number
    differs from four, and it raises nothing else. *)
Theorem filename_to_quaternion_spec (filename : string) :
  exists matches : list string,
    QuaternionPattern.occurrences filename matches /\
    (forall ms, QuaternionPattern.occurrences filename ms -> ms = matches) /\
    (length matches = 4%nat ->
       Datasets.filename_to_quaternion filename
         = Ok (QuaternionPattern.quaternion_value <$> matches)) /\
    (raises (Datasets.filename_to_quaternion filename) AssertionError
       <-> length matches <> 4%nat) /\
    (forall k, raises (Datasets.filename_to_quaternion filename) k -> k = AssertionError) /\
    Supervised.filename_to_quaternion filename
      = Datasets.filename_to_quaternion filename.
Proof.
  exists (PyStr.findall_quaternion filename).
  split; [apply findall_occurrences|].
  split; [apply occurrences_findall|].
  assert (Supervised.filename_to_quaternion filename
          = Datasets.filename_to_quaternion filename) as Hsame by reflexivity.
  rewrite Hsame, filename_to_quaternion_eq.
  destruct (Nat.eqb_spec (length (PyStr.findall_quaternion filename)) 4) as [E | E].
  - split; [done|]. split; [|split; [|done]].
    + split; [intros [msg H]; discriminate | done].
    + intros k [msg H]. discriminate.
  - split; [done|]. split; [|split; [|done]].
    + split; [done | intros _; eexists; reflexivity].
    + intros k [msg H]. congruence.
Qed.

(** ** [ShapeDataset]: the file index and the items *)

Section ShapeDatasetFacts.
Import PyStr Torch Datasets Provenance.
Variable L : Lib.

Lemma os_path_join_empty (b : string) : os_path_join "" b = b.
Proof. unfold os_path_join. destruct (starts_with "/" b); reflexivity. Qed.

Lemma item_path_root (self : dataset) (d filename : string) :
  root self = Some d -> item_path self filename = os_path_join d filename.
Proof.
  unfold item_path. intros ->. destruct (String.eqb_spec d "") as [-> | _]; [|done].
  symmetry. apply os_path_join_empty.
Qed.

(** The steps of [__getitem__] after the file name is known. *)
Lemma ShapeDataset_getitem_inv (self : dataset) (idx : Z) (it : item) :
  ShapeDataset_getitem L self idx = Ok it ->
  exists filename sh q name img,
    py_index (files self) idx = Ok filename /\
    image_shape L (item_path self filename) = Ok sh /\
    filename_to_quaternion filename = Ok q /\
    filename_to_name (cls self) filename = Ok name /\
    image_source (val img) = Some (item_path self filename) /\
    it = (name, to_float32 (quaternion_to_matrix q), img).
Proof.
  unfold ShapeDataset_getitem, Image_open.
  destruct (py_index (files self) idx) as [filename|] eqn:Ei; [|discriminate].
  cbn. destruct (image_shape L (item_path self filename)) as [sh|] eqn:Es; [|discriminate].
  cbn. destruct (filename_to_quaternion filename) as [q|] eqn:Eq; [|discriminate].
  cbn. destruct (rgb (cls self)); cbn.
  - unfold permute201; cbn. destruct sh as [|h [|w [|ch [|? ?]]]]; try discriminate.
    cbn. destruct (filename_to_name (cls self) filename) as [nm|] eqn:En; [|discriminate].
    cbn. intros [= <-]. eexists filename, _, q, nm, _. repeat split; eauto.
  - destruct (filename_to_name (cls self) filename) as [nm|] eqn:En; [|discriminate].
    cbn. intros [= <-]. eexists filename, _, q, nm, _. repeat split; eauto.
    unfold unsqueeze0; cbn. destruct (dim _ =? 3); reflexivity.
Qed.


End ShapeDatasetFacts.

(** C7.  [ShapeDataset] prefers an index file over globbing.  When
    [files.txt] exists in the directory (and can be read), the file list is
    exactly its lines and every item path is the entry joined onto the
    directory; otherwise the file list is the recursive glob of [**/*.jpg]
    under the directory and every entry is used as a path unchanged.  The
    item path is the one [__getitem__] opens. *)
Theorem ShapeDataset_index_preferred (L : Lib) (c : Datasets.dataset_class)
    (directory : string) :
  let index_path := PyStr.os_path_join directory "files.txt" in
  (forall content,
     os_path_exists L index_path = true ->
     open_read L index_path = Ok content ->
     exists self,
       Datasets.ShapeDataset_init L c directory = Ok self /\
       Datasets.files self = PyStr.splitlines content /\
       forall filename,
         Datasets.item_path self filename = PyStr.os_path_join directory filename) /\
  (os_path_exists L index_path = false ->
     exists self,
       Datasets.ShapeDataset_init L c directory = Ok self /\
       Datasets.files self = glob L (PyStr.os_path_join directory "**/*.jpg") /\
       forall filename, Datasets.item_path self filename = filename) /\
  (forall self idx name group_el image_tensor,
     Datasets.ShapeDataset_getitem L self idx = Ok (name, group_el, image_tensor) ->
     exists filename,
       py_index (Datasets.files self) idx = Ok filename /\
       Provenance.image_source (Torch.val image_tensor)
         = Some (Datasets.item_path self filename)).
Proof.
  cbv zeta. split; [|split].
  - intros content Hex Hread. unfold Datasets.ShapeDataset_init.
    rewrite Hex, Hread. cbn. eexists. split; [reflexivity|]. split; [reflexivity|].
    intros filename. apply item_path_root. reflexivity.
  - intros Hex. unfold Datasets.ShapeDataset_init. rewrite Hex.
    eexists. split; [reflexivity|]. split; reflexivity.
  - intros self idx name group_el image_tensor H.
    apply ShapeDataset_getitem_inv in H
      as (filename & sh & q & nm & img & Hi & _ & _ & _ & Hsrc & [= -> -> ->]).
    eauto.
Qed.

(** A directory with an index of two lines, and one without an index. *)
Lemma ShapeDataset_index_preferred_witness :
  let nl := String (ascii_of_nat 10) "" in
  let Lidx := {| os_path_exists := fun p => String.eqb p "data/files.txt";
                 open_read := fun _ => Ok ("a.jpg" ++ nl ++ "b.jpg" ++ nl);
                 glob := fun _ => ["data/x/c.jpg"];
                 image_shape := fun _ => Ok [64; 64] |} in
  let Lglob := {| os_path_exists := fun _ => false;
                  open_read := fun _ => Raise OSError "No such file";
                  glob := fun _ => ["data/x/c.jpg"];
                  image_shape := fun _ => Ok [64; 64] |} in
  (exists self,
     Datasets.ShapeDataset_init Lidx Datasets.HumanoidDataset "data" = Ok self /\
     Datasets.files self = ["a.jpg"; "b.jpg"] /\
     Datasets.item_path self "a.jpg" = "data/a.jpg") /\
  (exists self,
     Datasets.ShapeDataset_init Lglob Datasets.HumanoidDataset "data" = Ok self /\
     Datasets.files self = ["data/x/c.jpg"] /\
     Datasets.item_path self "data/x/c.jpg" = "data/x/c.jpg").
Proof.
  intros nl Lidx Lglob. split.
  - destruct (ShapeDataset_index_preferred Lidx Datasets.HumanoidDataset "data")
      as [H _].
    destruct (H ("a.jpg" ++ nl ++ "b.jpg" ++ nl) eq_refl eq_refl) as (self & E & Hf & Hp).
    exists self. split; [exact E|]. split; [exact Hf|]. apply Hp.
  - destruct (ShapeDataset_index_preferred Lglob Datasets.HumanoidDataset "data")
      as (_ & H & _).
    destruct (H eq_refl) as (self & E & Hf & Hp).
    exists self. split; [exact E|]. split; [exact Hf|]. apply Hp.
Defined.

Section SupervisedDatasetFacts.
Import PyStr Torch Provenance.
Variable L : Lib.



End SupervisedDatasetFacts.

Section QuaternionFacts.
Import SO3.
Local Open Scope R_scope.




End QuaternionFacts.

Section QuaternionNorm.
Import SO3.



End QuaternionNorm.




(** ** Shapes through the decoder networks *)

Section ShapeFacts.
Import Torch NN.

Lemma view_infer_first (t : tensor) (k m : Z) :
  0 < k -> numel (shape t) = m * k ->
  view t [-1; k] = Ok {| shape := [m; k]; val := App (View [m; k]) [val t] |}.
Proof.
  intros Hk Hn. unfold view.
  assert (forallb (fun z => -1 <=? z) [-1; k] = true) as ->.
  { cbn. rewrite andb_true_r. apply Z.leb_le. lia. }
  assert (filter (fun z => z ≠ -1) [-1; k] = [k]) as ->.
  { rewrite filter_cons_False by (intros H; apply H; reflexivity).
    rewrite filter_cons_True by lia. reflexivity. }
  assert (filter (fun z => z = -1) [-1; k] = [-1]) as ->.
  { rewrite filter_cons_True by reflexivity.
    rewrite filter_cons_False by lia. reflexivity. }
  cbn [length numel foldr fmap list_fmap]. rewrite Hn, Z.mul_1_r.
  rewrite Z.mod_mul by lia. rewrite Z.div_mul by lia.
  assert ((k =? 0) = false) as -> by (apply Z.eqb_neq; lia).
  assert ((k =? -1) = false) as -> by (apply Z.eqb_neq; lia).
  reflexivity.
Qed.

Lemma view_infer_last (t : tensor) (n m : Z) :
  0 < n -> numel (shape t) = n * m ->
  view t [n; -1] = Ok {| shape := [n; m]; val := App (View [n; m]) [val t] |}.
Proof.
  intros Hk Hn. unfold view.
  assert (forallb (fun z => -1 <=? z) [n; -1] = true) as ->.
  { cbn. rewrite andb_true_r. apply Z.leb_le. lia. }
  assert (filter (fun z => z ≠ -1) [n; -1] = [n]) as ->.
  { rewrite filter_cons_True by lia.
    rewrite filter_cons_False by (intros H; apply H; reflexivity). reflexivity. }
  assert (filter (fun z => z = -1) [n; -1] = [-1]) as ->.
  { rewrite filter_cons_False by lia.
    rewrite filter_cons_True by reflexivity. reflexivity. }
  cbn [length numel foldr fmap list_fmap]. rewrite Hn, Z.mul_1_r, (Z.mul_comm n m).
  rewrite Z.mod_mul by lia. rewrite Z.div_mul by lia.
  assert ((n =? 0) = false) as -> by (apply Z.eqb_neq; lia).
  assert ((n =? -1) = false) as -> by (apply Z.eqb_neq; lia).
  reflexivity.
Qed.

Lemma view_exact3 (t : tensor) (a b c : Z) :
  0 <= a -> 0 <= b -> 0 <= c -> numel (shape t) = a * (b * c) ->
  view t [a; b; c]
    = Ok {| shape := [a; b; c]; val := App (View [a; b; c]) [val t] |}.
Proof.
  intros Ha Hb Hc Hn. unfold view.
  assert (forallb (fun z => -1 <=? z) [a; b; c] = true) as ->.
  { cbn. rewrite !andb_true_iff, !Z.leb_le. lia. }
  assert (filter (fun z => z ≠ -1) [a; b; c] = [a; b; c]) as ->.
  { rewrite !filter_cons_True by lia. reflexivity. }
  assert (filter (fun z => z = -1) [a; b; c] = []) as ->.
  { rewrite !filter_cons_False by lia. reflexivity. }
  cbn [length numel foldr]. rewrite Hn, Z.mul_1_r, Z.eqb_refl. reflexivity.
Qed.

Lemma leb_pos (x : Z) : 0 < x -> (x <=? 0) = false.
Proof. intros H. apply Z.leb_gt. exact H. Qed.

Ltac run_layers :=
  repeat (cbn [sequential_from mbind result_bind apply_layer shape val];
          rewrite ?Z.eqb_refl; cbn [negb];
          repeat (rewrite leb_pos by lia); cbn [orb];
          first [ match goal with
                  | |- context [(?a <? ?b) || (?c <? ?d)] =>
                      change ((a <? b) || (c <? d)) with false; cbv iota
                  end
                | idtac ]).

(** The deconvolutional stack takes a 1x1 map to one 64x64 channel:
    1 -> 4 -> 8 -> 16 -> 32 -> 64. *)
Lemma DeconvNet_shape (in_dims hidden_dims n : Z) (t : tensor) :
  0 < in_dims -> 0 < hidden_dims ->
  shape t = [n; in_dims; 1; 1] ->
  exists out,
    sequential (Supervised.DeconvNet in_dims hidden_dims) t = Ok out /\
    shape out = [n; 1; 64; 64].
Proof.
  intros Hin Hh Hs. unfold sequential, Supervised.DeconvNet.
  cbn [sequential_from apply_layer]. rewrite Hs.
  run_layers. eexists. split; reflexivity.
Qed.

(** The encoder's convolutions take one 64x64 channel to a 1x1 map:
    64 -> 32 -> 16 -> 8 -> 4 -> 1. *)
Lemma Encoder_conv_shape (id_dims hidden_dims n : Z) (t : tensor) :
  0 <= id_dims -> 0 < hidden_dims ->
  shape t = [n; 1; 64; 64] ->
  exists out,
    sequential (Supervised.Encoder.conv (Supervised.Encoder.init id_dims hidden_dims)) t
      = Ok out /\
    shape out = [n; 3 + id_dims; 1; 1].
Proof.
  intros Hid Hh Hs. unfold sequential, Supervised.Encoder.init.
  cbn [Supervised.Encoder.conv sequential_from apply_layer]. rewrite Hs.
  run_layers. eexists. split; reflexivity.
Qed.

End ShapeFacts.

Section DecoderFacts.
Import Torch NN Supervised Widths.

Lemma eazyz_batch (r : tensor) (n : Z) :
  shape r = [n; 3; 3] ->
  group_matrix_to_eazyz r
    = Ok {| shape := [n; 3]; val := App GroupMatrixToEazyz [val r] |}.
Proof. intros Hs. unfold group_matrix_to_eazyz. rewrite Hs. reflexivity. Qed.

Lemma quaternions_batch (r : tensor) (n : Z) :
  shape r = [n; 3; 3] ->
  group_matrix_to_quaternions r
    = Ok {| shape := [n; 4]; val := App GroupMatrixToQuaternions [val r] |}.
Proof. intros Hs. unfold group_matrix_to_quaternions. rewrite Hs. reflexivity. Qed.

Lemma view_matrices_flat (r : tensor) (n : Z) :
  shape r = [n; 3; 3] ->
  view r [-1; 9] = Ok {| shape := [n; 9]; val := App (View [n; 9]) [val r] |}.
Proof.
  intros Hs. apply view_infer_first; [lia|]. rewrite Hs. cbn [numel foldr]. lia.
Qed.

Lemma block_wigner_batch (angles data : tensor) (degrees n dd : Z) :
  0 <= degrees ->
  shape angles = [n; 3] -> shape data = [n; (degrees + 1) ^ 2; dd] ->
  block_wigner_matrix_multiply angles data degrees
    = Ok {| shape := [n; (degrees + 1) ^ 2; dd];
            val := App (BlockWignerMatrixMultiply degrees) [val angles; val data] |}.
Proof.
  intros Hd Ha Hs. unfold block_wigner_matrix_multiply. rewrite Ha, Hs, !Z.eqb_refl.
  assert ((0 <=? degrees) = true) as -> by (apply Z.leb_le; lia). reflexivity.
Qed.

(** The pipeline of [ActionNet.forward] up to the flattened signal. *)
Lemma ActionNet_signal (degrees data_dims n : Z) (matrices harmonics : tensor) :
  0 <= degrees -> 0 < data_dims ->
  shape matrices = [n; 3; 3] ->
  shape harmonics = [n; (degrees + 1) ^ 2; data_dims] ->
  exists angles rotated item,
    group_matrix_to_eazyz matrices = Ok angles /\
    shape angles = [n; 3] /\
    block_wigner_matrix_multiply angles harmonics degrees = Ok rotated /\
    view rotated [-1; (degrees + 1) ^ 2 * data_dims] = Ok item /\
    shape item = [n; (degrees + 1) ^ 2 * data_dims] /\
    val item = App (View [n; (degrees + 1) ^ 2 * data_dims])
                 [App (BlockWignerMatrixMultiply degrees)
                    [App GroupMatrixToEazyz [val matrices]; val harmonics]].
Proof.
  intros Hd Hdd Hm Hh. eexists _, _, _.
  split; [apply (eazyz_batch _ _ Hm)|]. split; [reflexivity|].
  split; [apply (block_wigner_batch _ _ _ n data_dims); done|].
  split.
  { apply (view_infer_first _ _ n).
    - assert (0 < (degrees + 1) ^ 2) by (apply Z.pow_pos_nonneg; lia). lia.
    - cbn [shape numel foldr]. lia. }
  split; reflexivity.
Qed.

Lemma ActionNet_init_single (degrees id_dims data_dims layers : Z)
    (deconv : tensor -> result tensor) :
  0 <= data_dims ->
  ActionNet.init degrees deconv id_dims data_dims true layers
    = Ok {| ActionNet.degrees := degrees; ActionNet.data_dims := data_dims;
            ActionNet.matrix_dims := (degrees + 1) ^ 2;
            ActionNet.item_rep :=
              Some {| shape := [(degrees + 1) ^ 2; data_dims]; val := Var "item_rep" |};
            ActionNet.harmonics_encoder := None;
            ActionNet.deconv := deconv |}.
Proof.
  intros Hdd. unfold ActionNet.init, ActionNet.randn_parameter.
  assert ((0 <=? (degrees + 1) ^ 2) = true) as ->.
  { apply Z.leb_le. rewrite Z.pow_2_r. nia. }
  assert ((0 <=? data_dims) = true) as -> by (apply Z.leb_le; lia).
  reflexivity.
Qed.

(** The harmonics a call works on, for both ways of supplying them. *)
Lemma ActionNet_harmonics (degrees id_dims data_dims layers n : Z)
    (single_id : bool) (deconv : tensor -> result tensor)
    (matrices : tensor) (id_data : option tensor) :
  0 <= degrees -> 0 < data_dims -> 0 <= n ->
  shape matrices = [n; 3; 3] ->
  (if single_id then id_data = None
   else exists d, id_data = Some d /\ shape d = [n; id_dims]) ->
  exists net harmonics,
    ActionNet.init degrees deconv id_dims data_dims single_id layers = Ok net /\
    ActionNet.degrees net = degrees /\
    ActionNet.data_dims net = data_dims /\
    ActionNet.matrix_dims net = (degrees + 1) ^ 2 /\
    ActionNet.deconv net = deconv /\
    shape harmonics = [n; (degrees + 1) ^ 2; data_dims] /\
    ActionNet.forward net matrices id_data =
      (angles ← group_matrix_to_eazyz matrices;
       rotated ← block_wigner_matrix_multiply angles harmonics degrees;
       item ← view rotated [-1; (degrees + 1) ^ 2 * data_dims];
       item4 ← none_none item;
       out ← deconv item4;
       channel0 out).
Proof.
  intros Hd Hdd Hn Hm Hid.
  assert (0 <= (degrees + 1) ^ 2) as Hmd by (rewrite Z.pow_2_r; nia).
  destruct single_id.
  - subst id_data. rewrite ActionNet_init_single by lia.
    eexists _, {| shape := [n; (degrees + 1) ^ 2; data_dims] |}.
    do 5 (split; [reflexivity|]). split; [reflexivity|].
    unfold ActionNet.forward, size0, expand_batch.
    cbn [ActionNet.item_rep ActionNet.degrees ActionNet.matrix_dims
         ActionNet.data_dims ActionNet.deconv shape val].
    rewrite Hm.
    rewrite (bool_decide_eq_false_2 (None ≠ None)) by (intros H; apply H; reflexivity).
    rewrite (bool_decide_eq_true_2 (Some _ ≠ None)) by done.
    cbn [eqb negb py_assert mbind result_bind].
    assert ((0 <=? n) = true) as -> by (apply Z.leb_le; lia).
    reflexivity.
  - destruct Hid as (d & -> & Hsd).
    eexists _, {| shape := [n; (degrees + 1) ^ 2; data_dims] |}.
    split; [reflexivity|]. do 4 (split; [reflexivity|]). split; [reflexivity|].
    unfold ActionNet.forward, size0, MLP_forward.
    cbn [ActionNet.item_rep ActionNet.degrees ActionNet.matrix_dims
         ActionNet.data_dims ActionNet.deconv ActionNet.harmonics_encoder
         input_dims output_dims hidden_dims num_layers shape val].
    rewrite Hm, Hsd.
    rewrite (bool_decide_eq_true_2 (Some _ ≠ None)) by done.
    rewrite (bool_decide_eq_false_2 (None ≠ None)) by (intros H; apply H; reflexivity).
    change (reverse [n; id_dims]) with [id_dims; n].
    cbn [eqb negb py_assert mbind result_bind]. rewrite Z.eqb_refl.
    change (reverse [(degrees + 1) ^ 2 * data_dims; n]) with [n; (degrees + 1) ^ 2 * data_dims].
    cbn [py_assert mbind result_bind].
    rewrite (view_exact3 _ n ((degrees + 1) ^ 2) data_dims);
      [reflexivity | lia | lia | lia | cbn [shape numel foldr]; lia].
Qed.

(** A stack with channel counts that are not negative can be built. *)
Lemma DeconvNet_init_ok (in_dims hidden_dims : Z) :
  0 <= in_dims -> 0 <= hidden_dims ->
  DeconvNet_init in_dims hidden_dims = Ok (DeconvNet in_dims hidden_dims).
Proof.
  intros Hin Hh. unfold DeconvNet_init, Sequential_init, DeconvNet, new_layer.
  cbn [mapM channels forallb].
  repeat (rewrite (proj2 (Z.leb_le 0 _)) by lia).
  reflexivity.
Qed.

(** A negative channel count stops the construction. *)
Lemma DeconvNet_init_negative (in_dims hidden_dims : Z) :
  in_dims < 0 \/ hidden_dims < 0 ->
  raises (DeconvNet_init in_dims hidden_dims) RuntimeError.
Proof.
  intros H. unfold DeconvNet_init, Sequential_init, DeconvNet, new_layer.
  cbn [mapM channels forallb].
  destruct (Z.leb_spec 0 in_dims) as [Hin | Hin];
    destruct (Z.leb_spec 0 hidden_dims) as [Hh | Hh];
    cbn [andb mbind result_bind]; try lia; eexists; reflexivity.
Qed.

Lemma deconv_channel0 (hidden_dims n k : Z) (x : tensor) :
  0 < k -> 0 < hidden_dims ->
  shape x = [n; k] ->
  exists out,
    (x4 ← none_none x;
     y ← sequential (DeconvNet k hidden_dims) x4;
     channel0 y) = Ok out /\
    shape out = [n; 64; 64].
Proof.
  intros Hk Hh Hx. unfold none_none. rewrite Hx. cbn [mbind result_bind].
  destruct (DeconvNet_shape k hidden_dims n
              {| shape := [n; k; 1; 1]; val := App NoneNone [val x] |} Hk Hh eq_refl)
    as (y & -> & Hy).
  cbn [mbind result_bind]. unfold channel0. rewrite Hy.
  change (0 <? 1) with true. cbv iota. eexists. split; reflexivity.
Qed.

Lemma ActionNet_forward_shape (degrees id_dims data_dims layers hidden_dims n : Z)
    (single_id : bool) (matrices : tensor) (id_data : option tensor) :
  0 <= degrees -> 0 < data_dims -> 0 < hidden_dims -> 0 <= n ->
  shape matrices = [n; 3; 3] ->
  (if single_id then id_data = None
   else exists d, id_data = Some d /\ shape d = [n; id_dims]) ->
  exists net out,
    ActionNet.init degrees
      (sequential (DeconvNet ((degrees + 1) ^ 2 * data_dims) hidden_dims))
      id_dims data_dims single_id layers = Ok net /\
    ActionNet.forward net matrices id_data = Ok out /\
    shape out = [n; 64; 64].
Proof.
  intros Hd Hdd Hhid Hn Hm Hid.
  assert (0 < (degrees + 1) ^ 2 * data_dims) as Hin
    by (assert (0 < (degrees + 1) ^ 2) by (apply Z.pow_pos_nonneg; lia); lia).
  destruct (ActionNet_harmonics degrees id_dims data_dims layers n single_id
              (sequential (DeconvNet ((degrees + 1) ^ 2 * data_dims) hidden_dims))
              matrices id_data Hd Hdd Hn Hm Hid)
    as (net & harmonics & Hinit & _ & _ & _ & _ & Hh & Hfwd).
  destruct (ActionNet_signal degrees data_dims n matrices harmonics Hd Hdd Hm Hh)
    as (angles & rotated & item & Ea & _ & Er & Ev & Hitem & _).
  exists net. rewrite Hfwd, Ea. cbn [mbind result_bind]. rewrite Er.
  cbn [mbind result_bind]. rewrite Ev. cbn [mbind result_bind].
  destruct (deconv_channel0 hidden_dims n _ item Hin Hhid Hitem) as (out & E & Hout).
  exists out. split; [exact Hinit|]. split; [exact E | exact Hout].
Qed.

Lemma exist_and_l {A} (P : Prop) (Q : A -> Prop) :
  P /\ (exists a, Q a) -> exists a, P /\ Q a.
Proof. intros [HP [a HQ]]. eauto. Qed.

Lemma rotation_features_shape (mode : string) (r : tensor) (n : Z) :
  shape r = [n; 3; 3] ->
  exists x, MLPNet.rotation_features mode r = Ok x /\
            shape x = [n; mode_width mode].
Proof.
  intros Hr. unfold MLPNet.rotation_features, mode_width.
  destruct (String.eqb mode "MAT").
  - rewrite (view_matrices_flat _ _ Hr). eexists; split; reflexivity.
  - destruct (String.eqb mode "Q").
    + rewrite (quaternions_batch _ _ Hr). eexists; split; reflexivity.
    + rewrite (eazyz_batch _ _ Hr). eexists; split; reflexivity.
Qed.

Lemma MLPNet_init_accepted (degrees data_dims id_dims : Z) (mode : string)
    (single_id : bool) (deconv : tensor -> result tensor) :
  mode = "MAT" \/ mode = "Q" \/ mode = "EA" ->
  MLPNet.init degrees deconv data_dims mode id_dims single_id
    = Ok {| MLPNet.mode := mode;
            MLPNet.mlp :=
              {| input_dims := if negb single_id then mode_width mode + id_dims
                               else mode_width mode;
                 output_dims := (degrees + 1) ^ 2 * data_dims;
                 hidden_dims := 50; num_layers := 3 |};
            MLPNet.deconv := deconv;
            MLPNet.single_id := single_id |}.
Proof. intros [-> | [-> | ->]]; reflexivity. Qed.

Lemma MLPNet_forward_shape (degrees id_dims data_dims hidden_dims n : Z)
    (mode : string) (single_id : bool) (r : tensor) (id_data : option tensor) :
  0 <= degrees -> 0 < data_dims -> 0 < hidden_dims -> 0 < n ->
  mode = "MAT" \/ mode = "Q" \/ mode = "EA" ->
  shape r = [n; 3; 3] ->
  (if single_id then id_data = None
   else exists d, id_data = Some d /\ shape d = [n; id_dims]) ->
  exists net out,
    MLPNet.init degrees
      (sequential (DeconvNet ((degrees + 1) ^ 2 * data_dims) hidden_dims))
      data_dims mode id_dims single_id = Ok net /\
    MLPNet.forward net r id_data = Ok out /\
    shape out = [n; 64; 64].
Proof.
  intros Hdg Hdd Hh Hn Hmode Hr Hid. rewrite MLPNet_init_accepted by done.
  assert (0 < (degrees + 1) ^ 2 * data_dims) as Hin
    by (assert (0 < (degrees + 1) ^ 2) by (apply Z.pow_pos_nonneg; lia); lia).
  destruct (rotation_features_shape mode r n Hr) as (x & Ex & Hx).
  assert (forall y, shape y = [n; (degrees + 1) ^ 2 * data_dims] ->
            exists out,
              (x4 ← none_none y;
               o ← sequential (DeconvNet ((degrees + 1) ^ 2 * data_dims) hidden_dims) x4;
               channel0 o) = Ok out /\ shape out = [n; 64; 64]) as Hdec.
  { intros y Hy. apply deconv_channel0; assumption. }
  eexists. apply exist_and_l. split; [reflexivity|].
  unfold MLPNet.forward, size0.
  cbn [MLPNet.mode MLPNet.mlp MLPNet.deconv MLPNet.single_id].
  rewrite Hr, Ex. destruct single_id.
  - subst id_data.
    rewrite (bool_decide_eq_true_2 (None = None)) by done.
    cbn [eqb negb py_assert mbind result_bind].
    unfold MLP_forward. cbn [input_dims output_dims]. rewrite Hx.
    change (reverse [n; mode_width mode]) with [mode_width mode; n].
    cbv iota beta. rewrite Z.eqb_refl.
    apply (Hdec {| shape := reverse [(degrees + 1) ^ 2 * data_dims; n];
                   val := App (LearnedMLP (mode_width mode)
                                 ((degrees + 1) ^ 2 * data_dims) 50 3) [val x] |}
             eq_refl).
  - destruct Hid as (d & -> & Hd).
    rewrite (bool_decide_eq_false_2 (Some d = None)) by done.
    cbn [eqb negb py_assert mbind result_bind].
    rewrite (view_infer_last d n id_dims) by (rewrite ?Hd; cbn [numel foldr]; lia).
    cbn [mbind result_bind]. unfold cat1. rewrite Hx. cbn [shape].
    rewrite Z.eqb_refl, (bool_decide_eq_true_2 ([] = [])) by done.
    cbn [andb mbind result_bind].
    unfold MLP_forward. cbn [input_dims output_dims shape].
    change (reverse [n; mode_width mode + id_dims]) with [mode_width mode + id_dims; n].
    cbv iota beta. rewrite Z.eqb_refl.
    apply (Hdec {| shape := reverse [(degrees + 1) ^ 2 * data_dims; n];
                   val := App (LearnedMLP (mode_width mode + id_dims)
                                 ((degrees + 1) ^ 2 * data_dims) 50 3)
                            [App Cat1 [val x; App (View [n; id_dims]) [val d]]] |}
             eq_refl).
Qed.

Lemma Encoder_forward_shape (id_dims hidden_dims n : Z) (img : tensor) :
  0 <= id_dims -> 0 < hidden_dims -> shape img = [n; 64; 64] ->
  exists y rot id_data,
    (img4 ← add_channel img;
     sequential (Encoder.conv (Encoder.init id_dims hidden_dims)) img4) = Ok y /\
    shape y = [n; 3 + id_dims; 1; 1] /\
    Encoder.forward (Encoder.init id_dims hidden_dims) img = Ok (rot, id_data) /\
    shape rot = [n; 3; 3] /\
    val rot = App Rodrigues [App (Cols 0 (Some 3)) [App Pixel00 [val y]]].
Proof.
  intros Hid Hh Hs. unfold Encoder.forward, add_channel. rewrite Hs.
  cbn [mbind result_bind].
  destruct (Encoder_conv_shape id_dims hidden_dims n
              {| shape := [n; 1; 64; 64];
                 val := App (Layer "[:, None, :, :]" []) [val img] |} Hid Hh eq_refl)
    as (y & -> & Hy).
  exists y.
  cbn [mbind result_bind]. unfold pixel00. rewrite Hy.
  change ((0 <? 1) && (0 <? 1)) with true. cbv iota.
  cbn [mbind result_bind cols shape val].
  assert (slice_len (3 + id_dims) 0 (Some 3) = 3) as ->.
  { unfold slice_len. change (0 <? 0) with false. change (3 <? 0) with false.
    cbv iota. lia. }
  unfold rodrigues. cbn [shape]. change (reverse [n; 3]) with [3; n].
  cbv iota. destruct (negb (Encoder.id_dims (Encoder.init id_dims hidden_dims) =? 0));
    cbn [fmap result_fmap mbind result_bind]; eexists _, _;
    (split; [reflexivity|]); (split; [reflexivity|]); repeat split.
Qed.

End DecoderFacts.

(** C1.  For every batch of rotation matrices (shape [batch, 3, 3]) that
    [ActionNet.forward] accepts, the decoder signal is computed by first
    converting the matrices to ZYZ Euler angles and then applying the
    group action to the harmonic coefficients by block Wigner D-matrix
    multiplication at the configured number of degrees; the result is
    flattened to [(degrees+1)^2 * data_dims] features per batch entry, and
    only then handed to the deconvolutional network. *)
Theorem ActionNet_forward_pipeline
    (degrees id_dims data_dims layers n : Z) (single_id : bool)
    (deconv : Torch.tensor -> result Torch.tensor)
    (matrices : Torch.tensor) (id_data : option Torch.tensor) :
  0 <= degrees -> 0 < data_dims -> 0 <= n ->
  Torch.shape matrices = [n; 3; 3] ->
  (if single_id then id_data = None
   else exists d, id_data = Some d /\ Torch.shape d = [n; id_dims]) ->
  exists net harmonics angles rotated item,
    Supervised.ActionNet.init degrees deconv id_dims data_dims single_id layers
      = Ok net /\
    Torch.shape harmonics = [n; (degrees + 1) ^ 2; data_dims] /\
    NN.group_matrix_to_eazyz matrices = Ok angles /\
    NN.block_wigner_matrix_multiply angles harmonics degrees = Ok rotated /\
    NN.view rotated [-1; (degrees + 1) ^ 2 * data_dims] = Ok item /\
    Torch.shape item = [n; (degrees + 1) ^ 2 * data_dims] /\
    Torch.val item
      = Torch.App (Torch.View [n; (degrees + 1) ^ 2 * data_dims])
          [Torch.App (Torch.BlockWignerMatrixMultiply degrees)
             [Torch.App Torch.GroupMatrixToEazyz [Torch.val matrices];
              Torch.val harmonics]] /\
    Supervised.ActionNet.forward net matrices id_data
      = (item4 ← NN.none_none item; out ← deconv item4; NN.channel0 out).
Proof.
  intros Hd Hdd Hn Hm Hid.
  destruct (ActionNet_harmonics degrees id_dims data_dims layers n single_id
              deconv matrices id_data Hd Hdd Hn Hm Hid)
    as (net & harmonics & Hinit & _ & _ & _ & _ & Hh & Hfwd).
  destruct (ActionNet_signal degrees data_dims n matrices harmonics Hd Hdd Hm Hh)
    as (angles & rotated & item & Ea & _ & Er & Ev & Hitem & Hval).
  exists net, harmonics, angles, rotated, item.
  repeat (split; [assumption|]).
  rewrite Hfwd, Ea. cbn [mbind result_bind]. rewrite Er.
  cbn [mbind result_bind]. rewrite Ev. reflexivity.
Qed.

(** Degree 3 with ten copies and a single learned spectrum: 160 features. *)
Lemma ActionNet_forward_pipeline_witness :
  let deconv := NN.sequential (Supervised.DeconvNet 160 50) in
  let matrices := {| Torch.shape := [64; 3; 3]; Torch.val := Torch.Var "matrices" |} in
  exists net item,
    Supervised.ActionNet.init 3 deconv 10 10 true 3 = Ok net /\
    Torch.shape item = [64; 160] /\
    Supervised.ActionNet.forward net matrices None
      = (item4 ← NN.none_none item; out ← deconv item4; NN.channel0 out).
Proof.
  intros deconv matrices.
  destruct (ActionNet_forward_pipeline 3 10 10 3 64 true deconv matrices None)
    as (net & harmonics & angles & rotated & item & Hinit & _ & _ & _ & _ & Hs & _ & Hf);
    [lia | lia | lia | reflexivity | reflexivity |].
  exists net, item. split; [exact Hinit|]. split; [exact Hs | exact Hf].
Defined.




(** C6.  The decoder produces images of the spatial size the encoder
    consumes.  [DeconvNet] maps an [(in_dims, 1, 1)] input through its five
    transposed convolutions (kernel 4, strides 1, 2, 2, 2, 2) to one 64x64
    channel, which the convolutions of the [Encoder] accept: they take one
    64x64 channel down to 1x1, and [Encoder.forward] returns the Rodrigues
    matrix of the first three channels of that 1x1 map, one 3x3 matrix per
    image; and for every batch of rotations the [ActionNet] or [MLPNet]
    that [main] builds returns a tensor of shape [batch, 64, 64].  The
    networks are those that can be built and run: channel counts are
    positive, and [main] fails with a negative [--deconv_hidden]. *)
Theorem decoder_output_is_64x64 (a : Supervised.args) (n : Z)
    (matrices : Torch.tensor) (id_data : option Torch.tensor) :
  0 < n -> 0 <= Supervised.a_degrees a -> 0 < Supervised.a_data_dims a ->
  (Supervised.a_mode a = "action" \/
   (Supervised.a_mode a = "mlp" /\
    (Supervised.a_mlp_mode a = "MAT" \/ Supervised.a_mlp_mode a = "Q" \/
     Supervised.a_mlp_mode a = "EA"))) ->
  Torch.shape matrices = [n; 3; 3] ->
  (if negb (Supervised.a_single_id a =? 0) then id_data = None
   else exists d, id_data = Some d /\ Torch.shape d = [n; Supervised.a_id_dims a]) ->
  (forall in_dims hidden_dims,
     Widths.transposed_convolutions (Supervised.DeconvNet in_dims hidden_dims)
       = [(hidden_dims, 4, 1, 0); (hidden_dims, 4, 2, 1); (hidden_dims, 4, 2, 1);
          (hidden_dims, 4, 2, 1); (1, 4, 2, 1)]) /\
  (forall in_dims hidden_dims t,
     0 < in_dims -> 0 < hidden_dims ->
     Torch.shape t = [n; in_dims; 1; 1] ->
     Supervised.DeconvNet_init in_dims hidden_dims
       = Ok (Supervised.DeconvNet in_dims hidden_dims) /\
     exists out,
       NN.sequential (Supervised.DeconvNet in_dims hidden_dims) t = Ok out /\
       Torch.shape out = [n; 1; 64; 64] /\
       forall id_dims enc_hidden,
         0 <= id_dims -> 0 < enc_hidden ->
         exists code,
           NN.sequential
             (Supervised.Encoder.conv (Supervised.Encoder.init id_dims enc_hidden)) out
             = Ok code /\
           Torch.shape code = [n; 3 + id_dims; 1; 1]) /\
  (forall id_dims hidden_dims img,
     0 <= id_dims -> 0 < hidden_dims -> Torch.shape img = [n; 64; 64] ->
     exists y rot code,
       (img4 ← NN.add_channel img;
        NN.sequential
          (Supervised.Encoder.conv (Supervised.Encoder.init id_dims hidden_dims)) img4)
         = Ok y /\
       Torch.shape y = [n; 3 + id_dims; 1; 1] /\
       Supervised.Encoder.forward (Supervised.Encoder.init id_dims hidden_dims) img
         = Ok (rot, code) /\
       Torch.shape rot = [n; 3; 3] /\
       Torch.val rot
         = Torch.App Torch.Rodrigues
             [Torch.App (Torch.Cols 0 (Some 3))
                [Torch.App Torch.Pixel00 [Torch.val y]]]) /\
  (0 < Supervised.a_deconv_hidden a ->
   exists net out,
     Supervised.main_net a = Ok net /\
     Supervised.net_forward net matrices id_data = Ok out /\
     Torch.shape out = [n; 64; 64]) /\
  (Supervised.a_deconv_hidden a < 0 ->
   raises (Supervised.main_net a) RuntimeError).
Proof.
  intros Hn Hd Hdd Hmode Hm Hid.
  assert (0 < (Supervised.a_degrees a + 1) ^ 2 * Supervised.a_data_dims a) as Hin.
  { assert (0 < (Supervised.a_degrees a + 1) ^ 2) by (apply Z.pow_pos_nonneg; lia). lia. }
  split; [reflexivity|].
  split.
  { intros in_dims hidden_dims t Hi Hh Hs.
    split; [apply DeconvNet_init_ok; lia|].
    destruct (DeconvNet_shape in_dims hidden_dims n t Hi Hh Hs) as (out & E & Ho).
    exists out. split; [exact E|]. split; [exact Ho|].
    intros id_dims enc_hidden Hid' He.
    apply Encoder_conv_shape; assumption. }
  split; [intros; apply Encoder_forward_shape; assumption|].
  split.
  - intros Hh. unfold Supervised.main_net.
    rewrite DeconvNet_init_ok by lia. cbn [mbind result_bind].
    destruct Hmode as [-> | [-> Hmlp]].
    + change (String.eqb "action" "action") with true. cbv iota.
      destruct (ActionNet_forward_shape (Supervised.a_degrees a) (Supervised.a_id_dims a)
                  (Supervised.a_data_dims a) (Supervised.a_harmonics_encoder_layers a)
                  (Supervised.a_deconv_hidden a) n
                  (negb (Supervised.a_single_id a =? 0)) matrices id_data)
        as (net & out & -> & Hf & Hs); try assumption; [lia|].
      exists (Supervised.NetAction net), out. split; [reflexivity|]. split; assumption.
    + change (String.eqb "mlp" "action") with false.
      change (String.eqb "mlp" "mlp") with true. cbv iota.
      destruct (MLPNet_forward_shape (Supervised.a_degrees a) (Supervised.a_id_dims a)
                  (Supervised.a_data_dims a) (Supervised.a_deconv_hidden a) n
                  (Supervised.a_mlp_mode a)
                  (negb (Supervised.a_single_id a =? 0)) matrices id_data)
        as (net & out & -> & Hf & Hs); try assumption.
      exists (Supervised.NetMLP net), out. split; [reflexivity|]. split; assumption.
  - intros Hneg. unfold Supervised.main_net.
    destruct (DeconvNet_init_negative
                ((Supervised.a_degrees a + 1) ^ 2 * Supervised.a_data_dims a)
                (Supervised.a_deconv_hidden a)) as [msg ->]; [right; exact Hneg|].
    eexists. reflexivity.
Qed.

(** The script's defaults ([--mode action]) on a batch of 64. *)
Lemma decoder_output_is_64x64_witness :
  let a := {| Supervised.a_mode := "action"; Supervised.a_mlp_mode := "MAT";
              Supervised.a_degrees := 3; Supervised.a_deconv_hidden := 50;
              Supervised.a_id_dims := 10; Supervised.a_data_dims := 10;
              Supervised.a_single_id := 1;
              Supervised.a_harmonics_encoder_layers := 3 |} in
  let matrices := {| Torch.shape := [64; 3; 3]; Torch.val := Torch.Var "rot" |} in
  exists net out,
    Supervised.main_net a = Ok net /\
    Supervised.net_forward net matrices None = Ok out /\
    Torch.shape out = [64; 64; 64].
Proof.
  intros a matrices.
  destruct (decoder_output_is_64x64 a 64 matrices None) as (_ & _ & _ & H & _);
    [lia | cbn; lia | cbn; lia | left; reflexivity | reflexivity | reflexivity |].
  apply H. cbn. lia.
Defined.

(** ** The encoder's rotation lies in SO(3) *)

Section RodriguesFacts.
Import SO3.
Local Open Scope R_scope.

(** The formula at a unit axis, for any pair of a sine and a cosine. *)
Lemma axis_angle_rotation (u1 u2 u3 s c : R) :
  u1 * u1 + u2 * u2 + u3 * u3 = 1 -> s * s + c * c = 1 ->
  is_rotation (axis_angle u1 u2 u3 s c).
Proof.
  intros Hu Hs. unfold is_rotation, axis_angle. cbn. split.
  - unfold identity. repeat (f_equal; try nsatz).
  - nsatz.
Qed.

Lemma axis_angle_zero (s c : R) : axis_angle 0 0 0 s c = identity.
Proof. unfold axis_angle, identity. cbn. repeat (f_equal; try ring). Qed.

Lemma identity_rotation : is_rotation identity.
Proof. unfold is_rotation, identity. cbn. split; [repeat (f_equal; try ring)|ring]. Qed.

Lemma rodrigues_rotation (v : vec) : is_rotation (rodrigues v).
Proof.
  destruct v as [[x y] z]. unfold rodrigues.
  set (theta := norm (x, y, z)).
  assert (0 <= x * x + y * y + z * z) as Hpos by nra.
  assert (theta * theta = x * x + y * y + z * z) as Hsq.
  { unfold theta, norm. apply sqrt_sqrt. exact Hpos. }
  destruct (Req_dec theta 0) as [H0 | Hne].
  - rewrite H0. unfold Rdiv. rewrite Rinv_0, !Rmult_0_r.
    rewrite axis_angle_zero. apply identity_rotation.
  - apply axis_angle_rotation.
    + replace (x / theta * (x / theta) + y / theta * (y / theta)
               + z / theta * (z / theta))
        with ((x * x + y * y + z * z) / (theta * theta)) by (field; exact Hne).
      rewrite <- Hsq. field. exact Hne.
    + generalize (sin2_cos2 theta). unfold Rsqr. tauto.
Qed.

Lemma Encoder_forward_rows {image : Type} (conv : image -> list (list R))
    (id_dims : Z) (img : image) :
  (0 <= id_dims)%Z ->
  Forall (fun row => length row = Z.to_nat (3 + id_dims)) (conv img) ->
  exists rots id_data,
    Encoder_forward conv id_dims img = Ok (rots, id_data) /\
    Forall2 (fun row rot => exists a b c rest,
               row = a :: b :: c :: rest /\ rot = rodrigues (a, b, c))
            (conv img) rots.
Proof.
  intros Hid Hrows. unfold Encoder_forward.
  enough (exists rots,
            mapM (fun row => match row with
                             | [a; b; c] => Ok (rodrigues (a, b, c))
                             | _ => Raise AssertionError "rodrigues: last dimension must be 3"
                             end) (firstn 3 <$> conv img) = Ok rots /\
            Forall2 (fun row rot => exists a b c rest,
                       row = a :: b :: c :: rest /\ rot = rodrigues (a, b, c))
                    (conv img) rots) as (rots & -> & H).
  { cbn [mbind result_bind]. eauto. }
  induction Hrows as [|row rows Hrow _ IH].
  - exists []. split; [reflexivity | constructor].
  - destruct IH as (rots & E & HF).
    destruct row as [|a [|b [|c rest]]]; cbn [length] in Hrow; try lia.
    exists (rodrigues (a, b, c) :: rots). split.
    + cbn [fmap list_fmap mapM firstn mbind result_bind].
      change (list_fmap _ _ (firstn 3) rows) with (firstn 3 <$> rows).
      rewrite E. reflexivity.
    + constructor; [|exact HF]. eauto 10.
Qed.

End RodriguesFacts.

(** C4.  The latent rotation produced by the encoder lies in SO(3): for
    every image batch, whatever the convolutional stack computes,
    [Encoder.forward] takes the first three of its [3 + id_dims] output
    numbers as the algebra vector and returns its exponential by the
    Rodrigues formula, and that matrix is orthogonal with determinant 1. *)
Theorem encoder_rotation_in_SO3 {image : Type} (conv : image -> list (list R))
    (id_dims : Z) (img : image) :
  0 <= id_dims ->
  Forall (fun row => length row = Z.to_nat (3 + id_dims)) (conv img) ->
  exists rots id_data,
    SO3.Encoder_forward conv id_dims img = Ok (rots, id_data) /\
    Forall2 (fun row rot => exists a b c rest,
               row = a :: b :: c :: rest /\ rot = SO3.rodrigues (a, b, c))
            (conv img) rots /\
    Forall SO3.is_rotation rots.
Proof.
  intros Hid Hrows.
  destruct (Encoder_forward_rows conv id_dims img Hid Hrows) as (rots & id_data & E & HF).
  exists rots, id_data. split; [exact E|]. split; [exact HF|].
  clear E Hrows. induction HF as [|row rot rows rots Hr _ IH]; [constructor|].
  destruct Hr as (a & b & c & rest & _ & ->).
  constructor; [apply rodrigues_rotation | exact IH].
Qed.

(** A batch of two images, an identity code of one dimension, and a
    convolutional stack that returns the zero vector and a quarter turn
    about the third axis. *)
Lemma encoder_rotation_in_SO3_witness :
  let conv := fun _ : unit => [[0; 0; 0; 5]; [0; 0; PI / 2; 7]]%R in
  exists rots id_data,
    SO3.Encoder_forward conv 1 tt = Ok (rots, id_data) /\
    Forall SO3.is_rotation rots.
Proof.
  intros conv.
  destruct (encoder_rotation_in_SO3 conv 1 tt) as (rots & id_data & E & _ & H).
  - lia.
  - repeat constructor.
  - exists rots, id_data. split; [exact E | exact H].
Defined.


(** ** [main]: imports, dataset choice and the experiment's arguments *)

Section MainFacts.
Import Main.
Variable W : World.

Lemma with_name_fields (a : args) :
  dataset (with_name a) = dataset a /\
  experiment (with_name a) = experiment a /\
  beta (with_name a) = beta a /\
  beta_schedule (with_name a) = beta_schedule a /\
  continuity (with_name a) = continuity a /\
  continuity_iscale (with_name a) = continuity_iscale a /\
  equivariance (with_name a) = equivariance a /\
  equivariance_end_it (with_name a) = equivariance_end_it a /\
  semi_lambda (with_name a) = semi_lambda a /\
  semi_labelled (with_name a) = semi_labelled a /\
  subsample (with_name a) = subsample a.
Proof. unfold with_name. destruct (name a); repeat split. Qed.

Lemma import_fails :
  import_from Datasets.module_names imported_names
    = Raise ImportError "cannot import name 'SphereCubeDataset'".
Proof. vm_compute. reflexivity. Qed.

Lemma script_import_error (a : args) :
  script W a = Raise ImportError "cannot import name 'SphereCubeDataset'".
Proof. unfold script. rewrite import_fails. reflexivity. Qed.

Lemma subsample_rejected (c : Datasets.dataset_class) (v : pyval) :
  c <> Datasets.ShapeDataset ->
  Datasets.construct (lib W) c [("subsample", v)]
    = Raise TypeError "__init__() got an unexpected keyword argument 'subsample'".
Proof. intros Hc. destruct c; try done; reflexivity. Qed.

Lemma main_subsample_TypeError (a : args) :
  dataset a = "humanoid" \/ dataset a = "chumanoid" \/ dataset a = "single" ->
  main W a = Raise TypeError "__init__() got an unexpected keyword argument 'subsample'".
Proof.
  intros Hd. unfold main, select_dataset.
  destruct (with_name_fields a) as (-> & _).
  destruct Hd as [-> | [-> | ->]];
    cbn [String.eqb Ascii.eqb Bool.eqb];
    rewrite subsample_rejected by discriminate; reflexivity.
Qed.

(** The stages a returning run of [main] went through. *)
Lemma main_inv (a : args) (o : outcome W) :
  main W a = Ok o ->
  exists exp_kwargs experiment,
    select_experiment (with_name a) = Ok (o_class o, exp_kwargs) /\
    experiment_kwargs (with_name a) (equivariance_schedule (with_name a)) exp_kwargs
      = Ok (o_kwargs o) /\
    make_experiment W (o_class o) (o_kwargs o) = Ok experiment /\
    o_loop o = training_loop W (with_name a)
                 (range (continue_epoch (with_name a)) (epochs (with_name a)))
                 {| exp := experiment; early_stop_counter := 0;
                    saved := []; stopped := None |}.
Proof.
  unfold main. set (a' := with_name a).
  destruct (select_dataset W a') as [[d item_rep]|] eqn:E1; [|discriminate].
  cbn [mbind result_bind].
  destruct (h_len d =? 0); [discriminate|]. cbn [mbind result_bind].
  destruct (bool_decide (mlp_activation a' ∈ mlp_activations)); [|discriminate].
  cbn [mbind result_bind].
  destruct (ChairsVAE W a' (h_rgb d) (h_single_id d) item_rep); [|discriminate].
  cbn [mbind result_bind].
  destruct (if 0 <? continue_epoch a' then _ else _); [|discriminate].
  cbn [mbind result_bind].
  destruct (random_split W (h_len d) _); [|discriminate].
  cbn [mbind result_bind].
  destruct (select_experiment a') as [[cls ekw]|] eqn:E2; [|discriminate].
  cbn [mbind result_bind].
  destruct (experiment_kwargs a' (equivariance_schedule a') ekw) as [kw|] eqn:E3;
    [|discriminate].
  cbn [mbind result_bind].
  destruct (make_experiment W cls kw) as [e|] eqn:E4; [|discriminate].
  cbn [mbind result_bind].
  destruct (if negb (Qeq_bool (beta a') 0) then _ else _); [|discriminate].
  cbn [mbind result_bind]. intros [= <-]. cbn [o_class o_kwargs o_loop].
  exists ekw, e. repeat split; assumption.
Qed.

End MainFacts.

(** C8, as amended.  Running [main.py] raises an [ImportError] whatever the
    command line: it imports [SphereCubeDataset] and [ToyDataset] from
    [lie_vae.datasets], and these are the two imported names that module
    does not define, so [main()] is never entered and no dataset choice is
    reachable.  Were the import satisfied, [main()] with [--dataset] equal
    to ['humanoid'], ['chumanoid'] or ['single'] would raise a [TypeError],
    because it passes a [subsample] keyword that the constructors of
    [HumanoidDataset], [ColorHumanoidDataset] and [SingleChairDataset] do
    not accept. *)
Theorem main_dataset_errors (W : Main.World) (a : Main.args) :
  raises (Main.script W a) ImportError /\
  filter (fun n => n ∉ Datasets.module_names) Main.imported_names
    = ["SphereCubeDataset"; "ToyDataset"] /\
  (Main.dataset a = "humanoid" \/ Main.dataset a = "chumanoid" \/
   Main.dataset a = "single" ->
   raises (Main.main W a) TypeError).
Proof.
  split; [|split].
  - rewrite script_import_error. eexists. reflexivity.
  - vm_compute. reflexivity.
  - intros Hd. rewrite main_subsample_TypeError by exact Hd. eexists. reflexivity.
Qed.

(** [--dataset single] in the example world. *)
Lemma main_dataset_errors_witness :
  let a := Examples.command_line "single" "unsupervised" None None None (Some 50) 100 in
  raises (Main.script (Examples.world []) a) ImportError /\
  raises (Main.main (Examples.world []) a) TypeError.
Proof.
  intros a. destruct (main_dataset_errors (Examples.world []) a) as (H1 & _ & H3).
  split; [exact H1|]. apply H3. right; right; reflexivity.
Defined.

(** C8 as stated fails: run with [--dataset humanoid], the file raises the
    [ImportError] of its own import, not a [TypeError]. *)
Lemma main_dataset_errors_counterexample :
  let a := Examples.command_line "humanoid" "unsupervised" None None None (Some 50) 100 in
  Main.script (Examples.world []) a
    = Raise ImportError "cannot import name 'SphereCubeDataset'" /\
  ~ raises (Main.script (Examples.world []) a) TypeError.
Proof.
  intros a. split; [reflexivity|]. intros [msg H]. discriminate H.
Qed.

Section LossFacts.
Import Main.
Variable W : World.

Lemma select_experiment_cases (a : args) (cls : exp_class) (ekw : gmap string pyval) :
  select_experiment a = Ok (cls, ekw) ->
  (experiment a = "unsupervised" /\ cls = UnsupervisedExperiment /\ ekw = ∅) \/
  (experiment a = "semi" /\ cls = SemiSupervisedExperiment /\
   ekw = <["lambda_supervised" := VFloat (semi_lambda a)]>
           (<["num_labelled" := VInt (semi_labelled a)]> ∅)).
Proof.
  unfold select_experiment.
  destruct (String.eqb_spec (experiment a) "unsupervised") as [E | _].
  - intros [= <- <-]. left. done.
  - destruct (String.eqb_spec (experiment a) "semi") as [E | _]; [|discriminate].
    intros [= <- <-]. right. done.
Qed.

Lemma kwargs_lookups (log model optimizer bs tr te es rf cg sc eq cl cs : pyval)
    (ekw : gmap string pyval) (ls nl : pyval) :
  ekw = ∅ \/ ekw = <["lambda_supervised" := ls]> (<["num_labelled" := nl]> ∅) ->
  let kw : gmap string pyval :=
    list_to_map
      [ ("log", log); ("model", model); ("optimizer", optimizer);
        ("beta_schedule", bs); ("train_dataset", tr); ("test_dataset", te);
        ("elbo_samples", es); ("report_freq", rf); ("clip_grads", cg);
        ("selective_clip", sc); ("equivariance_lamb", eq);
        ("continuity_lamb", cl); ("continuity_scale", cs) ] ∪ ekw in
  kw !! "beta_schedule" = Some bs /\
  kw !! "equivariance_lamb" = Some eq /\
  kw !! "continuity_lamb" = Some cl /\
  kw !! "continuity_scale" = Some cs /\
  kw !! "lambda_supervised" = ekw !! "lambda_supervised".
Proof.
  intros [-> | ->]; cbv zeta; repeat split; vm_compute; reflexivity.
Qed.

(** The names of the keyword arguments. *)
Lemma kwargs_keys (log model optimizer bs tr te es rf cg sc eq cl cs : pyval)
    (ekw : gmap string pyval) (ls nl : pyval) (semi : bool) :
  ekw = (if semi then <["lambda_supervised" := ls]> (<["num_labelled" := nl]> ∅) else ∅) ->
  let kw : gmap string pyval :=
    list_to_map
      [ ("log", log); ("model", model); ("optimizer", optimizer);
        ("beta_schedule", bs); ("train_dataset", tr); ("test_dataset", te);
        ("elbo_samples", es); ("report_freq", rf); ("clip_grads", cg);
        ("selective_clip", sc); ("equivariance_lamb", eq);
        ("continuity_lamb", cl); ("continuity_scale", cs) ] ∪ ekw in
  (forall key,
     is_Some (kw !! key) <->
     key ∈ (["log"; "model"; "optimizer"; "beta_schedule"; "train_dataset";
             "test_dataset"; "elbo_samples"; "report_freq"; "clip_grads";
             "selective_clip"; "equivariance_lamb"; "continuity_lamb";
             "continuity_scale"]
            ++ (if semi then ["num_labelled"; "lambda_supervised"] else []))%list) /\
  kw !! "num_labelled" = (if semi then Some nl else None) /\
  kw !! "elbo_samples" = Some es /\
  kw !! "report_freq" = Some rf /\
  kw !! "clip_grads" = Some cg /\
  kw !! "selective_clip" = Some sc.
Proof.
  intros ->. cbv zeta. split.
  - intros key. rewrite <- elem_of_dom, dom_union_L, dom_list_to_map_L.
    rewrite elem_of_union, elem_of_list_to_set, elem_of_app.
    cbn [fmap list_fmap fst].
    destruct semi.
    + rewrite !dom_insert_L, dom_empty_L.
      rewrite !elem_of_union, !elem_of_singleton, elem_of_empty.
      rewrite (elem_of_cons _ key "num_labelled"), list_elem_of_singleton. tauto.
    + rewrite dom_empty_L, elem_of_empty, elem_of_nil. tauto.
  - destruct semi; repeat split; vm_compute; reflexivity.
Qed.

Lemma loss_terms_of_lookups (kw : gmap string pyval) (bs eq cl cs : pyval)
    (sup : option pyval) :
  kw !! "beta_schedule" = Some bs ->
  kw !! "equivariance_lamb" = Some eq ->
  kw !! "continuity_lamb" = Some cl ->
  kw !! "continuity_scale" = Some cs ->
  kw !! "lambda_supervised" = sup ->
  loss_terms kw
    = ([Reconstruction; KL bs]
       ++ match eq with VNone => [] | w => [Equivariance w] end
       ++ match cl with VNone => [] | w => [Continuity w cs] end
       ++ match sup with Some w => [Supervised w] | None => [] end)%list.
Proof.
  intros H1 H2 H3 H4 H5. unfold loss_terms. rewrite H1, H2, H3, H4, H5.
  destruct eq, cl; reflexivity.
Qed.

Lemma schedule_value_start (y0 y1 : Q) (x0 x1 it : Z) :
  it <= x0 -> schedule_value y0 y1 x0 x1 it = y0.
Proof.
  intros H. unfold schedule_value.
  assert ((it <=? x0) = true) as -> by (apply Z.leb_le; lia). reflexivity.
Qed.

Lemma schedule_value_end (y0 y1 : Q) (x0 x1 it : Z) :
  x0 < it -> x1 <= it -> schedule_value y0 y1 x0 x1 it = y1.
Proof.
  intros H1 H2. unfold schedule_value.
  assert ((it <=? x0) = false) as -> by (apply Z.leb_gt; lia).
  assert ((x1 <=? it) = true) as -> by (apply Z.leb_le; lia). reflexivity.
Qed.

Lemma schedule_value_between (y0 y1 : Q) (x0 x1 it : Z) :
  x0 < it -> it < x1 ->
  schedule_value y0 y1 x0 x1 it
    = (y0 + (y1 - y0) * inject_Z (it - x0) / inject_Z (x1 - x0))%Q.
Proof.
  intros H1 H2. unfold schedule_value.
  assert ((it <=? x0) = false) as -> by (apply Z.leb_gt; lia).
  assert ((x1 <=? it) = false) as -> by (apply Z.leb_gt; lia). reflexivity.
Qed.

(** The schedule stays between its two ends. *)
Lemma schedule_value_bounds (e : Q) (x0 x1 it : Z) :
  (0 <= e)%Q -> x0 < x1 ->
  (0 <= schedule_value 0 e x0 x1 it <= e)%Q.
Proof.
  intros He Hx. unfold schedule_value.
  destruct (Z.leb_spec it x0); [split; [apply Qle_refl | exact He]|].
  destruct (Z.leb_spec x1 it); [split; [exact He | apply Qle_refl]|].
  set (r := (inject_Z (it - x0) / inject_Z (x1 - x0))%Q).
  assert (0 <= r <= 1)%Q as [Hr0 Hr1].
  { unfold r. assert (0 < inject_Z (x1 - x0))%Q as Hd.
    { change 0%Q with (inject_Z 0). rewrite <- Zlt_Qlt. lia. }
    split.
    - apply Qle_shift_div_l; [exact Hd|]. rewrite Qmult_0_l.
      change 0%Q with (inject_Z 0). rewrite <- Zle_Qle. lia.
    - apply Qle_shift_div_r; [exact Hd|]. rewrite Qmult_1_l.
      rewrite <- Zle_Qle. lia. }
  assert ((0 + (e - 0) * inject_Z (it - x0) / inject_Z (x1 - x0)) == e * r)%Q as ->.
  { unfold r. field. intros H1. 
    assert (0 < inject_Z (x1 - x0))%Q as Hd.
    { change 0%Q with (inject_Z 0). rewrite <- Zlt_Qlt. lia. }
    rewrite H1 in Hd. apply (Qlt_irrefl _ Hd). }
  split.
  - apply Qmult_le_0_compat; assumption.
  - rewrite <- (Qmult_1_r e) at 2. rewrite (Qmult_comm e r), (Qmult_comm e 1).
    apply Qmult_le_compat_r; assumption.
Qed.

End LossFacts.

(** The arguments of the loss terms, read off the keyword arguments. *)
Lemma main_loss_terms (W : Main.World) (a : Main.args) (o : Main.outcome W) :
  Main.main W a = Ok o ->
  Main.o_kwargs o !! "beta_schedule"
    = Some (VBetaSchedule (Main.beta_schedule a) (Main.beta a)) /\
  Main.o_kwargs o !! "equivariance_lamb"
    = Some (match Main.equivariance a with
            | Some e => VLinearSchedule 0 e 1000 (Main.equivariance_end_it a)
            | None => VNone
            end) /\
  Main.o_kwargs o !! "continuity_lamb" = Some (Main.opt_float (Main.continuity a)) /\
  Main.o_kwargs o !! "continuity_scale"
    = Some (VFloat (2 * Main.pi / Main.continuity_iscale a)%Q) /\
  Main.loss_terms (Main.o_kwargs o)
    = ([Main.Reconstruction;
        Main.KL (VBetaSchedule (Main.beta_schedule a) (Main.beta a))]
      ++ match Main.equivariance a with
         | Some e => [Main.Equivariance
                        (VLinearSchedule 0 e 1000 (Main.equivariance_end_it a))]
         | None => []
         end
      ++ match Main.continuity a with
         | Some c => [Main.Continuity (VFloat c)
                        (VFloat (2 * Main.pi / Main.continuity_iscale a)%Q)]
         | None => []
         end
      ++ (if String.eqb (Main.experiment a) "semi"
          then [Main.Supervised (VFloat (Main.semi_lambda a))]
          else []))%list /\
  Main.o_kwargs o !! "lambda_supervised"
    = (if String.eqb (Main.experiment a) "semi"
       then Some (VFloat (Main.semi_lambda a)) else None).
Proof.
  intros Hmain.
  apply main_inv in Hmain as (ekw & e0 & Hsel & Hkw & _ & _).
  apply select_experiment_cases in Hsel as Hcases.
  unfold Main.experiment_kwargs in Hkw.
  destruct (Qeq_bool (Main.continuity_iscale (Main.with_name a)) 0); [discriminate|].
  match type of Hkw with
  | Ok ?m = Ok _ => assert (m = Main.o_kwargs o) as Hkw' by congruence
  end.
  clear Hkw. rename Hkw' into Hkw.
  unfold Main.equivariance_schedule in Hkw.
  destruct (with_name_fields a)
    as (_ & He & Hb & Hbs & Hc & Hci & Heq & Hend & Hsl & Hnl & _).
  rewrite Hb, Hbs, Hc, Hci, Heq, Hend in Hkw.
  rewrite He, Hsl, Hnl in Hcases.
  match type of Hkw with
  | list_to_map [(_, ?log); (_, ?model); (_, ?optimizer); (_, ?bs); (_, ?tr);
                 (_, ?te); (_, ?es); (_, ?rf); (_, ?cg); (_, ?sc); (_, ?eq);
                 (_, ?cl); (_, ?cs)] ∪ _ = _ =>
      pose proof (kwargs_lookups log model optimizer bs tr te es rf cg sc eq cl cs ekw
                    (VFloat (Main.semi_lambda a)) (VInt (Main.semi_labelled a))) as HL
  end.
  cbv zeta in HL. rewrite Hkw in HL.
  destruct HL as (L1 & L2 & L3 & L4 & L5); [tauto|].
  split; [exact L1|]. split; [exact L2|]. split; [exact L3|]. split; [exact L4|].
  split.
  - rewrite (loss_terms_of_lookups _ _ _ _ _ _ L1 L2 L3 L4 L5).
    f_equal. f_equal; [|f_equal].
    + destruct (Main.equivariance a); reflexivity.
    + destruct (Main.continuity a); reflexivity.
    + destruct Hcases as [(E & _ & ->) | (E & _ & ->)]; rewrite E; reflexivity.
  - rewrite L5.
    destruct Hcases as [(E & _ & ->) | (E & _ & ->)]; rewrite E; reflexivity.
Qed.

(** The keyword arguments of a returning run, by name. *)
Lemma main_kwargs_keys (W : Main.World) (a : Main.args) (o : Main.outcome W) :
  Main.main W a = Ok o ->
  (forall key,
     is_Some (Main.o_kwargs o !! key) <->
     key ∈ (["log"; "model"; "optimizer"; "beta_schedule"; "train_dataset";
             "test_dataset"; "elbo_samples"; "report_freq"; "clip_grads";
             "selective_clip"; "equivariance_lamb"; "continuity_lamb";
             "continuity_scale"]
            ++ (if String.eqb (Main.experiment a) "semi"
                then ["num_labelled"; "lambda_supervised"] else []))%list) /\
  Main.o_kwargs o !! "num_labelled"
    = (if String.eqb (Main.experiment a) "semi"
       then Some (VInt (Main.semi_labelled a)) else None).
Proof.
  intros Hmain.
  apply main_inv in Hmain as (ekw & e0 & Hsel & Hkw & _ & _).
  apply select_experiment_cases in Hsel as Hcases.
  unfold Main.experiment_kwargs in Hkw.
  destruct (Qeq_bool (Main.continuity_iscale (Main.with_name a)) 0); [discriminate|].
  match type of Hkw with
  | Ok ?m = Ok _ => assert (m = Main.o_kwargs o) as Hkw' by congruence
  end.
  clear Hkw. rename Hkw' into Hkw.
  destruct (with_name_fields a) as (_ & He & _ & _ & _ & _ & _ & _ & Hsl & Hnl & _).
  rewrite He, Hsl, Hnl in Hcases.
  match type of Hkw with
  | list_to_map [(_, ?log); (_, ?model); (_, ?optimizer); (_, ?bs); (_, ?tr);
                 (_, ?te); (_, ?es); (_, ?rf); (_, ?cg); (_, ?sc); (_, ?eq);
                 (_, ?cl); (_, ?cs)] ∪ _ = _ =>
      pose proof (kwargs_keys log model optimizer bs tr te es rf cg sc eq cl cs ekw
                    (VFloat (Main.semi_lambda a)) (VInt (Main.semi_labelled a))
                    (String.eqb (Main.experiment a) "semi")) as HK
  end.
  cbv zeta in HK. rewrite Hkw in HK.
  destruct HK as (K1 & K2 & _).
  { destruct Hcases as [(E & _ & ->) | (E & _ & ->)]; rewrite E; reflexivity. }
  split; assumption.
Qed.

(** C2, as amended.  The experiment that [main] constructs is given,
    besides [log], [model], [optimizer], the two datasets, [elbo_samples],
    [report_freq], [clip_grads] and [selective_clip], the weights of the
    loss terms other than the reconstruction term: the beta schedule of
    the KL term; for the equivariance regularizer a linear schedule from 0
    to the given strength between iteration 1000 and
    [equivariance_end_it], or [None] (no such term) when [--equivariance]
    is not given; the strength [--continuity] of the continuity
    regularizer and its algebra distance scale [2*pi/continuity_iscale].
    With [--experiment unsupervised] these are all the keyword arguments;
    with [--experiment semi] [main] passes in addition exactly
    [lambda_supervised], the relative strength [--semi_lambda] of a
    supervised loss, and [num_labelled]. *)
Theorem main_loss_arguments (W : Main.World) (a : Main.args) (o : Main.outcome W) :
  Main.main W a = Ok o ->
  Main.o_kwargs o !! "beta_schedule"
    = Some (VBetaSchedule (Main.beta_schedule a) (Main.beta a)) /\
  Main.o_kwargs o !! "equivariance_lamb"
    = Some (match Main.equivariance a with
            | Some e => VLinearSchedule 0 e 1000 (Main.equivariance_end_it a)
            | None => VNone
            end) /\
  Main.o_kwargs o !! "continuity_lamb" = Some (Main.opt_float (Main.continuity a)) /\
  Main.o_kwargs o !! "continuity_scale"
    = Some (VFloat (2 * Main.pi / Main.continuity_iscale a)%Q) /\
  Main.loss_terms (Main.o_kwargs o)
    = ([Main.Reconstruction;
        Main.KL (VBetaSchedule (Main.beta_schedule a) (Main.beta a))]
      ++ match Main.equivariance a with
         | Some e => [Main.Equivariance
                        (VLinearSchedule 0 e 1000 (Main.equivariance_end_it a))]
         | None => []
         end
      ++ match Main.continuity a with
         | Some c => [Main.Continuity (VFloat c)
                        (VFloat (2 * Main.pi / Main.continuity_iscale a)%Q)]
         | None => []
         end
      ++ (if String.eqb (Main.experiment a) "semi"
          then [Main.Supervised (VFloat (Main.semi_lambda a))]
          else []))%list /\
  Main.o_kwargs o !! "lambda_supervised"
    = (if String.eqb (Main.experiment a) "semi"
       then Some (VFloat (Main.semi_lambda a)) else None) /\
  Main.o_kwargs o !! "num_labelled"
    = (if String.eqb (Main.experiment a) "semi"
       then Some (VInt (Main.semi_labelled a)) else None) /\
  (Main.experiment a = "unsupervised" \/ Main.experiment a = "semi") /\
  (forall key,
     is_Some (Main.o_kwargs o !! key) <->
     key ∈ (["log"; "model"; "optimizer"; "beta_schedule"; "train_dataset";
             "test_dataset"; "elbo_samples"; "report_freq"; "clip_grads";
             "selective_clip"; "equivariance_lamb"; "continuity_lamb";
             "continuity_scale"]
            ++ (if String.eqb (Main.experiment a) "semi"
                then ["num_labelled"; "lambda_supervised"] else []))%list) /\
  (forall e it,
     (it <= 1000 ->
      Main.schedule_value 0 e 1000 (Main.equivariance_end_it a) it = 0%Q) /\
     (1000 < it -> Main.equivariance_end_it a <= it ->
      Main.schedule_value 0 e 1000 (Main.equivariance_end_it a) it = e) /\
     (1000 < it -> it < Main.equivariance_end_it a ->
      Main.schedule_value 0 e 1000 (Main.equivariance_end_it a) it
        = (0 + (e - 0) * inject_Z (it - 1000)
               / inject_Z (Main.equivariance_end_it a - 1000))%Q) /\
     ((0 <= e)%Q -> 1000 < Main.equivariance_end_it a ->
      (0 <= Main.schedule_value 0 e 1000 (Main.equivariance_end_it a) it <= e)%Q)).
Proof.
  intros Hmain.
  destruct (main_loss_terms W a o Hmain) as (L1 & L2 & L3 & L4 & HL & L5).
  destruct (main_kwargs_keys W a o Hmain) as (K1 & K2).
  repeat (split; [assumption|]).
  split.
  { apply main_inv in Hmain as (ekw & e0 & Hsel & _).
    apply select_experiment_cases in Hsel as [(E & _) | (E & _)];
      destruct (with_name_fields a) as (_ & He & _); rewrite He in E; tauto. }
  split; [exact K1|].
  intros e it. split; [|split; [|split]].
  - apply schedule_value_start.
  - apply schedule_value_end.
  - apply schedule_value_between.
  - apply schedule_value_bounds.
Qed.

(** A semi-supervised run on the chairs with both regularizers. *)
Lemma main_loss_arguments_witness :
  let a := Examples.command_line "chairs" "semi" (Some 3%Q) (Some 0.5%Q)
             None (Some 50) 2 in
  exists o,
    Main.main (Examples.world [5; 4; 4]) a = Ok o /\
    Main.loss_terms (Main.o_kwargs o)
      = [Main.Reconstruction;
         Main.KL (VBetaSchedule None 1%Q);
         Main.Equivariance (VLinearSchedule 0 3 1000 20000);
         Main.Continuity (VFloat 0.5%Q) (VFloat (2 * Main.pi / 200)%Q);
         Main.Supervised (VFloat 1%Q)].
Proof.
  intros a.
  destruct (Main.main (Examples.world [5; 4; 4]) a) as [o | k msg] eqn:Ho;
    [|vm_compute in Ho; discriminate Ho].
  destruct (main_loss_arguments _ _ _ Ho) as (_ & _ & _ & _ & HL & _).
  exists o. split; [reflexivity | exact HL].
Defined.

(** C2 as stated fails: with [--experiment semi] the experiment is given a
    fifth loss weight, the strength of the supervised loss. *)
Lemma main_loss_arguments_counterexample :
  let a := Examples.command_line "chairs" "semi" (Some 3%Q) (Some 0.5%Q)
             None (Some 50) 2 in
  exists o,
    Main.main (Examples.world [5; 4; 4]) a = Ok o /\
    Main.o_class o = Main.SemiSupervisedExperiment /\
    Main.o_kwargs o !! "lambda_supervised" = Some (VFloat 1%Q) /\
    In (Main.Supervised (VFloat 1%Q)) (Main.loss_terms (Main.o_kwargs o)) /\
    ~ Forall LossShape.one_of_four (Main.loss_terms (Main.o_kwargs o)).
Proof.
  intros a.
  destruct (Main.main (Examples.world [5; 4; 4]) a) as [o | k msg] eqn:Ho;
    [|vm_compute in Ho; discriminate Ho].
  exists o. split; [reflexivity|].
  destruct (main_loss_terms _ _ _ Ho) as (_ & _ & _ & _ & HL & L5).
  assert (In (Main.Supervised (VFloat 1%Q)) (Main.loss_terms (Main.o_kwargs o))) as Hin.
  { rewrite HL. cbn. tauto. }
  split.
  { apply main_inv in Ho as (ekw & e0 & Hsel & _).
    apply select_experiment_cases in Hsel as [(E & _) | (_ & E & _)];
      [discriminate E | exact E]. }
  split; [exact L5|].
  split; [exact Hin|].
  intros HF. rewrite Forall_forall in HF.
  apply (HF _ (proj2 (list_elem_of_In _ _) Hin)).
Qed.

(** ** [main]: the early-stop counter *)

Section EarlyStopFacts.
Import Main EarlyStop.
Variable W : World.
Variable a : args.

Lemma stalled_count_nonneg (done : list Z) : forall e, 0 <= stalled_count W e done.
Proof.
  induction done as [|ep done IH]; intros e; cbn [stalled_count]; [lia|].
  specialize (IH (train W e ep)). destruct (improved W e ep); lia.
Qed.

Lemma exp_after_cons (e : experiment_state W) (ep : Z) (done : list Z) :
  exp_after W e (ep :: done) = exp_after W (train W e ep) done.
Proof. reflexivity. Qed.

(** One pass through the loop body. *)
Lemma loop_cons (ep : Z) (todo : list Z) (st : loop_state W) :
  training_loop W a (ep :: todo) st =
    let e := train W (exp st) ep in
    if negb (save_dir_set a) then
      training_loop W a todo
        {| exp := e; early_stop_counter := early_stop_counter st;
           saved := saved st; stopped := None |}
    else if bool_decide (max_early_stop a = None) || improved W (exp st) ep then
      training_loop W a todo
        {| exp := e; early_stop_counter := early_stop_counter st;
           saved := saved st ++ [ep]; stopped := None |}
    else if match max_early_stop a with
            | Some k => early_stop_counter st <? k
            | None => false
            end then
      training_loop W a todo
        {| exp := e; early_stop_counter := early_stop_counter st + 1;
           saved := saved st; stopped := None |}
    else {| exp := e; early_stop_counter := early_stop_counter st;
            saved := saved st; stopped := Some ep |}.
Proof.
  cbn [training_loop]. unfold improved. cbv zeta.
  destruct (save_dir_set a); cbn [negb]; [|reflexivity].
  destruct (bool_decide (max_early_stop a = None)
            || value_ne W (best_value W (exp st))
                 (best_value W (train W (exp st) ep))); [reflexivity|].
  destruct (max_early_stop a) as [k|].
  - rewrite bool_decide_eq_true_2 by done. reflexivity.
  - rewrite bool_decide_eq_false_2 by (intros H; apply H; reflexivity). reflexivity.
Qed.

Lemma loop_app (pre post : list Z) : forall st,
  stopped st = None ->
  training_loop W a (pre ++ post) st =
    match stopped (training_loop W a pre st) with
    | Some _ => training_loop W a pre st
    | None => training_loop W a post (training_loop W a pre st)
    end.
Proof.
  induction pre as [|ep pre IH]; intros st Hst.
  - cbn [app training_loop]. rewrite Hst. reflexivity.
  - change ((ep :: pre) ++ post)%list with (ep :: (pre ++ post))%list.
    rewrite !loop_cons. cbv zeta.
    destruct (negb (save_dir_set a)); [apply IH; reflexivity|].
    destruct (bool_decide (max_early_stop a = None) || improved W (exp st) ep);
      [apply IH; reflexivity|].
    destruct (match max_early_stop a with
              | Some k => early_stop_counter st <? k
              | None => false
              end); [apply IH; reflexivity|].
    reflexivity.
Qed.

Lemma loop_running_exp (todo : list Z) : forall st,
  stopped (training_loop W a todo st) = None ->
  exp (training_loop W a todo st) = exp_after W (exp st) todo.
Proof.
  induction todo as [|ep todo IH]; intros st; [reflexivity|].
  rewrite loop_cons, exp_after_cons. cbv zeta.
  destruct (negb (save_dir_set a)); [apply IH|].
  destruct (bool_decide (max_early_stop a = None) || improved W (exp st) ep);
    [apply IH|].
  destruct (match max_early_stop a with
            | Some k => early_stop_counter st <? k
            | None => false
            end); [apply IH|].
  discriminate.
Qed.

(** The counter never decreases, and an improving epoch leaves it as it
    is. *)
Lemma step_counter (st : loop_state W) (ep : Z) :
  early_stop_counter st <= early_stop_counter (training_loop W a [ep] st) /\
  (improved W (exp st) ep = true ->
   early_stop_counter (training_loop W a [ep] st) = early_stop_counter st).
Proof.
  rewrite loop_cons. cbv zeta. cbn [training_loop].
  destruct (negb (save_dir_set a)); cbn [early_stop_counter]; [lia|].
  destruct (improved W (exp st) ep).
  - rewrite orb_true_r. cbn [early_stop_counter]. lia.
  - rewrite orb_false_r.
    destruct (bool_decide (max_early_stop a = None)); cbn [early_stop_counter]; [lia|].
    destruct (match max_early_stop a with
              | Some k => early_stop_counter st <? k
              | None => false
              end); cbn [early_stop_counter]; split; (lia || discriminate).
Qed.

Section WithLimit.
Variable k : Z.
Hypothesis Hsave : save_dir_set a = true.
Hypothesis Hmax : max_early_stop a = Some k.

Lemma loop_cons_limit (ep : Z) (todo : list Z) (st : loop_state W) :
  training_loop W a (ep :: todo) st =
    let e := train W (exp st) ep in
    if improved W (exp st) ep then
      training_loop W a todo
        {| exp := e; early_stop_counter := early_stop_counter st;
           saved := saved st ++ [ep]; stopped := None |}
    else if early_stop_counter st <? k then
      training_loop W a todo
        {| exp := e; early_stop_counter := early_stop_counter st + 1;
           saved := saved st; stopped := None |}
    else {| exp := e; early_stop_counter := early_stop_counter st;
            saved := saved st; stopped := Some ep |}.
Proof.
  rewrite loop_cons, Hsave, Hmax. cbn [negb].
  rewrite bool_decide_eq_false_2 by discriminate. reflexivity.
Qed.

(** If the loop stopped, it stopped at a stalled epoch that came after
    exactly as many stalled epochs as the counter still allowed. *)
Lemma stop_inv (todo : list Z) : forall (st : loop_state W) (epoch : Z),
  stopped st = None ->
  stopped (training_loop W a todo st) = Some epoch ->
  exists done rest,
    todo = (done ++ epoch :: rest)%list /\
    stalled_count W (exp st) done = Z.max 0 (k - early_stop_counter st) /\
    improved W (exp_after W (exp st) done) epoch = false.
Proof.
  induction todo as [|ep todo IH]; intros st epoch Hst.
  - cbn [training_loop]. rewrite Hst. discriminate.
  - rewrite loop_cons_limit. cbv zeta.
    destruct (improved W (exp st) ep) eqn:Ei.
    + intros Hs. apply IH in Hs as (done & rest & -> & Hc & Hi); [|reflexivity].
      exists (ep :: done), rest. split; [reflexivity|].
      cbn [stalled_count exp early_stop_counter] in *. rewrite Ei.
      split; [lia | exact Hi].
    + destruct (Z.ltb_spec (early_stop_counter st) k) as [Hlt | Hge].
      * intros Hs. apply IH in Hs as (done & rest & -> & Hc & Hi); [|reflexivity].
        exists (ep :: done), rest. split; [reflexivity|].
        cbn [stalled_count exp early_stop_counter] in *. rewrite Ei.
        split; [lia | exact Hi].
      * cbn [stopped]. intros [= <-]. exists [], todo.
        split; [reflexivity|]. cbn [stalled_count exp_after foldl].
        split; [lia | exact Ei].
Qed.

(** Conversely, a stalled epoch that comes after exactly that many
    stalled epochs is where the loop stops. *)
Lemma stop_at (done rest : list Z) (epoch : Z) : forall st : loop_state W,
  stalled_count W (exp st) done = Z.max 0 (k - early_stop_counter st) ->
  improved W (exp_after W (exp st) done) epoch = false ->
  stopped (training_loop W a (done ++ epoch :: rest) st) = Some epoch.
Proof.
  induction done as [|ep done IH]; intros st Hc Hi.
  - change ([] ++ epoch :: rest)%list with (epoch :: rest).
    rewrite loop_cons_limit. cbv zeta.
    cbn [exp_after foldl stalled_count] in Hi, Hc. rewrite Hi.
    assert ((early_stop_counter st <? k) = false) as -> by (apply Z.ltb_ge; lia).
    reflexivity.
  - change ((ep :: done) ++ epoch :: rest)%list with (ep :: (done ++ epoch :: rest))%list.
    rewrite loop_cons_limit. cbv zeta.
    cbn [stalled_count] in Hc. rewrite exp_after_cons in Hi.
    pose proof (stalled_count_nonneg done (train W (exp st) ep)) as Hnn.
    destruct (improved W (exp st) ep).
    + apply IH; cbn [exp early_stop_counter]; [lia | exact Hi].
    + assert ((early_stop_counter st <? k) = true) as -> by (apply Z.ltb_lt; lia).
      apply IH; cbn [exp early_stop_counter]; [lia | exact Hi].
Qed.

End WithLimit.

(** A checkpoint is written only after an epoch that changed the best
    value, or when there is no early-stop limit; and only with a save
    directory. *)
Lemma saved_inv (todo : list Z) : forall (st : loop_state W) (epoch : Z),
  epoch ∈ saved (training_loop W a todo st) ->
  epoch ∈ saved st \/
  (save_dir_set a = true /\
   exists done rest,
     todo = (done ++ epoch :: rest)%list /\
     (max_early_stop a = None \/
      improved W (exp_after W (exp st) done) epoch = true)).
Proof.
  induction todo as [|ep todo IH]; intros st epoch; [left; assumption|].
  rewrite loop_cons. cbv zeta.
  assert (forall st', exp st' = train W (exp st) ep ->
            (epoch ∈ saved st' -> epoch ∈ saved st \/
               (epoch = ep /\ save_dir_set a = true /\
                (max_early_stop a = None \/ improved W (exp st) ep = true))) ->
            epoch ∈ saved (training_loop W a todo st') ->
            epoch ∈ saved st \/
            (save_dir_set a = true /\
             exists done rest,
               (ep :: todo) = (done ++ epoch :: rest)%list /\
               (max_early_stop a = None \/
                improved W (exp_after W (exp st) done) epoch = true))) as Hstep.
  { intros st' He Hs Hin. apply IH in Hin as [Hin | (Hsd & done & rest & -> & Hwhy)].
    - apply Hs in Hin as [Hin | (-> & Hsd & Hwhy)]; [left; exact Hin|].
      right. split; [exact Hsd|]. exists [], todo. split; [reflexivity|exact Hwhy].
    - right. split; [exact Hsd|]. exists (ep :: done), rest. split; [reflexivity|].
      rewrite exp_after_cons, <- He. exact Hwhy. }
  destruct (save_dir_set a) eqn:Hsd; cbn [negb].
  - destruct (bool_decide (max_early_stop a = None)) eqn:Hnone; cbn [orb].
    + apply bool_decide_eq_true_1 in Hnone.
      apply Hstep; [reflexivity|]. cbn [saved]. intros Hin.
      apply elem_of_app in Hin as [Hin | Hin]; [left; exact Hin|].
      apply list_elem_of_singleton in Hin. right. auto.
    + destruct (improved W (exp st) ep) eqn:Ei.
      * apply Hstep; [reflexivity|]. cbn [saved]. intros Hin.
        apply elem_of_app in Hin as [Hin | Hin]; [left; exact Hin|].
        apply list_elem_of_singleton in Hin. right. auto.
      * destruct (match max_early_stop a with
                  | Some k => early_stop_counter st <? k
                  | None => false
                  end).
        -- apply Hstep; [reflexivity|]. cbn [saved]. auto.
        -- cbn [saved]. auto.
  - apply Hstep; [reflexivity|]. cbn [saved]. auto.
Qed.

End EarlyStopFacts.


(** C10.  In [main]'s training loop the early-stop counter never
    decreases and an improving epoch does not reset it.  Consequently,
    with a save directory and [max_early_stop = k], the loop breaks at the
    first non-improving epoch that is preceded by [k] non-improving epochs
    in total (by none when [k] is negative), whether or not improving
    epochs lie between them; and the checkpoint is written only after
    epochs that changed [best_value], or when [max_early_stop] is [None].
    The loop is the one [main] runs over [range(continue_epoch, epochs)]. *)
Theorem early_stop_counter_cumulative (W : Main.World) (parsed : Main.args)
    (e0 : Main.experiment_state W) (todo : list Z) :
  let a := Main.with_name parsed in
  let run := fun done => Main.training_loop W a done (EarlyStop.start W e0) in
  (forall done epoch,
     Main.stopped (run done) = None ->
     Main.early_stop_counter (run done)
       <= Main.early_stop_counter (run (done ++ [epoch])%list) /\
     (EarlyStop.improved W (EarlyStop.exp_after W e0 done) epoch = true ->
      Main.early_stop_counter (run (done ++ [epoch])%list)
        = Main.early_stop_counter (run done))) /\
  (forall k,
     Main.save_dir_set a = true -> Main.max_early_stop a = Some k ->
     forall epoch,
       Main.stopped (run todo) = Some epoch <->
       exists done rest,
         todo = (done ++ epoch :: rest)%list /\
         EarlyStop.stalled_count W e0 done = Z.max 0 k /\
         EarlyStop.improved W (EarlyStop.exp_after W e0 done) epoch = false) /\
  (forall epoch,
     epoch ∈ Main.saved (run todo) ->
     Main.save_dir_set a = true /\
     exists done rest,
       todo = (done ++ epoch :: rest)%list /\
       (Main.max_early_stop a = None \/
        EarlyStop.improved W (EarlyStop.exp_after W e0 done) epoch = true)) /\
  (forall o,
     Main.main W parsed = Ok o ->
     exists experiment,
       Main.o_loop o
         = Main.training_loop W a
             (Main.range (Main.continue_epoch a) (Main.epochs a))
             (EarlyStop.start W experiment)).
Proof.
  intros a run. split; [|split; [|split]].
  - intros done epoch Hrun. unfold run.
    rewrite (loop_app W a done [epoch]) by reflexivity.
    fold (run done). rewrite Hrun.
    pose proof (loop_running_exp W a done (EarlyStop.start W e0) Hrun) as Hexp.
    cbn [Main.exp EarlyStop.start] in Hexp. rewrite <- Hexp.
    apply step_counter.
  - intros k Hsave Hmax epoch. split.
    + intros Hs.
      destruct (stop_inv W a k Hsave Hmax todo (EarlyStop.start W e0) epoch)
        as (done & rest & E & Hc & Hi); [reflexivity | exact Hs |].
      exists done, rest. cbn [EarlyStop.start Main.exp Main.early_stop_counter] in Hc, Hi.
      split; [exact E|]. split; [lia | exact Hi].
    + intros (done & rest & -> & Hc & Hi).
      apply (stop_at W a k Hsave Hmax); cbn [EarlyStop.start Main.exp Main.early_stop_counter];
        [lia | exact Hi].
  - intros epoch Hin.
    apply saved_inv in Hin as [Hin | H]; [|exact H].
    cbn [EarlyStop.start Main.saved] in Hin. apply elem_of_nil in Hin. contradiction.
  - intros o Ho. apply main_inv in Ho as (_ & experiment & _ & _ & _ & Hloop).
    exists experiment. exact Hloop.
Qed.

(** A limit of one: epoch 0 stalls, epoch 1 improves, epoch 2 stalls and
    ends the run, although the two stalled epochs are not consecutive. *)
Lemma early_stop_counter_cumulative_witness :
  let W := Examples.world [5; 5; 4; 4; 3] in
  let parsed := Examples.command_line "chairs" "unsupervised" None None
                  (Some "out") (Some 1) 5 in
  let final := Main.training_loop W (Main.with_name parsed) [0; 1; 2; 3; 4]
                 (EarlyStop.start W [5; 5; 4; 4; 3]) in
  Main.stopped final = Some 2 /\
  (forall epoch, epoch ∈ Main.saved final ->
     exists done rest,
       [0; 1; 2; 3; 4] = (done ++ epoch :: rest)%list /\
       (Main.max_early_stop (Main.with_name parsed) = None \/
        EarlyStop.improved W (EarlyStop.exp_after W [5; 5; 4; 4; 3] done) epoch = true)).
Proof.
  intros W parsed final.
  destruct (early_stop_counter_cumulative W parsed [5; 5; 4; 4; 3] [0; 1; 2; 3; 4])
    as (_ & Hstop & Hsaved & _).
  split.
  - apply (Hstop 1); [reflexivity | reflexivity |].
    exists [0; 1], [3; 4]. split; [reflexivity|]. split; reflexivity.
  - intros epoch Hin. apply Hsaved in Hin as [_ H]. exact H.
Defined.

(* ================================================================== *)
(** * Part III. Further properties of the sources                      *)
(* ================================================================== *)

(** ** The label map of the named datasets *)

Section LabelMap.
Import Datasets.

Lemma enumerate_map_snoc (names : list string) (n : string) :
  enumerate_map (names ++ [n]) = <[n := Z.of_nat (length names)]> (enumerate_map names).
Proof.
  unfold enumerate_map. rewrite imap_app, foldl_app. cbn [imap foldl].
  rewrite Nat.add_0_r. reflexivity.
Qed.

Lemma enumerate_map_None (names : list string) (n : string) :
  enumerate_map names !! n = None <-> n ∉ names.
Proof.
  induction names as [|x names IH] using rev_ind.
  - unfold enumerate_map. cbn. rewrite lookup_empty. split; [intros _|done].
    apply not_elem_of_nil.
  - rewrite enumerate_map_snoc, not_elem_of_app, list_elem_of_singleton.
    destruct (decide (x = n)) as [-> | Hne].
    + rewrite lookup_insert_eq. split; [discriminate | tauto].
    + rewrite lookup_insert_ne by done. rewrite IH. split; [|tauto].
      intros H. split; [exact H | congruence].
Qed.

Lemma enumerate_map_Some (names : list string) (n : string) (i : Z) :
  enumerate_map names !! n = Some i <->
  exists j : nat,
    i = Z.of_nat j /\ names !! j = Some n /\
    forall j' : nat, (j < j')%nat -> names !! j' <> Some n.
Proof.
  revert i. induction names as [|x names IH] using rev_ind; intros i.
  - unfold enumerate_map. cbn. rewrite lookup_empty. split; [discriminate|].
    intros (j & _ & H & _). rewrite lookup_nil in H. discriminate.
  - rewrite enumerate_map_snoc. destruct (decide (x = n)) as [-> | Hne].
    + rewrite lookup_insert_eq. split.
      * intros [= <-]. exists (length names). split; [reflexivity|]. split.
        -- rewrite lookup_app_r by lia. rewrite Nat.sub_diag. reflexivity.
        -- intros j' Hj'. rewrite lookup_ge_None_2; [discriminate|].
           rewrite length_app. cbn. lia.
      * intros (j & -> & Hj & Hlast).
        destruct (Nat.lt_trichotomy j (length names)) as [Hlt | [-> | Hgt]].
        -- exfalso. apply (Hlast (length names) Hlt).
           rewrite lookup_app_r by lia. rewrite Nat.sub_diag. reflexivity.
        -- reflexivity.
        -- apply lookup_lt_Some in Hj. rewrite length_app in Hj. cbn in Hj. lia.
    + rewrite lookup_insert_ne by done. rewrite IH. split.
      * intros (j & -> & Hj & Hlast). exists j. split; [reflexivity|].
        pose proof (lookup_lt_Some _ _ _ Hj) as Hlt.
        split; [rewrite lookup_app_l by lia; exact Hj|].
        intros j' Hj'. destruct (Nat.lt_ge_cases j' (length names)) as [H | H].
        -- rewrite lookup_app_l by lia. apply Hlast, Hj'.
        -- rewrite lookup_app_r by lia. intros E.
           destruct (j' - length names)%nat as [|m]; cbn in E;
             [congruence | destruct m; discriminate].
      * intros (j & -> & Hj & Hlast). exists j. split; [reflexivity|].
        assert (j < length names)%nat as Hlt.
        { apply lookup_lt_Some in Hj as Hl. rewrite length_app in Hl. cbn in Hl.
          destruct (decide (j = length names)) as [-> | ?]; [|lia].
          rewrite lookup_app_r in Hj by lia. rewrite Nat.sub_diag in Hj.
          cbn in Hj. congruence. }
        rewrite lookup_app_l in Hj by lia. split; [exact Hj|].
        intros j' Hj'. specialize (Hlast j' Hj').
        destruct (Nat.lt_ge_cases j' (length names)) as [H | H].
        -- rewrite lookup_app_l in Hlast by lia. exact Hlast.
        -- rewrite lookup_ge_None_2 by lia. discriminate.
Qed.

End LabelMap.

(** X1.  The label dictionary of a named dataset maps an object id to the
    index of its last occurrence in the list of names read from the names
    file, and has an entry exactly for the ids in that list. *)
Theorem label_map_last_occurrence (names : list string) (n : string) :
  (forall i : Z,
     Datasets.enumerate_map names !! n = Some i <->
     exists j : nat,
       i = Z.of_nat j /\ names !! j = Some n /\
       forall j' : nat, (j < j')%nat -> names !! j' <> Some n) /\
  (Datasets.enumerate_map names !! n = None <-> n ∉ names).
Proof.
  split; [intros i; apply enumerate_map_Some | apply enumerate_map_None].
Qed.

Section NamedItems.
Import Datasets.
Variable L : Lib.

Lemma NamedDataset_init_map (c : dataset_class) (self : dataset) :
  NamedDataset_init L c = Ok self ->
  map self = enumerate_map (name self) /\ cls self = c.
Proof.
  unfold NamedDataset_init.
  destruct (data_path c) as [dp|]; [|discriminate].
  destruct (names_path c) as [np|]; [|discriminate].
  destruct (ShapeDataset_init L c dp) as [s|] eqn:E; [|discriminate].
  cbn [mbind result_bind].
  destruct (open_read L np) as [content|]; [|discriminate].
  cbn [mbind result_bind]. intros [= <-]. cbn [map name cls]. split; [reflexivity|].
  unfold ShapeDataset_init in E.
  destruct (os_path_exists L _).
  - destruct (open_read L _); [|discriminate]. cbn in E. injection E as <-. reflexivity.
  - injection E as <-. reflexivity.
Qed.

Lemma NamedDataset_getitem_inv (self : dataset) (idx : Z)
    (label : item_name) (g img : Torch.tensor) :
  NamedDataset_getitem L self idx = Ok (label, g, img) <->
  exists n i,
    ShapeDataset_getitem L self idx = Ok (NameStr n, g, img) /\
    map self !! n = Some i /\ label = NameInt i.
Proof.
  unfold NamedDataset_getitem.
  destruct (ShapeDataset_getitem L self idx) as [[[nm g'] img']|k msg].
  - cbn [mbind result_bind]. destruct nm as [n|z].
    + destruct (map self !! n) as [i|] eqn:Em.
      * split.
        -- intros [= <- <- <-]. exists n, i. done.
        -- intros (n' & i' & [= <- <- <-] & Hm & ->). congruence.
      * split; [discriminate|].
        intros (n' & i' & [= <- <- <-] & Hm & ->). congruence.
    + split; [discriminate|]. intros (n' & i' & H & _). discriminate.
  - cbn [mbind result_bind]. split; [discriminate|].
    intros (n' & i' & H & _). discriminate.
Qed.

End NamedItems.

(** X2.  The item of a named dataset is the item of the underlying
    [ShapeDataset] with the object id replaced by its integer label: the
    label is a valid index into the list of names and that list holds the
    object id there; group element and image are passed through.  An
    object id that is not in the names file is a [KeyError], and every
    exception of the underlying [__getitem__] is passed on. *)
Theorem NamedDataset_getitem_label (L : Lib) (c : Datasets.dataset_class)
    (self : Datasets.dataset) (idx : Z) :
  Datasets.NamedDataset_init L c = Ok self ->
  (forall label g img,
     Datasets.NamedDataset_getitem L self idx = Ok (label, g, img) ->
     exists (n : string) (j : nat),
       Datasets.ShapeDataset_getitem L self idx = Ok (Datasets.NameStr n, g, img) /\
       label = Datasets.NameInt (Z.of_nat j) /\
       Datasets.name self !! j = Some n /\
       (j < length (Datasets.name self))%nat) /\
  (forall n g img,
     Datasets.ShapeDataset_getitem L self idx = Ok (Datasets.NameStr n, g, img) ->
     (n ∈ Datasets.name self ->
      exists i, Datasets.NamedDataset_getitem L self idx = Ok (Datasets.NameInt i, g, img)) /\
     (n ∉ Datasets.name self ->
      Datasets.NamedDataset_getitem L self idx = Raise KeyError n)) /\
  (forall k msg,
     Datasets.ShapeDataset_getitem L self idx = Raise k msg ->
     Datasets.NamedDataset_getitem L self idx = Raise k msg).
Proof.
  intros Hinit. apply NamedDataset_init_map in Hinit as [Hmap _].
  split; [|split].
  - intros label g img H. apply NamedDataset_getitem_inv in H as (n & i & Hs & Hm & ->).
    rewrite Hmap in Hm. apply enumerate_map_Some in Hm as (j & -> & Hj & _).
    exists n, j. split; [exact Hs|]. split; [reflexivity|]. split; [exact Hj|].
    eapply lookup_lt_Some, Hj.
  - intros n g img Hs. unfold Datasets.NamedDataset_getitem. rewrite Hs.
    cbn [mbind result_bind]. rewrite Hmap. split.
    + intros Hin. destruct (Datasets.enumerate_map (Datasets.name self) !! n) as [i|] eqn:E.
      * eauto.
      * apply enumerate_map_None in E. contradiction.
    + intros Hn. apply enumerate_map_None in Hn. rewrite Hn. reflexivity.
  - intros k msg Hs. unfold Datasets.NamedDataset_getitem. rewrite Hs. reflexivity.
Qed.

(** The chairs: two names, one rendering of the second chair. *)
Lemma NamedDataset_getitem_label_witness :
  let L := {| os_path_exists := fun _ => false;
              open_read := fun _ => Ok "a1.obj b2.obj";
              glob := fun _ => ["data/chairs/ten/b2.obj_0.0336_-0.1523_-0.5616_-0.8126.jpg"];
              image_shape := fun _ => Ok [64; 64; 3] |} in
  exists self i g img,
    Datasets.NamedDataset_init L Datasets.SelectedDataset = Ok self /\
    Datasets.NamedDataset_getitem L self 0 = Ok (Datasets.NameInt i, g, img).
Proof.
  intros L.
  destruct (Datasets.NamedDataset_init L Datasets.SelectedDataset) as [self|] eqn:E;
    [|discriminate E].
  destruct (NamedDataset_getitem_label L _ self 0 E) as (_ & H2 & _).
  injection E as <-.
  edestruct (H2 "b2") as [Hin _]; [reflexivity|].
  destruct Hin as [i Hi].
  - apply list_elem_of_In. vm_compute. tauto.
  - eexists _, i, _, _. split; [reflexivity | exact Hi].
Defined.

(** ** The object id of a file name *)

Section ObjectIdFacts.
Import PyStr ObjectId.

Lemma str_app_assoc (a b c : string) : (a ++ b) ++ c = a ++ (b ++ c).
Proof.
  induction a as [|x a IH]; [reflexivity|]. rewrite !app_cons, IH. reflexivity.
Qed.

Lemma str_app_nil_r (a : string) : a ++ "" = a.
Proof. induction a as [|x a IH]; [reflexivity|]. rewrite app_cons, IH. reflexivity. Qed.

Lemma starts_with_obj (s : string) :
  starts_with ".obj" s = true <-> exists b, s = ".obj" ++ b.
Proof.
  unfold starts_with. rewrite String.eqb_eq. split.
  - intros H. destruct s as [|c1 [|c2 [|c3 [|c4 b]]]]; try discriminate H.
    exists b. cbn in H. destruct b; cbn in H; injection H as <- <- <- <-; reflexivity.
  - intros [b ->]. rewrite !app_cons, app_nil. cbn. destruct b; reflexivity.
Qed.

Lemma ends_in_name_char_cons (c : ascii) (a : string) :
  a <> "" -> (ends_in_name_char (String c a) <-> ends_in_name_char a).
Proof. destruct a; [done|]. intros _. reflexivity. Qed.

Lemma ends_in_name_char_nonempty (a : string) : ends_in_name_char a -> a <> "".
Proof. destruct a; [contradiction | discriminate]. Qed.

Lemma dot_not_name_char (c : ascii) (b : string) (s' : string) :
  String c s' = ".obj" ++ b -> is_name_char c = false.
Proof. rewrite !app_cons. intros [= -> _]. reflexivity. Qed.

(** Stepping over a character of the class. *)
Lemma has_object_id_name_char (before : bool) (c : ascii) (s : string) :
  is_name_char c = true ->
  (has_object_id before (String c s) <-> has_object_id true s).
Proof.
  intros Hc. split.
  - intros (a & b & E & H). destruct a as [|x a].
    + rewrite app_nil in E. apply dot_not_name_char in E. congruence.
    + rewrite app_cons in E. injection E as <- ->. exists a, b. split; [reflexivity|].
      destruct a as [|y a]; [right; done|]. left.
      destruct H as [H | [H _]]; [|discriminate]. exact H.
  - intros (a & b & -> & H). exists (String c a), b. split; [reflexivity|]. left.
    destruct H as [H | [-> _]]; [|exact Hc].
    apply ends_in_name_char_cons; [apply ends_in_name_char_nonempty, H | exact H].
Qed.

(** Stepping over a character outside the class, where no id ends. *)
Lemma has_object_id_other_char (before : bool) (c : ascii) (s : string) :
  is_name_char c = false ->
  before && starts_with ".obj" (String c s) = false ->
  (has_object_id before (String c s) <-> has_object_id false s).
Proof.
  intros Hc Hno. split.
  - intros (a & b & E & H). destruct a as [|x a].
    + exfalso. destruct H as [H | [_ ->]]; [contradiction|].
      rewrite app_nil in E. cbn [andb] in Hno.
      assert (starts_with ".obj" (String c s) = true) by (apply starts_with_obj; eauto).
      congruence.
    + rewrite app_cons in E. injection E as <- ->. exists a, b. split; [reflexivity|].
      left. destruct H as [H | [H _]]; [|discriminate].
      destruct a as [|y a]; [cbn in H; congruence|]. exact H.
  - intros (a & b & -> & H). exists (String c a), b. split; [reflexivity|]. left.
    destruct H as [H | [_ H]]; [|discriminate].
    apply ends_in_name_char_cons; [apply ends_in_name_char_nonempty, H | exact H].
Qed.

Lemma findall_obj_from_nil (s : string) : forall run : string,
  findall_obj_from 0 run s = [] <->
  ~ has_object_id (negb (String.eqb run "")) s.
Proof.
  induction s as [|c s IH]; intros run.
  - cbn [findall_obj_from]. split; [|done].
    intros _ (a & b & E & _). destruct a; discriminate E.
  - cbn [findall_obj_from]. destruct (is_name_char c) eqn:Hc.
    + rewrite IH, (has_object_id_name_char _ c s Hc).
      assert (String.eqb (run ++ String c "") "" = false) as ->; [|reflexivity].
      apply String.eqb_neq. destruct run; discriminate.
    + destruct (negb (String.eqb run "") && starts_with ".obj" (String c s)) eqn:Hhit.
      * split; [discriminate|]. intros H. exfalso. apply H.
        apply andb_true_iff in Hhit as [Hrun Hst].
        apply starts_with_obj in Hst as [b ->].
        exists "", b. split; [reflexivity|]. right. rewrite Hrun. done.
      * rewrite (has_object_id_other_char _ c s Hc Hhit). apply (IH "").
Qed.

Lemma name_chars_snoc (run : string) (c : ascii) :
  name_chars run -> is_name_char c = true -> name_chars (run ++ String c "").
Proof.
  induction run as [|x run IH]; cbn [name_chars]; [rewrite app_nil; cbn; tauto|].
  intros [Hx Hr] Hc. rewrite app_cons. cbn [name_chars]. auto.
Qed.

Lemma findall_obj_from_head (s : string) : forall (run n : string),
  head (findall_obj_from 0 run s) = Some n ->
  n <> "" /\
  exists pre m post,
    s = pre ++ m ++ ".obj" ++ post /\ name_chars m /\
    ((pre = "" /\ n = run ++ m) \/
     (pre <> "" /\ ~ ends_in_name_char pre /\ n = m)).
Proof.
  induction s as [|c s IH]; intros run n; [discriminate|].
  cbn [findall_obj_from]. destruct (is_name_char c) eqn:Hc.
  - intros H. apply IH in H as (Hn & pre & m & post & -> & Hm & Hcase).
    split; [exact Hn|]. destruct Hcase as [[-> ->] | (Hpre & Hend & ->)].
    + exists "", (String c m), post. rewrite !app_nil, app_cons.
      split; [reflexivity|]. split; [cbn; auto|]. left. split; [reflexivity|].
      rewrite str_app_assoc, app_cons, app_nil. reflexivity.
    + exists (String c pre), m, post. rewrite app_cons. split; [reflexivity|].
      split; [exact Hm|]. right. split; [discriminate|]. split; [|reflexivity].
      rewrite ends_in_name_char_cons by exact Hpre. exact Hend.
  - destruct (negb (String.eqb run "") && starts_with ".obj" (String c s)) eqn:Hhit.
    + cbn [head]. intros [= <-].
      apply andb_true_iff in Hhit as [Hrun Hst].
      apply negb_true_iff, String.eqb_neq in Hrun.
      apply starts_with_obj in Hst as [b ->].
      split; [exact Hrun|]. exists "", "", b. rewrite !app_nil.
      split; [reflexivity|]. split; [exact I|]. left.
      rewrite str_app_nil_r. done.
    + intros H. apply IH in H as (Hn & pre & m & post & -> & Hm & Hcase).
      split; [exact Hn|]. exists (String c pre), m, post. rewrite app_cons.
      split; [reflexivity|]. split; [exact Hm|]. right. split; [discriminate|].
      destruct Hcase as [[-> ->] | (Hpre & Hend & ->)].
      * split; [|rewrite app_nil; reflexivity]. cbn. congruence.
      * split; [|reflexivity].
        rewrite ends_in_name_char_cons by exact Hpre. exact Hend.
Qed.

End ObjectIdFacts.

(** X3.  [filename_to_name] finds the object id of a file name: the
    assertion fails exactly when nowhere in the name a character of
    [[A-z0-9]] is directly followed by [.obj]; otherwise the result is a
    non-empty text of such characters that stands directly in front of an
    [.obj] and is not preceded by another such character.  The three
    subclasses that override the method return 0 for every file name. *)
Theorem filename_to_name_object_id (c : Datasets.dataset_class) (filename : string) :
  (c = Datasets.HumanoidDataset \/ c = Datasets.ColorHumanoidDataset \/
   c = Datasets.SingleChairDataset ->
   Datasets.filename_to_name c filename = Ok (Datasets.NameInt 0)) /\
  (c <> Datasets.HumanoidDataset -> c <> Datasets.ColorHumanoidDataset ->
   c <> Datasets.SingleChairDataset ->
   (raises (Datasets.filename_to_name c filename) AssertionError <->
    ~ ObjectId.has_object_id false filename) /\
   (forall nm, Datasets.filename_to_name c filename = Ok nm ->
      exists n pre post,
        nm = Datasets.NameStr n /\ n <> "" /\ ObjectId.name_chars n /\
        filename = pre ++ n ++ ".obj" ++ post /\
        ~ ObjectId.ends_in_name_char pre)).
Proof.
  split.
  - intros [-> | [-> | ->]]; reflexivity.
  - intros H1 H2 H3.
    assert (Datasets.filename_to_name c filename =
            match PyStr.search_obj filename with
            | Some n => Ok (Datasets.NameStr n)
            | None => Raise AssertionError "Could not find object id from filename"
            end) as ->.
    { destruct c; try reflexivity; contradiction. }
    pose proof (findall_obj_from_nil filename "") as Hnil.
    change (negb (String.eqb "" "")) with false in Hnil.
    unfold PyStr.search_obj, PyStr.findall_obj.
    destruct (PyStr.findall_obj_from 0 "" filename) as [|n rest] eqn:E; cbn [head].
    + split.
      * split; [intros _; apply Hnil; reflexivity | intros _; eexists; reflexivity].
      * intros nm H. discriminate H.
    + split.
      * split; [intros [msg H]; discriminate H|].
        intros Hno. apply Hnil in Hno. discriminate Hno.
      * intros nm [= <-].
        destruct (findall_obj_from_head filename "" n) as (Hn & pre & m & post & Hs & Hm & Hcase).
        { rewrite E. reflexivity. }
        exists n, pre, post. split; [reflexivity|]. split; [exact Hn|].
        destruct Hcase as [[-> ->] | (Hpre & Hend & ->)].
        -- rewrite app_nil in *. split; [exact Hm|]. split; [exact Hs|]. cbn. tauto.
        -- split; [exact Hm|]. split; [exact Hs | exact Hend].
Qed.

(** A chair rendering, and a file without an object id. *)
Lemma filename_to_name_object_id_witness :
  Datasets.filename_to_name Datasets.HumanoidDataset "0.1000_0.2000.jpg"
    = Ok (Datasets.NameInt 0) /\
  raises (Datasets.filename_to_name Datasets.ShapeDataset "0.1000_0.2000.jpg")
         AssertionError.
Proof.
  destruct (filename_to_name_object_id Datasets.HumanoidDataset "0.1000_0.2000.jpg")
    as [H _].
  split; [apply H; left; reflexivity|].
  destruct (filename_to_name_object_id Datasets.ShapeDataset "0.1000_0.2000.jpg")
    as [_ H'].
  destruct H' as [Hr _]; try discriminate.
  apply Hr. apply (findall_obj_from_nil "0.1000_0.2000.jpg" ""). reflexivity.
Defined.

(** ** [__getitem__]: indices, failures and the image tensor *)

Section ItemFacts.
Import PyStr Torch Datasets.
Variable L : Lib.

Lemma py_index_out_of_range {A} (l : list A) (idx : Z) :
  idx < - Z.of_nat (length l) \/ Z.of_nat (length l) <= idx ->
  py_index l idx = Raise IndexError "list index out of range".
Proof.
  intros H. unfold py_index. cbv zeta.
  destruct (Z.ltb_spec idx 0).
  - assert ((0 <=? idx + Z.of_nat (length l)) = false) as -> by (apply Z.leb_gt; lia).
    reflexivity.
  - assert ((idx <? Z.of_nat (length l)) = false) as -> by (apply Z.ltb_ge; lia).
    rewrite andb_false_r. reflexivity.
Qed.

Lemma py_index_in_range {A} (l : list A) (idx : Z) :
  0 <= idx < Z.of_nat (length l) ->
  exists x, l !! Z.to_nat idx = Some x /\ py_index l idx = Ok x.
Proof.
  intros H. unfold py_index. cbv zeta.
  assert ((idx <? 0) = false) as -> by (apply Z.ltb_ge; lia).
  assert ((0 <=? idx) = true) as -> by (apply Z.leb_le; lia).
  assert ((idx <? Z.of_nat (length l)) = true) as -> by (apply Z.ltb_lt; lia).
  cbn [andb]. destruct (l !! Z.to_nat idx) as [x|] eqn:E; [eauto|].
  apply lookup_ge_None in E. lia.
Qed.

Lemma py_index_negative {A} (l : list A) (idx : Z) :
  - Z.of_nat (length l) <= idx < 0 ->
  py_index l idx = py_index l (idx + Z.of_nat (length l)).
Proof.
  intros H. unfold py_index. cbv zeta.
  assert ((idx <? 0) = true) as -> by (apply Z.ltb_lt; lia).
  assert ((idx + Z.of_nat (length l) <? 0) = false) as -> by (apply Z.ltb_ge; lia).
  reflexivity.
Qed.

Lemma getitem_depends_on_file (self : dataset) (i j : Z) :
  py_index (files self) i = py_index (files self) j ->
  getitem L self i = getitem L self j.
Proof.
  intros E. unfold getitem, NamedDataset_getitem, ShapeDataset_getitem.
  rewrite E. reflexivity.
Qed.

(** The image tensor of a returned item, from the shape of the file. *)
Lemma ShapeDataset_getitem_image (self : dataset) (idx : Z)
    (name : item_name) (g img : tensor) :
  ShapeDataset_getitem L self idx = Ok (name, g, img) ->
  exists filename sh,
    py_index (files self) idx = Ok filename /\
    image_shape L (item_path self filename) = Ok sh /\
    shape img =
      (if rgb (cls self) then
         match sh with [h; w; c] => [c; h; w] | _ => sh end
       else if Z.of_nat (length sh) =? 3 then 1 :: removelast sh else 1 :: sh) /\
    (rgb (cls self) = true -> length sh = 3%nat).
Proof.
  unfold ShapeDataset_getitem, Image_open.
  destruct (py_index (files self) idx) as [filename|] eqn:Ei; [|discriminate].
  cbn [mbind result_bind].
  destruct (image_shape L (item_path self filename)) as [sh|] eqn:Es; [|discriminate].
  cbn [mbind result_bind].
  destruct (filename_to_quaternion filename) as [q|]; [|discriminate].
  cbn [mbind result_bind]. destruct (rgb (cls self)); cbn [negb].
  - unfold permute201. cbn [shape div_scalar to_float32].
    destruct sh as [|h [|w [|c [|? ?]]]]; try discriminate.
    cbn [mbind result_bind].
    destruct (filename_to_name (cls self) filename); [|discriminate].
    cbn [mbind result_bind]. intros [= _ _ <-]. exists filename, [h; w; c].
    split; [reflexivity|]. split; [exact Es|]. split; reflexivity.
  - cbn [mbind result_bind].
    destruct (filename_to_name (cls self) filename); [|discriminate].
    cbn [mbind result_bind]. intros [= _ _ <-]. exists filename, sh.
    split; [reflexivity|]. split; [exact Es|]. split; [|discriminate].
    unfold dim. cbn [shape div_scalar to_float32 unsqueeze0].
    destruct (Z.of_nat (length sh) =? 3); reflexivity.
Qed.

End ItemFacts.

(** X4.  The valid indices of a dataset are those of a Python list of
    [len(dataset)] entries: an index outside [-len, len) raises
    [IndexError] before any file is touched, a negative index [-k] denotes
    the item [len - k], and an index in [0, len) selects that entry of the
    file list. *)
Theorem getitem_index_range (L : Lib) (self : Datasets.dataset) (idx : Z) :
  let n := Datasets.len self in
  (idx < - n \/ n <= idx ->
   Datasets.getitem L self idx = Raise IndexError "list index out of range") /\
  (- n <= idx < 0 ->
   Datasets.getitem L self idx = Datasets.getitem L self (idx + n)) /\
  (0 <= idx < n ->
   exists filename,
     Datasets.files self !! Z.to_nat idx = Some filename /\
     py_index (Datasets.files self) idx = Ok filename).
Proof.
  cbv zeta. unfold Datasets.len. split; [|split].
  - intros H. apply py_index_out_of_range in H.
    unfold Datasets.getitem, Datasets.NamedDataset_getitem, Datasets.ShapeDataset_getitem.
    rewrite H. destruct (Datasets.is_named (Datasets.cls self)); reflexivity.
  - intros H. apply getitem_depends_on_file, py_index_negative, H.
  - intros H. apply py_index_in_range, H.
Qed.

(** Three files: the last one by its negative index, and one index too far. *)
Lemma getitem_index_range_witness :
  let self := {| Datasets.cls := Datasets.HumanoidDataset;
                 Datasets.directory := "data/humanoid";
                 Datasets.files := ["a.jpg"; "b.jpg"; "c.jpg"];
                 Datasets.root := None; Datasets.name := []; Datasets.map := ∅ |} in
  Datasets.getitem Examples.lib self (-1) = Datasets.getitem Examples.lib self 2 /\
  Datasets.getitem Examples.lib self 3 = Raise IndexError "list index out of range" /\
  py_index (Datasets.files self) 1 = Ok "b.jpg".
Proof.
  intros self.
  destruct (getitem_index_range Examples.lib self (-1)) as (_ & H2 & _).
  destruct (getitem_index_range Examples.lib self 3) as (H1 & _ & _).
  destruct (getitem_index_range Examples.lib self 1) as (_ & _ & H3).
  split; [apply H2; change (- 3 <= -1 < 0); lia|].
  split; [apply H1; change (3 < - 3 \/ 3 <= 3); lia|].
  destruct H3 as (f & Hf & Hi); [change (0 <= 1 < 3); lia|].
  cbn in Hf. injection Hf as <-. exact Hi.
Defined.

(** X5.  The image of an item is channel-first.  A dataset that is not
    [rgb] returns one channel, [1, h, w], for a grey image [h, w] as well
    as for a colour image [h, w, c] (whose channels are averaged); an [rgb]
    dataset returns [c, h, w] and only for images of three dimensions. *)
Theorem getitem_image_channel_first (L : Lib) (self : Datasets.dataset) (idx : Z)
    (name : Datasets.item_name) (g img : Torch.tensor) :
  Datasets.ShapeDataset_getitem L self idx = Ok (name, g, img) ->
  exists filename sh,
    py_index (Datasets.files self) idx = Ok filename /\
    image_shape L (Datasets.item_path self filename) = Ok sh /\
    (Datasets.rgb (Datasets.cls self) = false ->
     (forall h w, sh = [h; w] -> Torch.shape img = [1; h; w]) /\
     (forall h w c, sh = [h; w; c] -> Torch.shape img = [1; h; w])) /\
    (Datasets.rgb (Datasets.cls self) = true ->
     exists h w c, sh = [h; w; c] /\ Torch.shape img = [c; h; w]).
Proof.
  intros H. apply ShapeDataset_getitem_image in H
    as (filename & sh & Hi & Hs & Himg & Hrgb).
  exists filename, sh. split; [exact Hi|]. split; [exact Hs|]. split.
  - intros E. rewrite E in Himg. split.
    + intros h w ->. exact Himg.
    + intros h w c ->. exact Himg.
  - intros E. rewrite E in Himg. specialize (Hrgb E).
    destruct sh as [|h [|w [|c [|? ?]]]]; try discriminate Hrgb.
    exists h, w, c. split; [reflexivity | exact Himg].
Qed.

(** A colour rendering read by a grey-scale dataset. *)
Lemma getitem_image_channel_first_witness :
  let self := {| Datasets.cls := Datasets.HumanoidDataset;
                 Datasets.directory := "data/humanoid";
                 Datasets.files := ["data/h_0.0336_-0.1523_-0.5616_-0.8126.jpg"];
                 Datasets.root := None; Datasets.name := []; Datasets.map := ∅ |} in
  exists name g img,
    Datasets.ShapeDataset_getitem Examples.lib self 0 = Ok (name, g, img) /\
    Torch.shape img = [1; 64; 64].
Proof.
  intros self.
  destruct (Datasets.ShapeDataset_getitem Examples.lib self 0)
    as [[[name g] img]|] eqn:E; [|discriminate E].
  destruct (getitem_image_channel_first _ _ _ _ _ _ E)
    as (filename & sh & Hi & Hs & Hgrey & _).
  exists name, g, img. split; [reflexivity|].
  injection Hs as <-. destruct (Hgrey eq_refl) as [_ H3]. apply (H3 64 64 3). reflexivity.
Defined.

(** X6.  The failures of [ShapeDataset.__getitem__] come in the order of
    its statements: the image file is opened first, so its error wins;
    then the quaternion assertion, with the file name in its message; then
    the permutation of an [rgb] dataset on an image without a channel
    dimension; the object id is looked for last. *)
Theorem getitem_failure_order (L : Lib) (self : Datasets.dataset) (idx : Z)
    (filename : string) :
  py_index (Datasets.files self) idx = Ok filename ->
  (forall k msg,
     image_shape L (Datasets.item_path self filename) = Raise k msg ->
     Datasets.ShapeDataset_getitem L self idx = Raise k msg) /\
  (forall sh,
     image_shape L (Datasets.item_path self filename) = Ok sh ->
     (length (PyStr.findall_quaternion filename) <> 4%nat ->
      Datasets.ShapeDataset_getitem L self idx
        = Raise AssertionError ("No quaternion found in " ++ filename)) /\
     (length (PyStr.findall_quaternion filename) = 4%nat ->
      (Datasets.rgb (Datasets.cls self) = true -> length sh <> 3%nat ->
       raises (Datasets.ShapeDataset_getitem L self idx) RuntimeError) /\
      ((Datasets.rgb (Datasets.cls self) = true -> length sh = 3%nat) ->
       forall k msg,
         Datasets.filename_to_name (Datasets.cls self) filename = Raise k msg ->
         Datasets.ShapeDataset_getitem L self idx = Raise k msg))).
Proof.
  intros Hi. unfold Datasets.ShapeDataset_getitem, Datasets.Image_open.
  rewrite Hi. cbn [mbind result_bind]. split.
  - intros k msg ->. reflexivity.
  - intros sh ->. cbn [mbind result_bind]. rewrite filename_to_quaternion_eq. split.
    + intros Hn. apply Nat.eqb_neq in Hn. rewrite Hn. reflexivity.
    + intros Hn. rewrite Hn. cbn [Nat.eqb mbind result_bind]. split.
      * intros -> Hsh. cbn [negb]. unfold Torch.permute201.
        cbn [Torch.shape Torch.div_scalar Torch.to_float32].
        destruct sh as [|h [|w [|c [|? ?]]]]; try (eexists; reflexivity).
        contradiction.
      * intros Hrgb k msg Hname. destruct (Datasets.rgb (Datasets.cls self)); cbn [negb].
        -- specialize (Hrgb eq_refl). unfold Torch.permute201.
           cbn [Torch.shape Torch.div_scalar Torch.to_float32].
           destruct sh as [|h [|w [|c [|? ?]]]]; try discriminate Hrgb.
           cbn [mbind result_bind]. rewrite Hname. reflexivity.
        -- cbn [mbind result_bind]. rewrite Hname. reflexivity.
Qed.

(** An unreadable file with a bad name reports the error of the file. *)
Lemma getitem_failure_order_witness :
  let L := {| os_path_exists := fun _ => false;
              open_read := fun _ => Raise OSError "No such file";
              glob := fun _ => [];
              image_shape := fun _ => Raise OSError "cannot identify image file" |} in
  let self := {| Datasets.cls := Datasets.ShapeDataset; Datasets.directory := "d";
                 Datasets.files := ["d/broken.jpg"]; Datasets.root := None;
                 Datasets.name := []; Datasets.map := ∅ |} in
  Datasets.ShapeDataset_getitem L self 0 = Raise OSError "cannot identify image file".
Proof.
  intros L self.
  destruct (getitem_failure_order L self 0 "d/broken.jpg" eq_refl) as [H _].
  apply H. reflexivity.
Defined.

(** ** The parsed quaternion *)

Section QuaternionBounds.
Import PyStr QuaternionPattern.

Lemma digit_value_range (c : ascii) : digit c -> 0 <= digit_value c <= 9.
Proof. unfold digit, digit_value. lia. Qed.

Lemma unsigned_value_range (m : string) :
  unsigned_text m -> (0 <= unsigned_value m <= 19999 # 10000)%Q.
Proof.
  intros (a & d1 & d2 & d3 & d4 & -> & Ha & H1 & H2 & H3 & H4).
  apply digit_value_range in H1, H2, H3, H4.
  assert (0 <= digit_value a <= 1) as Ha' .
  { destruct Ha as [-> | ->];
      [change (digit_value "0") with 0 | change (digit_value "1") with 1]; lia. }
  unfold unsigned_value, Qle. cbn [Qnum Qden]. lia.
Qed.

Lemma quaternion_value_range (m : string) :
  quaternion_text m ->
  (- (19999 # 10000) <= quaternion_value m <= 19999 # 10000)%Q.
Proof.
  intros [Hu | (m' & -> & Hu)].
  - assert (quaternion_value m = unsigned_value m) as ->.
    { destruct Hu as (a & d1 & d2 & d3 & d4 & -> & [-> | ->] & _); reflexivity. }
    apply unsigned_value_range in Hu as [H0 H1]. split; [|exact H1].
    eapply Qle_trans; [|exact H0]. unfold Qle. cbn. lia.
  - change (quaternion_value (String "-" m')) with (Qopp (unsigned_value m')).
    apply unsigned_value_range in Hu as [H0 H1]. split.
    + apply Qopp_le_compat. exact H1.
    + eapply Qle_trans; [apply Qopp_le_compat, H0|]. unfold Qle. cbn. lia.
Qed.

End QuaternionBounds.

(** X7.  Whatever the file name, a quaternion that [filename_to_quaternion]
    returns has exactly four components, each between -1.9999 and 1.9999:
    the pattern admits one digit 0 or 1 in front of the dot and four
    behind it. *)
Theorem filename_to_quaternion_bounds (filename : string) (q : list Q) :
  Datasets.filename_to_quaternion filename = Ok q ->
  length q = 4%nat /\
  Forall (fun x => (- (19999 # 10000) <= x <= 19999 # 10000)%Q) q.
Proof.
  rewrite filename_to_quaternion_eq.
  destruct (Nat.eqb_spec (length (PyStr.findall_quaternion filename)) 4) as [E|E];
    [|discriminate].
  intros [= <-]. split; [rewrite length_fmap; exact E|].
  apply Forall_fmap.
  eapply Forall_impl; [eapply occurrences_texts, findall_occurrences|].
  intros m Hm. apply quaternion_value_range, Hm.
Qed.

Lemma filename_to_quaternion_bounds_witness :
  exists q,
    Datasets.filename_to_quaternion "chair.obj_1.0000_-0.1523_-0.5616_-0.8126.jpg" = Ok q /\
    length q = 4%nat.
Proof.
  eexists. split; [reflexivity|].
  apply (filename_to_quaternion_bounds "chair.obj_1.0000_-0.1523_-0.5616_-0.8126.jpg").
  reflexivity.
Defined.

(** ** The encoder and the size of its input *)

Section EncoderSizes.
Import Torch NN Supervised.

Ltac conv_step :=
  cbn [sequential_from mbind result_bind apply_layer shape val];
  rewrite ?Z.eqb_refl; cbn [negb];
  repeat (rewrite leb_pos by lia); cbn [orb];
  match goal with
  | |- context [(?a <? ?b) || (?c <? ?d)] =>
      let E := fresh "E" in
      destruct ((a <? b) || (c <? d)) eqn:E;
      [ apply orb_true_iff in E; rewrite !Z.ltb_lt in E;
        cbn [mbind result_bind]; unfold conv_out in *; split; [reflexivity | Z.div_mod_to_equations; lia]
      | apply orb_false_iff in E; rewrite !Z.ltb_ge in E ]
  end.

(** What the five convolutions do to an [h] x [w] channel: they fail below
    64 pixels, and above they leave an [(h/16 - 3)] x [(w/16 - 3)] map. *)
Lemma Encoder_conv_sizes (id_dims hidden_dims n h w : Z) (t : tensor) :
  0 <= id_dims -> 0 < hidden_dims ->
  shape t = [n; 1; h; w] ->
  match sequential (Encoder.conv (Encoder.init id_dims hidden_dims)) t with
  | Ok out => 64 <= h /\ 64 <= w /\
              shape out = [n; 3 + id_dims; h / 16 - 3; w / 16 - 3]
  | Raise k _ => k = RuntimeError /\ (h < 64 \/ w < 64)
  end.
Proof.
  intros Hid Hhid Hs. unfold sequential, Encoder.init.
  cbn [Encoder.conv sequential_from apply_layer]. rewrite Hs.
  repeat conv_step.
  cbn [sequential_from mbind result_bind shape].
  unfold conv_out in *.
  split; [Z.div_mod_to_equations; lia|]. split; [Z.div_mod_to_equations; lia|].
  f_equal. f_equal. f_equal; [|f_equal]; Z.div_mod_to_equations; lia.
Qed.

Lemma slice_len_algebra (id_dims : Z) :
  0 <= id_dims -> slice_len (3 + id_dims) 0 (Some 3) = 3.
Proof.
  intros H. unfold slice_len. change (0 <? 0) with false. change (3 <? 0) with false.
  cbv iota. lia.
Qed.

Lemma slice_len_id (id_dims : Z) :
  0 <= id_dims -> slice_len (3 + id_dims) 3 None = id_dims.
Proof.
  intros H. unfold slice_len. change (3 <? 0) with false. cbv iota. lia.
Qed.

(** On images of at least 64x64 the encoder returns a rotation per image
    and an identity code of [id_dims] entries, if any. *)
Lemma Encoder_forward_ok (id_dims hidden_dims n h w : Z) (img : tensor) :
  0 <= id_dims -> 0 < hidden_dims ->
  shape img = [n; h; w] -> 64 <= h -> 64 <= w ->
  exists rot id_data,
    Encoder.forward (Encoder.init id_dims hidden_dims) img = Ok (rot, id_data) /\
    shape rot = [n; 3; 3] /\
    (id_dims = 0 -> id_data = None) /\
    (0 < id_dims -> exists d, id_data = Some d /\ shape d = [n; id_dims]).
Proof.
  intros Hid Hhid Hs Hh Hw. unfold Encoder.forward, add_channel. rewrite Hs.
  cbn [mbind result_bind].
  pose proof (Encoder_conv_sizes id_dims hidden_dims n h w
                {| shape := [n; 1; h; w];
                   val := App (Layer "[:, None, :, :]" []) [val img] |}
                Hid Hhid eq_refl) as Hc.
  destruct (sequential _ _) as [y | k msg]; [|lia].
  destruct Hc as (_ & _ & Hy).
  cbn [mbind result_bind]. unfold pixel00. rewrite Hy.
  assert ((0 <? h / 16 - 3) && (0 <? w / 16 - 3) = true) as ->.
  { apply andb_true_iff. rewrite !Z.ltb_lt. split; Z.div_mod_to_equations; lia. }
  cbn [mbind result_bind cols shape val].
  rewrite slice_len_algebra, slice_len_id by exact Hid.
  unfold rodrigues. cbn [shape]. change (reverse [n; 3]) with [3; n].
  cbv iota. cbn [Encoder.id_dims Encoder.init].
  destruct (Z.eqb_spec id_dims 0) as [E | E];
    cbn [negb fmap result_fmap mbind result_bind]; eexists _, _;
    (split; [reflexivity|]); (split; [reflexivity|]); split.
  - reflexivity.
  - lia.
  - contradiction.
  - intros _. eexists. split; reflexivity.
Qed.

End EncoderSizes.

(** X8.  [Encoder.forward] does not check that its images are 64x64.  On a
    batch of [h] x [w] images it returns exactly when both sides are at
    least 64 (of a larger image only the first cell of the last feature
    map is used); it then gives [n] 3x3 matrices, and an identity code of
    [id_dims] entries per image, or [None] when [id_dims] is 0.  A smaller
    image fails inside the convolutions. *)
Theorem Encoder_forward_input_size (id_dims hidden_dims n h w : Z)
    (img : Torch.tensor) :
  0 <= id_dims -> 0 < hidden_dims -> Torch.shape img = [n; h; w] ->
  (64 <= h /\ 64 <= w ->
   exists rot id_data,
     Supervised.Encoder.forward (Supervised.Encoder.init id_dims hidden_dims) img
       = Ok (rot, id_data) /\
     Torch.shape rot = [n; 3; 3] /\
     (id_dims = 0 -> id_data = None) /\
     (0 < id_dims -> exists d, id_data = Some d /\ Torch.shape d = [n; id_dims])) /\
  (h < 64 \/ w < 64 ->
   raises (Supervised.Encoder.forward (Supervised.Encoder.init id_dims hidden_dims) img)
     RuntimeError).
Proof.
  intros Hid Hhid Hs. split.
  - intros [Hh Hw]. apply (Encoder_forward_ok id_dims hidden_dims n h w); assumption.
  - intros Hsmall. unfold Supervised.Encoder.forward, NN.add_channel. rewrite Hs.
    cbn [mbind result_bind].
    pose proof (Encoder_conv_sizes id_dims hidden_dims n h w
                  {| Torch.shape := [n; 1; h; w];
                     Torch.val := Torch.App (Torch.Layer "[:, None, :, :]" [])
                                    [Torch.val img] |}
                  Hid Hhid eq_refl) as Hc.
    destruct (NN.sequential _ _) as [y | k msg]; [lia|].
    destruct Hc as (-> & _). cbn [mbind result_bind]. eexists. reflexivity.
Qed.

(** A batch of two 96x80 images with a 7-entry identity code. *)
Lemma Encoder_forward_input_size_witness :
  exists rot id_data,
    Supervised.Encoder.forward (Supervised.Encoder.init 7 50)
      {| Torch.shape := [2; 96; 80]; Torch.val := Torch.Var "img" |} = Ok (rot, id_data) /\
    Torch.shape rot = [2; 3; 3].
Proof.
  destruct (Encoder_forward_input_size 7 50 2 96 80
              {| Torch.shape := [2; 96; 80]; Torch.val := Torch.Var "img" |}
              ltac:(lia) ltac:(lia) eq_refl) as [H _].
  destruct (H ltac:(lia)) as (rot & id_data & E & Hr & _).
  exists rot, id_data. split; [exact E | exact Hr].
Defined.

(** ** Encoding and decoding together *)

Section AutoEncoder.
Import Torch NN Supervised SupervisedRun.

(** The decoder [main] builds accepts a rotation per image, with an
    identity code of the width it was built for. *)
Lemma main_net_forward_shape (a : args) (n : Z) (rot : tensor)
    (id_data : option tensor) :
  0 < n -> 0 <= a_degrees a -> 0 < a_data_dims a -> 0 < a_deconv_hidden a ->
  a_mode a = "action" \/
    (a_mode a = "mlp" /\
     (a_mlp_mode a = "MAT" \/ a_mlp_mode a = "Q" \/ a_mlp_mode a = "EA")) ->
  shape rot = [n; 3; 3] ->
  (if negb (a_single_id a =? 0) then id_data = None
   else exists d, id_data = Some d /\ shape d = [n; a_id_dims a]) ->
  exists decoder out,
    main_net a = Ok decoder /\
    net_forward decoder rot id_data = Ok out /\
    shape out = [n; 64; 64].
Proof.
  intros Hn Hd Hdd Hhid Hmode Hr Hid. unfold main_net.
  assert (0 <= (a_degrees a + 1) ^ 2) by (apply Z.pow_nonneg; lia).
  rewrite DeconvNet_init_ok by nia. cbn [mbind result_bind].
  destruct Hmode as [-> | [-> Hm]].
  - change (String.eqb "action" "action") with true. cbv iota.
    destruct (ActionNet_forward_shape (a_degrees a) (a_id_dims a) (a_data_dims a)
                (a_harmonics_encoder_layers a) (a_deconv_hidden a) n
                (negb (a_single_id a =? 0)) rot id_data Hd Hdd Hhid ltac:(lia) Hr Hid)
      as (net & out & -> & Hf & Ho).
    exists (NetAction net), out. repeat split; assumption.
  - change (String.eqb "mlp" "action") with false.
    change (String.eqb "mlp" "mlp") with true. cbv iota.
    destruct (MLPNet_forward_shape (a_degrees a) (a_id_dims a) (a_data_dims a)
                (a_deconv_hidden a) n (a_mlp_mode a)
                (negb (a_single_id a =? 0)) rot id_data Hd Hdd Hhid Hn Hm Hr Hid)
      as (net & out & -> & Hf & Ho).
    exists (NetMLP net), out. repeat split; assumption.
Qed.

(** A decoder built for several objects refuses a call without identity
    code, whatever the rotations are. *)
Lemma main_net_needs_code (a : args) (rot : tensor) :
  a_single_id a = 0 -> 0 <= a_data_dims a -> 0 <= a_deconv_hidden a ->
  a_mode a = "action" \/
    (a_mode a = "mlp" /\
     (a_mlp_mode a = "MAT" \/ a_mlp_mode a = "Q" \/ a_mlp_mode a = "EA")) ->
  exists decoder,
    main_net a = Ok decoder /\
    net_forward decoder rot None
      = Raise AssertionError "Either must be single id or provide id_data, not both.".
Proof.
  intros Hs Hdd Hhid Hmode. unfold main_net. rewrite Hs.
  assert (0 <= (a_degrees a + 1) ^ 2) by (rewrite Z.pow_2_r; nia).
  rewrite DeconvNet_init_ok by nia. cbn [mbind result_bind].
  change (negb (0 =? 0)) with false.
  destruct Hmode as [-> | [-> Hm]].
  - change (String.eqb "action" "action") with true. cbv iota.
    eexists. split; reflexivity.
  - change (String.eqb "mlp" "action") with false.
    change (String.eqb "mlp" "mlp") with true. cbv iota.
    rewrite MLPNet_init_accepted by exact Hm.
    eexists. split; reflexivity.
Qed.

End AutoEncoder.

(** X9.  With [--ae], encoder and decoder as [main] builds them fit
    together: a batch of 64x64 images is encoded and decoded into a batch
    of the same shape, so the loss compares like with like; the labels of
    the batch are not used.  The one exception: for several objects
    ([--single_id 0]) with [--id_dims 0] the encoder gives no identity
    code and the decoder's assertion fails. *)
Theorem autoencoder_reconstruction_shape (a : Supervised.args) (ae n : Z)
    (item_label : list Z) (rot_label img : Torch.tensor) :
  ae <> 0 -> 0 < n ->
  0 <= Supervised.a_degrees a -> 0 < Supervised.a_data_dims a ->
  0 < Supervised.a_deconv_hidden a -> 0 <= Supervised.a_id_dims a ->
  Supervised.a_mode a = "action" \/
    (Supervised.a_mode a = "mlp" /\
     (Supervised.a_mlp_mode a = "MAT" \/ Supervised.a_mlp_mode a = "Q" \/
      Supervised.a_mlp_mode a = "EA")) ->
  Torch.shape img = [n; 64; 64] ->
  exists decoder encoder,
    Supervised.main_net a = Ok decoder /\
    SupervisedRun.main_encoder ae a = Ok (Some encoder) /\
    (Supervised.a_single_id a <> 0 \/ 0 < Supervised.a_id_dims a ->
     exists out,
       SupervisedRun.reconstruction decoder (Some encoder)
         (negb (Supervised.a_single_id a =? 0)) item_label rot_label img = Ok out /\
       Torch.shape out = Torch.shape img) /\
    (Supervised.a_single_id a = 0 -> Supervised.a_id_dims a = 0 ->
     SupervisedRun.reconstruction decoder (Some encoder)
       (negb (Supervised.a_single_id a =? 0)) item_label rot_label img
       = Raise AssertionError "Either must be single id or provide id_data, not both.").
Proof.
  intros Hae Hn Hd Hdd Hhid Hid Hmode Hs.
  set (idd := if Supervised.a_single_id a =? 0 then Supervised.a_id_dims a else 0).
  assert (0 <= idd) as Hidd by (subst idd; destruct (_ =? _); lia).
  assert (SupervisedRun.main_encoder ae a = Ok (Some (Supervised.Encoder.init idd 50)))
    as Henc.
  { unfold SupervisedRun.main_encoder.
    assert (negb (ae =? 0) = true) as -> by (apply negb_true_iff, Z.eqb_neq; exact Hae).
    cbv zeta. fold idd.
    unfold Supervised.Encoder.new, NN.Sequential_init, Supervised.Encoder.init,
      NN.new_layer.
    cbn [Supervised.Encoder.conv mapM NN.channels forallb].
    repeat (rewrite (proj2 (Z.leb_le 0 _)) by lia).
    reflexivity. }
  destruct (Encoder_forward_ok idd 50 n 64 64 img Hidd ltac:(lia) Hs ltac:(lia) ltac:(lia))
    as (rot & id_data & Ef & Hr & Hnone & Hsome).
  assert (forall decoder,
            SupervisedRun.reconstruction decoder (Some (Supervised.Encoder.init idd 50))
              (negb (Supervised.a_single_id a =? 0)) item_label rot_label img
            = Supervised.net_forward decoder rot id_data) as Hrec.
  { intros decoder. unfold SupervisedRun.reconstruction, SupervisedRun.encode.
    rewrite Ef. reflexivity. }
  destruct (Z.eqb_spec (Supervised.a_single_id a) 0) as [E0 | E0].
  - subst idd. destruct (Z.eq_dec (Supervised.a_id_dims a) 0) as [Ei | Ei].
    + rewrite (Hnone Ei) in Hrec.
      destruct (main_net_needs_code a rot E0 ltac:(lia) ltac:(lia) Hmode)
        as (decoder & Hnet & Hf).
      exists decoder. eexists. split; [exact Hnet|]. split; [exact Henc|].
      split; [intros [? | ?]; lia|]. intros _ _. rewrite Hrec. exact Hf.
    + destruct (Hsome ltac:(lia)) as (d & -> & Hdsh).
      destruct (main_net_forward_shape a n rot (Some d) Hn Hd Hdd Hhid Hmode Hr)
        as (decoder & out & Hnet & Hf & Ho).
      { rewrite E0. change (negb (0 =? 0)) with false. cbv iota. eauto. }
      exists decoder. eexists. split; [exact Hnet|]. split; [exact Henc|].
      split; [|intros _ ?; contradiction].
      intros _. exists out. rewrite Hrec, Hs. split; assumption.
  - subst idd. rewrite (Hnone eq_refl) in Hrec.
    destruct (main_net_forward_shape a n rot None Hn Hd Hdd Hhid Hmode Hr)
      as (decoder & out & Hnet & Hf & Ho).
    { assert (negb (Supervised.a_single_id a =? 0) = true) as ->
        by (apply negb_true_iff, Z.eqb_neq; exact E0). reflexivity. }
    exists decoder. eexists. split; [exact Hnet|]. split; [exact Henc|].
    split; [|intros ?; contradiction].
    intros _. exists out. rewrite Hrec, Hs. split; assumption.
Qed.

(** [--mode mlp --mlp_mode Q --single_id 0 --id_dims 5 --ae 1], two images. *)
Lemma autoencoder_reconstruction_shape_witness :
  let a := {| Supervised.a_mode := "mlp"; Supervised.a_mlp_mode := "Q";
              Supervised.a_degrees := 3; Supervised.a_deconv_hidden := 50;
              Supervised.a_id_dims := 5; Supervised.a_data_dims := 10;
              Supervised.a_single_id := 0;
              Supervised.a_harmonics_encoder_layers := 3 |} in
  let img := {| Torch.shape := [2; 64; 64]; Torch.val := Torch.Var "img" |} in
  let labels := [3; 7] in
  let rots := {| Torch.shape := [2; 3; 3]; Torch.val := Torch.Var "rot" |} in
  exists decoder encoder out,
    Supervised.main_net a = Ok decoder /\
    SupervisedRun.main_encoder 1 a = Ok (Some encoder) /\
    SupervisedRun.reconstruction decoder (Some encoder) false labels rots img = Ok out /\
    Torch.shape out = [2; 64; 64].
Proof.
  intros a img labels rots.
  destruct (autoencoder_reconstruction_shape a 1 2 labels rots img)
    as (decoder & encoder & Hnet & Henc & Hok & _).
  - lia.
  - lia.
  - cbn. lia.
  - cbn. lia.
  - cbn. lia.
  - cbn. lia.
  - right. split; [reflexivity|]. right. left. reflexivity.
  - reflexivity.
  - destruct Hok as (out & Hrec & Hsh); [right; cbn; lia|].
    exists decoder, encoder, out. repeat split; assumption.
Defined.

(** ** Labels as identity codes *)

Section LabelCodes.
Import Torch NN Supervised SupervisedRun Widths.

(** The rows of the identity are indexed like a list of ten entries. *)
Lemma eye10_rows_ok (item_label : list Z) :
  Forall (fun i => -10 <= i < 10) item_label ->
  exists code,
    eye10_rows item_label = Ok code /\
    shape code = [Z.of_nat (length item_label); 10].
Proof.
  intros H. unfold eye10_rows.
  assert (List.find (fun i => negb ((-10 <=? i) && (i <? 10))) item_label = None) as ->.
  { induction H as [|i l Hi _ IH]; [reflexivity|]. cbn [List.find].
    assert ((-10 <=? i) && (i <? 10) = true) as ->
      by (apply andb_true_iff; rewrite Z.leb_le, Z.ltb_lt; lia).
    exact IH. }
  eexists. split; reflexivity.
Qed.

Lemma eye10_rows_out_of_range (item_label : list Z) :
  Exists (fun i => i < -10 \/ 10 <= i) item_label ->
  eye10_rows item_label
    = Raise IndexError "index is out of bounds for dimension 0 with size 10".
Proof.
  intros H. unfold eye10_rows.
  destruct (List.find (fun i => negb ((-10 <=? i) && (i <? 10))) item_label)
    as [i|] eqn:E; [reflexivity|].
  exfalso. induction H as [i l Hi | i l _ IH]; cbn [List.find] in E.
  - assert ((-10 <=? i) && (i <? 10) = false) as Hb
      by (apply andb_false_iff; rewrite Z.leb_gt, Z.ltb_ge; lia).
    rewrite Hb in E. discriminate E.
  - destruct (negb ((-10 <=? i) && (i <? 10))); [discriminate E | exact (IH E)].
Qed.

(** A label of the script's [SelectedDataset] is a position in its list
    of names. *)
Lemma SelectedDataset_label_range (L : Lib) (self : SelectedDataset) (idx i : Z)
    (g im : tensor) :
  SelectedDataset_init L = Ok self ->
  SelectedDataset_getitem L self idx = Ok (i, g, im) ->
  0 <= i < Z.of_nat (length (SupervisedRun.name self)).
Proof.
  unfold SelectedDataset_init, SelectedDataset_getitem.
  destruct (open_read L _) as [content|]; [|discriminate].
  cbn [mbind result_bind]. intros [= <-]. cbn [base SupervisedRun.map SupervisedRun.name].
  destruct (ShapeDataset_getitem L _ idx) as [[[nm g'] im']|]; [|discriminate].
  cbn [mbind result_bind].
  destruct (Datasets.enumerate_map (PyStr.findall_obj content) !! nm) as [j|] eqn:E;
    [|discriminate].
  intros [= -> _ _].
  apply enumerate_map_Some in E as (k & -> & Hk & _).
  apply lookup_lt_Some in Hk. lia.
Qed.

(** A decoder built for several objects fails on an identity code of
    another width than [--id_dims]: the first linear layer refuses it. *)
Lemma main_net_wrong_code (a : args) (n k : Z) (rot d : tensor) :
  a_single_id a = 0 -> 0 < n -> 0 <= a_data_dims a -> 0 <= a_deconv_hidden a ->
  a_mode a = "action" \/
    (a_mode a = "mlp" /\
     (a_mlp_mode a = "MAT" \/ a_mlp_mode a = "Q" \/ a_mlp_mode a = "EA")) ->
  shape rot = [n; 3; 3] -> shape d = [n; k] -> k <> a_id_dims a ->
  exists decoder,
    main_net a = Ok decoder /\
    raises (net_forward decoder rot (Some d)) RuntimeError.
Proof.
  intros Hs Hn Hdd Hhid Hmode Hr Hd Hk. unfold main_net. rewrite Hs.
  assert (0 <= (a_degrees a + 1) ^ 2) by (rewrite Z.pow_2_r; nia).
  rewrite DeconvNet_init_ok by nia. cbn [mbind result_bind].
  change (negb (0 =? 0)) with false.
  destruct Hmode as [-> | [-> Hm]].
  - change (String.eqb "action" "action") with true. cbv iota.
    eexists. split; [reflexivity|].
    cbn [net_forward]. unfold ActionNet.forward.
    cbn [ActionNet.item_rep ActionNet.harmonics_encoder].
    rewrite bool_decide_true by discriminate.
    rewrite bool_decide_false by (intros H'; apply H'; reflexivity).
    cbn [eqb negb py_assert mbind result_bind].
    unfold size0. rewrite Hr. cbn [mbind result_bind].
    unfold MLP_forward. rewrite Hd. change (reverse [n; k]) with [k; n].
    cbn [input_dims].
    assert ((k =? a_id_dims a) = false) as -> by (apply Z.eqb_neq; exact Hk).
    cbn [mbind result_bind]. eexists. reflexivity.
  - change (String.eqb "mlp" "action") with false.
    change (String.eqb "mlp" "mlp") with true. cbv iota.
    rewrite MLPNet_init_accepted by exact Hm.
    eexists. split; [reflexivity|].
    cbn [net_forward]. unfold MLPNet.forward.
    cbn [MLPNet.single_id MLPNet.mode MLPNet.mlp MLPNet.deconv negb].
    rewrite bool_decide_false by discriminate.
    cbn [eqb negb py_assert mbind result_bind].
    unfold size0. rewrite Hr. cbn [mbind result_bind].
    destruct (rotation_features_shape (a_mlp_mode a) rot n Hr) as (x & -> & Hx).
    cbn [mbind result_bind].
    rewrite (view_infer_last d n k) by (try lia; rewrite Hd; cbn [numel foldr]; lia).
    cbn [mbind result_bind]. unfold cat1. rewrite Hx. cbn [shape].
    rewrite Z.eqb_refl, bool_decide_true by reflexivity.
    cbn [andb mbind result_bind]. unfold MLP_forward. cbn [shape input_dims].
    change (reverse [n; mode_width (a_mlp_mode a) + k])
      with [mode_width (a_mlp_mode a) + k; n].
    cbv iota beta.
    assert ((mode_width (a_mlp_mode a) + k =? mode_width (a_mlp_mode a) + a_id_dims a)
            = false) as -> by (apply Z.eqb_neq; lia).
    cbn [mbind result_bind]. eexists. reflexivity.
Qed.

End LabelCodes.

(** X10.  Without [--ae], for several objects ([--single_id 0]), the
    identity code of an item is the row of the 10x10 identity that its
    label selects, whatever [--id_dims] says, while the decoder is built
    for [--id_dims] entries.  A batch with a label outside [-10, 9] raises
    [IndexError] in [encode]; the labels of a [SelectedDataset] are
    positions in its list of names, so they are in range when at most
    ten names are listed.  For labels in range the decoder returns the 64x64 images
    for [--id_dims 10] (the default) and fails in its first linear layer
    for every other value.  The multi-layer perceptron is the one
    modelled in [NN.MLP]. *)
Theorem labelled_decoder_needs_ten_id_dims (a : Supervised.args) (n : Z)
    (item_label : list Z) (rot_label img : Torch.tensor) :
  Supervised.a_single_id a = 0 -> 0 < n ->
  0 <= Supervised.a_degrees a -> 0 < Supervised.a_data_dims a ->
  0 < Supervised.a_deconv_hidden a ->
  Supervised.a_mode a = "action" \/
    (Supervised.a_mode a = "mlp" /\
     (Supervised.a_mlp_mode a = "MAT" \/ Supervised.a_mlp_mode a = "Q" \/
      Supervised.a_mlp_mode a = "EA")) ->
  Z.of_nat (length item_label) = n -> Torch.shape rot_label = [n; 3; 3] ->
  (exists decoder,
     Supervised.main_net a = Ok decoder /\
     SupervisedRun.main_encoder 0 a = Ok None /\
     (Exists (fun i => i < -10 \/ 10 <= i) item_label ->
      SupervisedRun.reconstruction decoder None false item_label rot_label img
        = Raise IndexError "index is out of bounds for dimension 0 with size 10") /\
     (Forall (fun i => -10 <= i < 10) item_label ->
      (Supervised.a_id_dims a = 10 ->
       exists out,
         SupervisedRun.reconstruction decoder None false item_label rot_label img
           = Ok out /\
         Torch.shape out = [n; 64; 64]) /\
      (Supervised.a_id_dims a <> 10 ->
       raises (SupervisedRun.reconstruction decoder None false item_label rot_label img)
         RuntimeError))) /\
  (forall L self idx i g im,
     SupervisedRun.SelectedDataset_init L = Ok self ->
     SupervisedRun.SelectedDataset_getitem L self idx = Ok (i, g, im) ->
     0 <= i < Z.of_nat (length (SupervisedRun.name self))).
Proof.
  intros Hs Hn Hd Hdd Hhid Hmode Hl Hr.
  split; [|intros L self idx i g im; apply SelectedDataset_label_range].
  assert (exists decoder, Supervised.main_net a = Ok decoder) as [decoder Hnet].
  { destruct (main_net_forward_shape a n rot_label
                (Some {| Torch.shape := [n; Supervised.a_id_dims a];
                         Torch.val := Torch.Var "code" |}) Hn Hd Hdd Hhid Hmode Hr)
      as (decoder & _ & Hnet & _); [|eauto].
    rewrite Hs. change (negb (0 =? 0)) with false. cbv iota. eauto. }
  exists decoder. split; [exact Hnet|]. split; [reflexivity|].
  unfold SupervisedRun.reconstruction, SupervisedRun.encode. cbn [negb].
  split.
  - intros Hbad. rewrite (eye10_rows_out_of_range _ Hbad). reflexivity.
  - intros Hok. destruct (eye10_rows_ok _ Hok) as (code & -> & Hcode).
    cbn [mbind result_bind]. rewrite Hl in Hcode.
    split.
    + intros E.
      destruct (main_net_forward_shape a n rot_label (Some code) Hn Hd Hdd Hhid Hmode Hr)
        as (decoder' & out & Hnet' & Hf & Ho).
      { rewrite Hs. change (negb (0 =? 0)) with false. cbv iota.
        eexists. split; [reflexivity|]. rewrite E. exact Hcode. }
      assert (decoder' = decoder) as -> by congruence.
      exists out. split; assumption.
    + intros E.
      destruct (main_net_wrong_code a n 10 rot_label code Hs Hn ltac:(lia) ltac:(lia)
                  Hmode Hr Hcode) as (decoder' & Hnet' & Hf); [congruence|].
      assert (decoder' = decoder) as -> by congruence.
      exact Hf.
Qed.

(** [--mode action --single_id 0 --id_dims 16]: a batch with the labels 3
    and 7 fails in the decoder, a batch with the label 10 in [encode]. *)
Lemma labelled_decoder_needs_ten_id_dims_witness :
  let a := {| Supervised.a_mode := "action"; Supervised.a_mlp_mode := "MAT";
              Supervised.a_degrees := 3; Supervised.a_deconv_hidden := 50;
              Supervised.a_id_dims := 16; Supervised.a_data_dims := 10;
              Supervised.a_single_id := 0;
              Supervised.a_harmonics_encoder_layers := 3 |} in
  let img := {| Torch.shape := [2; 64; 64]; Torch.val := Torch.Var "img" |} in
  let rots := {| Torch.shape := [2; 3; 3]; Torch.val := Torch.Var "rot" |} in
  (exists decoder,
     Supervised.main_net a = Ok decoder /\
     raises (SupervisedRun.reconstruction decoder None false [3; 7] rots img) RuntimeError) /\
  (exists decoder,
     Supervised.main_net a = Ok decoder /\
     raises (SupervisedRun.reconstruction decoder None false [3; 10] rots img) IndexError).
Proof.
  intros a img rots. split.
  - destruct (labelled_decoder_needs_ten_id_dims a 2 [3; 7] rots img)
      as ((decoder & Hnet & _ & _ & Hin) & _);
      [reflexivity | lia | cbn; lia | cbn; lia | cbn; lia | left; reflexivity
      | reflexivity | reflexivity |].
    exists decoder. split; [exact Hnet|].
    apply Hin; [repeat constructor; lia | cbn; lia].
  - destruct (labelled_decoder_needs_ten_id_dims a 2 [3; 10] rots img)
      as ((decoder & Hnet & _ & Hout & _) & _);
      [reflexivity | lia | cbn; lia | cbn; lia | cbn; lia | left; reflexivity
      | reflexivity | reflexivity |].
    exists decoder. split; [exact Hnet|].
    rewrite Hout; [eexists; reflexivity|].
    apply Exists_cons_tl, Exists_cons_hd. lia.
Defined.

(** X11.  The first statement of both decoders is the assertion on the
    identity code.  A decoder that [main] has built refuses, before it
    looks at the rotations, a call without identity code when it was built
    for several objects, and a call with one when it was built for a
    single object. *)
Theorem decoder_identity_code_assertion (a : Supervised.args)
    (decoder : Supervised.net) (rot : Torch.tensor)
    (id_data : option Torch.tensor) :
  Supervised.main_net a = Ok decoder ->
  (id_data = None <-> Supervised.a_single_id a = 0) ->
  Supervised.net_forward decoder rot id_data
    = Raise AssertionError "Either must be single id or provide id_data, not both.".
Proof.
  unfold Supervised.main_net. intros Hnet Hmis.
  destruct (Supervised.DeconvNet_init _ _) as [layers|]; [|discriminate].
  cbn [mbind result_bind] in Hnet.
  destruct (String.eqb (Supervised.a_mode a) "action").
  - unfold Supervised.ActionNet.init in Hnet.
    destruct (Z.eqb_spec (Supervised.a_single_id a) 0) as [E | E]; cbn [negb] in Hnet.
    + cbn [fmap result_fmap] in Hnet. injection Hnet as <-.
      rewrite (proj2 Hmis E). reflexivity.
    + destruct (Supervised.ActionNet.randn_parameter _ _ _) as [p | k msg];
        cbn [mbind result_bind fmap result_fmap] in Hnet; [|discriminate].
      injection Hnet as <-.
      destruct id_data as [d|]; [reflexivity|]. exfalso. apply E, Hmis. reflexivity.
  - destruct (String.eqb (Supervised.a_mode a) "mlp"); [|discriminate].
    unfold Supervised.MLPNet.init in Hnet.
    destruct (Supervised.MLPNet.mode_dims !! Supervised.a_mlp_mode a) as [dims|];
      cbn [fmap result_fmap] in Hnet; [|discriminate].
    injection Hnet as <-.
    destruct (Z.eqb_spec (Supervised.a_single_id a) 0) as [E | E]; cbn [negb].
    + rewrite (proj2 Hmis E). reflexivity.
    + destruct id_data as [d|]; [reflexivity|]. exfalso. apply E, Hmis. reflexivity.
Qed.

(** The default single-object decoder, called with an identity code. *)
Lemma decoder_identity_code_assertion_witness :
  let a := {| Supervised.a_mode := "mlp"; Supervised.a_mlp_mode := "MAT";
              Supervised.a_degrees := 3; Supervised.a_deconv_hidden := 50;
              Supervised.a_id_dims := 10; Supervised.a_data_dims := 10;
              Supervised.a_single_id := 1;
              Supervised.a_harmonics_encoder_layers := 3 |} in
  let rots := {| Torch.shape := [2; 3; 3]; Torch.val := Torch.Var "rot" |} in
  let code := {| Torch.shape := [2; 10]; Torch.val := Torch.Var "code" |} in
  exists decoder,
    Supervised.main_net a = Ok decoder /\
    Supervised.net_forward decoder rots (Some code)
      = Raise AssertionError "Either must be single id or provide id_data, not both.".
Proof.
  intros a rots code. eexists. split; [reflexivity|].
  apply (decoder_identity_code_assertion a); [reflexivity|].
  split; [discriminate|]. cbn. lia.
Defined.

(** ** [main]: when checkpoints are written and when the loop can break *)

Section LoopModes.
Import Main EarlyStop.
Variable W : World.
Variable a : args.

(** Without a save directory the body of the loop is [train] alone. *)
Lemma loop_no_save_dir (todo : list Z) : forall st : loop_state W,
  save_dir_set a = false -> stopped st = None ->
  training_loop W a todo st
    = {| exp := exp_after W (exp st) todo;
         early_stop_counter := early_stop_counter st;
         saved := saved st; stopped := None |}.
Proof.
  induction todo as [|ep todo IH]; intros st Hsave Hst.
  - cbn [training_loop exp_after foldl]. destruct st; cbn in *. congruence.
  - rewrite loop_cons, Hsave. cbn [negb]. cbv zeta.
    rewrite IH by (assumption || reflexivity). reflexivity.
Qed.

(** With a save directory and no limit every epoch writes the checkpoint. *)
Lemma loop_no_limit (todo : list Z) : forall st : loop_state W,
  save_dir_set a = true -> max_early_stop a = None -> stopped st = None ->
  training_loop W a todo st
    = {| exp := exp_after W (exp st) todo;
         early_stop_counter := early_stop_counter st;
         saved := (saved st ++ todo)%list; stopped := None |}.
Proof.
  induction todo as [|ep todo IH]; intros st Hsave Hmax Hst.
  - cbn [training_loop exp_after foldl]. rewrite app_nil_r.
    destruct st; cbn in *. congruence.
  - rewrite loop_cons, Hsave, Hmax. cbn [negb]. cbv zeta.
    rewrite bool_decide_eq_true_2 by reflexivity. cbn [orb].
    rewrite IH by (assumption || reflexivity).
    cbn [exp early_stop_counter saved]. rewrite <- app_assoc. reflexivity.
Qed.

(** What the loop keeps true with a save directory and a limit [k]: the
    counter stays between its start and the limit; as long as the loop
    runs, every epoch either wrote the checkpoint or was counted. *)
Lemma loop_account (k : Z) (todo : list Z) : forall st : loop_state W,
  save_dir_set a = true -> max_early_stop a = Some k -> stopped st = None ->
  let final := training_loop W a todo st in
  early_stop_counter st <= early_stop_counter final
    <= Z.max (early_stop_counter st) k /\
  (stopped final = None ->
   early_stop_counter final = early_stop_counter st + stalled_count W (exp st) todo /\
   Z.of_nat (length (saved final)) + early_stop_counter final
     = Z.of_nat (length (saved st)) + early_stop_counter st + Z.of_nat (length todo)) /\
  (forall epoch, stopped final = Some epoch ->
   early_stop_counter final = Z.max (early_stop_counter st) k).
Proof.
  induction todo as [|ep todo IH]; intros st Hsave Hmax Hst; cbv zeta.
  - cbn [training_loop stalled_count length]. rewrite Hst.
    split; [lia|]. split; [intros _; lia | discriminate].
  - rewrite (loop_cons_limit W a k Hsave Hmax). cbv zeta.
    cbn [stalled_count length].
    destruct (improved W (exp st) ep).
    + specialize (IH {| exp := train W (exp st) ep;
                        early_stop_counter := early_stop_counter st;
                        saved := saved st ++ [ep]; stopped := None |}
                    Hsave Hmax eq_refl).
      cbv zeta in IH. cbn [exp early_stop_counter saved] in IH.
      rewrite length_app in IH. cbn [length] in IH.
      destruct IH as (H1 & H2 & H3). split; [exact H1|]. split.
      * intros Hn. specialize (H2 Hn). lia.
      * exact H3.
    + destruct (Z.ltb_spec (early_stop_counter st) k) as [Hlt | Hge].
      * specialize (IH {| exp := train W (exp st) ep;
                          early_stop_counter := early_stop_counter st + 1;
                          saved := saved st; stopped := None |}
                      Hsave Hmax eq_refl).
        cbv zeta in IH. cbn [exp early_stop_counter saved] in IH.
        destruct IH as (H1 & H2 & H3). split; [lia|]. split.
        -- intros Hn. specialize (H2 Hn). lia.
        -- intros epoch Hs. rewrite (H3 epoch Hs). lia.
      * cbn [early_stop_counter stopped saved]. split; [lia|]. split.
        -- discriminate.
        -- intros epoch _. lia.
Qed.

End LoopModes.

(** X12.  Early stopping needs both a save directory and a limit.
    Without [--save_dir] and [--name] (the default) the loop trains on
    every epoch, writes nothing and never breaks, whatever
    [--max_early_stop] is; with a directory and [max_early_stop = None]
    it trains on every epoch and writes the checkpoint after each.  A
    [--name] always gives a save directory. *)
Theorem early_stopping_needs_save_dir_and_limit (W : Main.World)
    (parsed : Main.args) (e0 : Main.experiment_state W) (todo : list Z) :
  let a := Main.with_name parsed in
  (Main.save_dir_set a = false ->
   Main.training_loop W a todo (EarlyStop.start W e0)
     = {| Main.exp := EarlyStop.exp_after W e0 todo; Main.early_stop_counter := 0;
          Main.saved := []; Main.stopped := None |}) /\
  (Main.save_dir_set a = true -> Main.max_early_stop a = None ->
   Main.training_loop W a todo (EarlyStop.start W e0)
     = {| Main.exp := EarlyStop.exp_after W e0 todo; Main.early_stop_counter := 0;
          Main.saved := todo; Main.stopped := None |}) /\
  (Main.name parsed = None -> Main.save_dir a = Main.save_dir parsed) /\
  (forall n, Main.name parsed = Some n ->
     Main.save_dir a = Some ("outputs/" ++ n) /\
     Main.log_dir a = Some ("runs/" ++ n) /\
     Main.save_dir_set a = true).
Proof.
  intros a. split; [|split; [|split]].
  - intros Hsave. apply loop_no_save_dir; [exact Hsave | reflexivity].
  - intros Hsave Hmax.
    rewrite loop_no_limit by (assumption || reflexivity). reflexivity.
  - intros Hn. subst a. unfold Main.with_name. rewrite Hn. reflexivity.
  - intros n Hn. subst a. unfold Main.save_dir_set, Main.with_name. rewrite Hn.
    cbn [Main.save_dir Main.log_dir]. repeat split.
Qed.

(** The defaults, five epochs, a best value that never changes. *)
Lemma early_stopping_needs_save_dir_and_limit_witness :
  let W := Examples.world [5; 5; 5; 5; 5; 5] in
  let parsed := Examples.command_line "chairs" "unsupervised" None None
                  None (Some 1) 5 in
  Main.training_loop W (Main.with_name parsed) [0; 1; 2; 3; 4]
    (EarlyStop.start W [5; 5; 5; 5; 5; 5])
  = Main.Build_loop_state W [5] 0 [] None.
Proof.
  intros W parsed.
  destruct (early_stopping_needs_save_dir_and_limit W parsed [5; 5; 5; 5; 5; 5]
              [0; 1; 2; 3; 4]) as (H & _).
  rewrite H; reflexivity.
Defined.

(** X13.  With a save directory and [max_early_stop = k], the early-stop
    counter of [main]'s loop stays between 0 and [max(0, k)].  While the
    loop has not broken, it equals the number of epochs that left the
    best value unchanged, and every epoch either wrote the checkpoint or
    was counted; when the loop breaks, the counter is [max(0, k)]. *)
Theorem early_stop_accounting (W : Main.World) (parsed : Main.args)
    (e0 : Main.experiment_state W) (todo : list Z) (k : Z) :
  let a := Main.with_name parsed in
  let final := Main.training_loop W a todo (EarlyStop.start W e0) in
  Main.save_dir_set a = true -> Main.max_early_stop a = Some k ->
  0 <= Main.early_stop_counter final <= Z.max 0 k /\
  (Main.stopped final = None ->
   Main.early_stop_counter final = EarlyStop.stalled_count W e0 todo /\
   Z.of_nat (length (Main.saved final)) + Main.early_stop_counter final
     = Z.of_nat (length todo)) /\
  (forall epoch, Main.stopped final = Some epoch ->
   Main.early_stop_counter final = Z.max 0 k).
Proof.
  intros a final Hsave Hmax.
  destruct (loop_account W a k todo (EarlyStop.start W e0) Hsave Hmax eq_refl)
    as (H1 & H2 & H3).
  cbn [EarlyStop.start Main.early_stop_counter Main.saved Main.exp length] in H1, H2, H3.
  fold final in H1, H2, H3. split; [exact H1|]. split.
  - intros Hn. specialize (H2 Hn). lia.
  - exact H3.
Qed.

(** A limit of one, the run of three stalled epochs out of five. *)
Lemma early_stop_accounting_witness :
  let W := Examples.world [5; 5; 4; 4; 3] in
  let parsed := Examples.command_line "chairs" "unsupervised" None None
                  (Some "out") (Some 1) 5 in
  let final := Main.training_loop W (Main.with_name parsed) [0; 1; 2; 3; 4]
                 (EarlyStop.start W [5; 5; 4; 4; 3]) in
  Main.stopped final = Some 2 /\ Main.early_stop_counter final = 1.
Proof.
  intros W parsed final.
  destruct (early_stop_accounting W parsed [5; 5; 4; 4; 3] [0; 1; 2; 3; 4] 1
              eq_refl eq_refl) as (_ & _ & H).
  split; [reflexivity|]. apply (H 2). reflexivity.
Defined.

(** ** [main]: what a returning run was started with *)

Section MainReturns.
Import Main.
Variable W : World.

Lemma with_name_more_fields (a : args) :
  mlp_activation (with_name a) = mlp_activation a /\
  continue_epoch (with_name a) = continue_epoch a /\
  epochs (with_name a) = epochs a /\
  max_early_stop (with_name a) = max_early_stop a /\
  fixed_spectrum (with_name a) = fixed_spectrum a.
Proof. unfold with_name. destruct (name a); repeat split. Qed.

(** The dataset names for which a dataset object is made. *)
Lemma select_dataset_inv (a : args) (d : dataset_handle) (item_rep : option Torch.tensor) :
  select_dataset W a = Ok (d, item_rep) ->
  (dataset a = "objects" \/ dataset a = "objects3" \/ dataset a = "chairs" \/
   dataset a = "spherecube" \/ dataset a = "toy") /\
  (item_rep <> None -> dataset a = "toy" /\ fixed_spectrum a = true).
Proof.
  unfold select_dataset.
  destruct (String.eqb_spec (dataset a) "objects") as [E | _].
  { destruct (Datasets.construct _ _ _); [|discriminate].
    cbn [mbind result_bind]. intros [= <- <-]. split; [tauto | congruence]. }
  destruct (String.eqb_spec (dataset a) "objects3") as [E | _].
  { destruct (Datasets.construct _ _ _); [|discriminate].
    cbn [mbind result_bind]. intros [= <- <-]. split; [tauto | congruence]. }
  destruct (String.eqb_spec (dataset a) "chairs") as [E | _].
  { destruct (Datasets.construct _ _ _); [|discriminate].
    cbn [mbind result_bind]. intros [= <- <-]. split; [tauto | congruence]. }
  destruct (String.eqb_spec (dataset a) "humanoid") as [E | _].
  { rewrite subsample_rejected by discriminate. discriminate. }
  destruct (String.eqb_spec (dataset a) "chumanoid") as [E | _].
  { rewrite subsample_rejected by discriminate. discriminate. }
  destruct (String.eqb_spec (dataset a) "single") as [E | _].
  { rewrite subsample_rejected by discriminate. discriminate. }
  destruct (String.eqb_spec (dataset a) "spherecube") as [E | _].
  { destruct (SphereCubeDataset W _); [|discriminate].
    cbn [mbind result_bind]. intros [= <- <-]. split; [tauto | congruence]. }
  destruct (String.eqb_spec (dataset a) "toy") as [E | _]; [|discriminate].
  destruct (ToyDataset W _) as [t|]; [|discriminate]. cbn [mbind result_bind].
  destruct (fixed_spectrum a).
  - destruct (h_getitem t 0); [|discriminate]. cbn [mbind result_bind].
    intros [= <- <-]. split; [tauto | auto].
  - intros [= <- <-]. split; [tauto | congruence].
Qed.

End MainReturns.

(** X14.  [main()] returns only for a command line whose [--dataset] is
    one of objects, objects3, chairs, spherecube and toy, whose
    [--mlp_activation] is one of relu, softplus and tanh, whose
    [--experiment] is unsupervised or semi, whose [--continuity_iscale] is
    not zero and which, when it continues from an epoch above 0, names a
    directory to load the model from.  Every other command line ends in
    an exception. *)
Theorem main_returns_only_if (W : Main.World) (parsed : Main.args)
    (o : Main.outcome W) :
  Main.main W parsed = Ok o ->
  (Main.dataset parsed = "objects" \/ Main.dataset parsed = "objects3" \/
   Main.dataset parsed = "chairs" \/ Main.dataset parsed = "spherecube" \/
   Main.dataset parsed = "toy") /\
  (Main.mlp_activation parsed = "relu" \/ Main.mlp_activation parsed = "softplus" \/
   Main.mlp_activation parsed = "tanh") /\
  (Main.experiment parsed = "unsupervised" \/ Main.experiment parsed = "semi") /\
  ~ (Main.continuity_iscale parsed == 0)%Q /\
  (0 < Main.continue_epoch parsed ->
   Main.name parsed <> None \/ Main.save_dir parsed <> None).
Proof.
  unfold Main.main.
  destruct (with_name_fields parsed)
    as (Hds & Hex & _ & _ & _ & Hci & _).
  destruct (with_name_more_fields parsed) as (Hact & Hce & _).
  set (a' := Main.with_name parsed) in *.
  destruct (Main.select_dataset W a') as [[d item_rep]|] eqn:E1; [|discriminate].
  cbn [mbind result_bind].
  destruct (Main.h_len d =? 0); [discriminate|]. cbn [mbind result_bind].
  destruct (bool_decide (Main.mlp_activation a' ∈ Main.mlp_activations)) eqn:E2;
    [|discriminate].
  cbn [mbind result_bind].
  destruct (Main.ChairsVAE W a' _ _ item_rep); [|discriminate].
  cbn [mbind result_bind].
  destruct (if 0 <? Main.continue_epoch a' then _ else _) eqn:E3; [|discriminate].
  cbn [mbind result_bind].
  destruct (Main.random_split W _ _); [|discriminate].
  cbn [mbind result_bind].
  destruct (Main.select_experiment a') as [[cls ekw]|] eqn:E4; [|discriminate].
  cbn [mbind result_bind].
  destruct (Main.experiment_kwargs a' _ ekw) as [kw|] eqn:E5; [|discriminate].
  intros _.
  split.
  { apply select_dataset_inv in E1 as [E1 _]. rewrite Hds in E1. exact E1. }
  split.
  { apply bool_decide_eq_true_1 in E2. rewrite Hact in E2.
    unfold Main.mlp_activations in E2.
    rewrite !elem_of_cons in E2. rewrite elem_of_nil in E2. tauto. }
  split.
  { apply select_experiment_cases in E4 as [(E & _) | (E & _)];
      rewrite Hex in E; tauto. }
  split.
  { unfold Main.experiment_kwargs in E5. rewrite Hci in E5.
    destruct (Qeq_bool (Main.continuity_iscale parsed) 0) eqn:Eq; [discriminate|].
    intros Hz. apply Qeq_bool_iff in Hz. congruence. }
  intros Hpos. rewrite Hce in E3.
  assert ((0 <? Main.continue_epoch parsed) = true) as Hlt by (apply Z.ltb_lt; exact Hpos).
  rewrite Hlt in E3.
  destruct (Main.name parsed) as [n|] eqn:En; [left; discriminate|].
  right. intros Hsd. subst a'. unfold Main.with_name in E3. rewrite En, Hsd in E3.
  discriminate.
Qed.

(** The chairs with the default options, two epochs. *)
Lemma main_returns_only_if_witness :
  let a := Examples.command_line "chairs" "unsupervised" None None None (Some 50) 2 in
  exists o,
    Main.main (Examples.world [5; 4; 4]) a = Ok o /\
    ~ (Main.continuity_iscale a == 0)%Q.
Proof.
  intros a.
  destruct (Main.main (Examples.world [5; 4; 4]) a) as [o | k msg] eqn:Ho;
    [|vm_compute in Ho; discriminate Ho].
  exists o. split; [reflexivity|].
  apply (main_returns_only_if _ _ _ Ho).
Defined.

(** ** The two copies of [ShapeDataset] *)

Section ScriptCopy.
Import Torch.
Variable L : Lib.

(** [supervised_experiment.py] has its own [ShapeDataset]; on a globbed
    directory of colour images it yields the items of the library's class
    of the same name, without the leading channel dimension. *)
Lemma script_getitem_agrees (self : Datasets.dataset)
    (self' : Supervised.ShapeDataset) (idx : Z) :
  Datasets.root self = None ->
  Datasets.files self = Supervised.files self' ->
  Datasets.cls self = Datasets.ShapeDataset \/
    Datasets.cls self = Datasets.SelectedDataset ->
  (forall filename sh,
     py_index (Datasets.files self) idx = Ok filename ->
     image_shape L filename = Ok sh -> length sh = 3%nat) ->
  Datasets.ShapeDataset_getitem L self idx
    = (fun '(n, g, img) => (Datasets.NameStr n, g, unsqueeze0 img))
        <$> Supervised.ShapeDataset_getitem L self' idx.
Proof.
  intros Hroot Hfiles Hcls Hcol.
  unfold Datasets.ShapeDataset_getitem, Supervised.ShapeDataset_getitem.
  rewrite <- Hfiles.
  destruct (py_index (Datasets.files self) idx) as [filename | k msg] eqn:Ei;
    [|reflexivity].
  cbn [mbind result_bind]. unfold Datasets.item_path. rewrite Hroot.
  unfold Datasets.Image_open.
  destruct (image_shape L filename) as [sh | k msg] eqn:Es; [|reflexivity].
  cbn [mbind result_bind].
  change (Supervised.filename_to_quaternion filename)
    with (Datasets.filename_to_quaternion filename).
  destruct (Datasets.filename_to_quaternion filename) as [q | k msg]; [|reflexivity].
  cbn [mbind result_bind].
  assert (Datasets.rgb (Datasets.cls self) = false) as ->
    by (destruct Hcls as [-> | ->]; reflexivity).
  cbn [negb]. unfold dim. cbn [shape div_scalar to_float32].
  rewrite (Hcol filename sh eq_refl Es). change (Z.of_nat 3 =? 3) with true. cbv iota.
  cbn [mbind result_bind].
  assert (Datasets.filename_to_name (Datasets.cls self) filename
          = match PyStr.search_obj filename with
            | Some n => Ok (Datasets.NameStr n)
            | None => Raise AssertionError "Could not find object id from filename"
            end) as -> by (destruct Hcls as [-> | ->]; reflexivity).
  destruct (PyStr.search_obj filename); reflexivity.
Qed.

End ScriptCopy.

(** X15.  The [ShapeDataset] and [SelectedDataset] that
    [supervised_experiment.py] defines for itself agree with the classes of
    the same names in [lie_vae/datasets.py] on a directory without
    [files.txt] that holds colour images: the same items under the same
    indices, the same exceptions, the same labels; only the image of the
    script's copy lacks the leading channel dimension. *)
Theorem script_datasets_agree (L : Lib) :
  (forall directory,
     os_path_exists L (PyStr.os_path_join directory "files.txt") = false ->
     exists self,
       Datasets.ShapeDataset_init L Datasets.ShapeDataset directory = Ok self /\
       Datasets.len self
         = Z.of_nat (length (Supervised.files (Supervised.ShapeDataset_init L directory))) /\
       forall idx,
         (forall filename sh,
            py_index (Datasets.files self) idx = Ok filename ->
            image_shape L filename = Ok sh -> length sh = 3%nat) ->
         Datasets.getitem L self idx
           = (fun '(n, g, img) => (Datasets.NameStr n, g, Torch.unsqueeze0 img))
               <$> Supervised.ShapeDataset_getitem L
                     (Supervised.ShapeDataset_init L directory) idx) /\
  (os_path_exists L (PyStr.os_path_join "data/chairs/ten" "files.txt") = false ->
   match Datasets.NamedDataset_init L Datasets.SelectedDataset,
         SupervisedRun.SelectedDataset_init L with
   | Ok self, Ok self' =>
       Datasets.name self = SupervisedRun.name self' /\
       forall idx,
         (forall filename sh,
            py_index (Datasets.files self) idx = Ok filename ->
            image_shape L filename = Ok sh -> length sh = 3%nat) ->
         Datasets.getitem L self idx
           = (fun '(i, g, img) => (Datasets.NameInt i, g, Torch.unsqueeze0 img))
               <$> SupervisedRun.SelectedDataset_getitem L self' idx
   | Raise k msg, Raise k' msg' => k = k' /\ msg = msg'
   | _, _ => False
   end).
Proof.
  split.
  - intros directory Hex. unfold Datasets.ShapeDataset_init. rewrite Hex.
    eexists. split; [reflexivity|]. split; [reflexivity|].
    intros idx Hcol. unfold Datasets.getitem. cbn [Datasets.cls Datasets.is_named].
    apply script_getitem_agrees; [reflexivity | reflexivity | left; reflexivity | exact Hcol].
  - intros Hex.
    unfold Datasets.NamedDataset_init, SupervisedRun.SelectedDataset_init.
    cbn [Datasets.data_path Datasets.names_path].
    unfold Datasets.ShapeDataset_init. rewrite Hex. cbn [mbind result_bind].
    destruct (open_read L "data/chairs/selected_chairs.txt") as [content | k msg];
      cbn [mbind result_bind]; [|split; reflexivity].
    split; [reflexivity|].
    intros idx Hcol. unfold Datasets.getitem. cbn [Datasets.cls Datasets.is_named].
    unfold Datasets.NamedDataset_getitem, SupervisedRun.SelectedDataset_getitem.
    cbn [SupervisedRun.base Datasets.map SupervisedRun.map].
    rewrite (script_getitem_agrees L _ (Supervised.ShapeDataset_init L "data/chairs/ten") idx);
      [|reflexivity | reflexivity | right; reflexivity | exact Hcol].
    destruct (Supervised.ShapeDataset_getitem L _ idx) as [[[n g] img] | k msg];
      [|reflexivity].
    cbn [fmap result_fmap mbind result_bind].
    destruct (Datasets.enumerate_map (PyStr.findall_obj content) !! n); reflexivity.
Qed.

(** The single chair of the example file system, seen through both
    classes. *)
Lemma script_datasets_agree_witness :
  exists self n g img,
    Datasets.ShapeDataset_init Examples.lib Datasets.ShapeDataset "data/chairs/single"
      = Ok self /\
    Supervised.ShapeDataset_getitem Examples.lib
      (Supervised.ShapeDataset_init Examples.lib "data/chairs/single") 0
      = Ok (n, g, img) /\
    Datasets.getitem Examples.lib self 0
      = Ok (Datasets.NameStr n, g, Torch.unsqueeze0 img).
Proof.
  destruct (script_datasets_agree Examples.lib) as [H _].
  destruct (H "data/chairs/single" eq_refl) as (self & Hinit & _ & Hget).
  exists self. eexists _, _, _. split; [exact Hinit|]. split; [reflexivity|].
  rewrite Hget; [reflexivity|].
  intros filename sh _ Hs. injection Hs as <-. reflexivity.
Defined.

(** ** The two convolution stacks *)

Section StackSizes.
Import Torch NN Supervised.

Ltac deconv_step :=
  cbn [sequential_from mbind result_bind apply_layer shape val];
  rewrite ?Z.eqb_refl; cbn [negb];
  repeat (rewrite leb_pos by lia); cbn [orb];
  match goal with
  | |- context [(?a <? ?b) || (?c <? ?d)] =>
      let E := fresh "E" in
      destruct ((a <? b) || (c <? d)) eqn:E;
      [ apply orb_true_iff in E; rewrite !Z.ltb_lt in E;
        unfold deconv_out in *; lia
      | apply orb_false_iff in E; rewrite !Z.ltb_ge in E ]
  end.

(** The transposed convolutions take an [h] x [w] map to one channel of
    [16 (h + 3)] x [16 (w + 3)]. *)
Lemma DeconvNet_sizes (in_dims hidden_dims n h w : Z) (t : tensor) :
  0 < in_dims -> 0 < hidden_dims ->
  0 < h -> 0 < w -> shape t = [n; in_dims; h; w] ->
  exists out,
    sequential (DeconvNet in_dims hidden_dims) t = Ok out /\
    shape out = [n; 1; 16 * (h + 3); 16 * (w + 3)].
Proof.
  intros Hin Hhid Hh Hw Hs. unfold sequential, DeconvNet.
  cbn [sequential_from apply_layer]. rewrite Hs.
  repeat deconv_step.
  cbn [sequential_from mbind result_bind shape].
  eexists. split; [reflexivity|]. cbn [shape]. unfold deconv_out.
  f_equal. f_equal. f_equal; [|f_equal]; lia.
Qed.

End StackSizes.

(** X16.  The decoder's stack of transposed convolutions turns a batch of
    [h] x [w] maps into one channel of [16 (h + 3)] x [16 (w + 3)] pixels
    (64 x 64 for the 1 x 1 map the decoders feed it), and the encoder's
    stack of convolutions undoes this on the sizes: applied to the
    decoder's output it gives an [h] x [w] map again, with three channels
    more than [id_dims].  A stack without input channels cannot be run. *)
Theorem conv_stacks_invert_sizes (in_dims hidden_dims id_dims enc_hidden n h w : Z)
    (t : Torch.tensor) :
  0 < h -> 0 < w -> 0 < hidden_dims -> 0 < enc_hidden -> 0 <= id_dims ->
  Torch.shape t = [n; in_dims; h; w] ->
  (0 < in_dims ->
   exists img code,
     NN.sequential (Supervised.DeconvNet in_dims hidden_dims) t = Ok img /\
     Torch.shape img = [n; 1; 16 * (h + 3); 16 * (w + 3)] /\
     NN.sequential
       (Supervised.Encoder.conv (Supervised.Encoder.init id_dims enc_hidden)) img
       = Ok code /\
     Torch.shape code = [n; 3 + id_dims; h; w]) /\
  (in_dims <= 0 ->
   raises (NN.sequential (Supervised.DeconvNet in_dims hidden_dims) t) RuntimeError).
Proof.
  intros Hh Hw Hhid Henc Hid Hs. split.
  - intros Hin.
    destruct (DeconvNet_sizes in_dims hidden_dims n h w t Hin Hhid Hh Hw Hs)
      as (img & Ei & Hi).
    exists img.
    pose proof (Encoder_conv_sizes id_dims enc_hidden n _ _ img Hid Henc Hi) as Hc.
    destruct (NN.sequential (Supervised.Encoder.conv _) img) as [code | k msg].
    + exists code. destruct Hc as (_ & _ & Hc). split; [exact Ei|]. split; [exact Hi|].
      split; [reflexivity|]. rewrite Hc.
      f_equal. f_equal. f_equal; [|f_equal]; Z.div_mod_to_equations; lia.
    + destruct Hc as (_ & Hc). lia.
  - intros Hin. unfold NN.sequential, Supervised.DeconvNet.
    cbn [NN.sequential_from NN.apply_layer].
    assert ((in_dims <=? 0) = true) as -> by (apply Z.leb_le; exact Hin).
    cbn [orb mbind result_bind]. eexists. reflexivity.
Qed.

(** The 1 x 1 map of the decoders. *)
Lemma conv_stacks_invert_sizes_witness :
  exists img code,
    NN.sequential (Supervised.DeconvNet 160 50)
      {| Torch.shape := [2; 160; 1; 1]; Torch.val := Torch.Var "x" |} = Ok img /\
    Torch.shape img = [2; 1; 64; 64] /\
    NN.sequential (Supervised.Encoder.conv (Supervised.Encoder.init 10 50)) img = Ok code /\
    Torch.shape code = [2; 13; 1; 1].
Proof.
  destruct (conv_stacks_invert_sizes 160 50 10 50 2 1 1
              {| Torch.shape := [2; 160; 1; 1]; Torch.val := Torch.Var "x" |})
    as [H _]; try lia; [reflexivity|].
  destruct H as (img & code & H1 & H2 & H3 & H4); [lia|].
  exists img, code. repeat split; assumption.
Defined.

(** ** [main]: the flags of the model *)

Section ModelFlags.
Import Main.
Variable W : World.

Lemma construct_named_cls (c : Datasets.dataset_class) (ds : Datasets.dataset) :
  Datasets.is_named c = true ->
  Datasets.construct (lib W) c [] = Ok ds -> Datasets.cls ds = c.
Proof.
  intros Hc. unfold Datasets.construct. cbn [List.find].
  assert (Datasets.init_body (lib W) c [] = Datasets.NamedDataset_init (lib W) c) as ->
    by (destruct c; try discriminate Hc; reflexivity).
  unfold Datasets.NamedDataset_init.
  destruct (Datasets.data_path c); [|discriminate].
  destruct (Datasets.names_path c); [|discriminate].
  destruct (Datasets.ShapeDataset_init _ _ _); [|discriminate].
  cbn [mbind result_bind].
  destruct (open_read _ _); [|discriminate].
  cbn [mbind result_bind]. intros [= <-]. reflexivity.
Qed.

(** For a dataset of [lie_vae/datasets.py] that [main] can construct, the
    flags and the fixed spectrum are the defaults. *)
Lemma select_dataset_flags (a : args) (d : dataset_handle)
    (item_rep : option Torch.tensor) :
  select_dataset W a = Ok (d, item_rep) ->
  dataset a <> "spherecube" -> dataset a <> "toy" ->
  h_rgb d = false /\ h_single_id d = false /\ item_rep = None.
Proof.
  unfold select_dataset. intros H Hsc Htoy.
  destruct (String.eqb_spec (dataset a) "objects") as [E | _].
  { destruct (Datasets.construct _ _ _) as [ds|] eqn:Ec; [|discriminate].
    apply construct_named_cls in Ec; [|reflexivity].
    cbn [mbind result_bind] in H. injection H as <- <-.
    unfold of_dataset. cbn [h_rgb h_single_id]. rewrite Ec. repeat split. }
  destruct (String.eqb_spec (dataset a) "objects3") as [E | _].
  { destruct (Datasets.construct _ _ _) as [ds|] eqn:Ec; [|discriminate].
    apply construct_named_cls in Ec; [|reflexivity].
    cbn [mbind result_bind] in H. injection H as <- <-.
    unfold of_dataset. cbn [h_rgb h_single_id]. rewrite Ec. repeat split. }
  destruct (String.eqb_spec (dataset a) "chairs") as [E | _].
  { destruct (Datasets.construct _ _ _) as [ds|] eqn:Ec; [|discriminate].
    apply construct_named_cls in Ec; [|reflexivity].
    cbn [mbind result_bind] in H. injection H as <- <-.
    unfold of_dataset. cbn [h_rgb h_single_id]. rewrite Ec. repeat split. }
  destruct (String.eqb_spec (dataset a) "humanoid") as [E | _].
  { rewrite subsample_rejected in H by discriminate. discriminate. }
  destruct (String.eqb_spec (dataset a) "chumanoid") as [E | _].
  { rewrite subsample_rejected in H by discriminate. discriminate. }
  destruct (String.eqb_spec (dataset a) "single") as [E | _].
  { rewrite subsample_rejected in H by discriminate. discriminate. }
  destruct (String.eqb_spec (dataset a) "spherecube") as [E | _]; [contradiction|].
  destruct (String.eqb_spec (dataset a) "toy") as [E | _]; [contradiction|].
  discriminate.
Qed.

End ModelFlags.

(** X17.  In a run of [main()] that returns, on a dataset that
    [lie_vae/datasets.py] defines, the model was built for one grey
    channel and several objects and without fixed spectrum: the dataset
    classes with [rgb = True] or [single_id = True] are the ones [main]
    cannot construct. *)
Theorem main_model_flags (W : Main.World) (parsed : Main.args) (o : Main.outcome W) :
  Main.main W parsed = Ok o ->
  Main.dataset parsed <> "spherecube" -> Main.dataset parsed <> "toy" ->
  Main.ChairsVAE W (Main.with_name parsed) false false None = Ok tt.
Proof.
  unfold Main.main. intros H Hsc Htoy.
  destruct (with_name_fields parsed) as (Hds & _).
  set (a' := Main.with_name parsed) in *.
  destruct (Main.select_dataset W a') as [[d item_rep]|] eqn:E1; [|discriminate].
  cbn [mbind result_bind] in H.
  destruct (Main.h_len d =? 0); [discriminate|]. cbn [mbind result_bind] in H.
  destruct (bool_decide (Main.mlp_activation a' ∈ Main.mlp_activations));
    [|discriminate].
  cbn [mbind result_bind] in H.
  apply select_dataset_flags in E1 as (Hr & Hs & Hi); [|congruence|congruence].
  rewrite Hr, Hs, Hi in H.
  destruct (Main.ChairsVAE W a' false false None) as [[]|]; [reflexivity|discriminate].
Qed.

(** The chairs with the default options. *)
Lemma main_model_flags_witness :
  let a := Examples.command_line "chairs" "unsupervised" None None None (Some 50) 2 in
  exists o,
    Main.main (Examples.world [5; 4; 4]) a = Ok o /\
    Main.ChairsVAE (Examples.world [5; 4; 4]) (Main.with_name a) false false None = Ok tt.
Proof.
  intros a.
  destruct (Main.main (Examples.world [5; 4; 4]) a) as [o | k msg] eqn:Ho;
    [|vm_compute in Ho; discriminate Ho].
  exists o. split; [reflexivity|].
  apply (main_model_flags _ _ _ Ho); discriminate.
Defined.
